(** * Smarter eraser: a shallow embedding of [src/App.tsx]

    The application is one React component.  Its state hooks become the
    record [AppState]; every handler ([handleImageUpload], [clearImage],
    [processImage], [downloadResult]) becomes a function on that record.
    The three libraries the handlers call (the generative edit client,
    the PDF decoder and the PDF writer) are collaborators: the edit
    client is an oracle threading its own state, the PDF decoder and the
    browser are families of fallible functions, and the PDF writer is a
    small document model.

    JavaScript strings are modelled as [string] (the UTF-8 bytes of the
    text), [undefined] and [null] as [None], exceptions as the [Throw]
    branch of [Result], and JavaScript numbers that are counts or sizes
    as [nat] or [N].  The page geometry of the export is computed over
    [Q]: the arithmetic of the source is read as exact arithmetic. *)

From Stdlib Require Import List String Ascii Bool Arith NArith Lia.
From Stdlib Require Import QArith Lqa DecimalString.
Import ListNotations.

Local Open Scope string_scope.
Local Open Scope nat_scope.
Local Open Scope list_scope.

(** ** JavaScript helpers *)

Module Js.

(** An [Error] object as the handlers see it: only [message] is read,
    and it may be missing. *)
Record Error : Type := mkError { message : option string }.

(** [new Error(msg)] *)
Definition newError (msg : string) : Error := mkError (Some msg).

(** Truthiness of a string: every string but the empty one. *)
Definition truthy (s : string) : bool :=
  match s with
  | EmptyString => false
  | String _ _ => true
  end.

(** Truthiness of a [string | null | undefined]. *)
Definition truthyOpt (o : option string) : bool :=
  match o with
  | Some s => truthy s
  | None => false
  end.

(** [o || d] for a value that is a string or missing. *)
Definition orElse (o : option string) (d : string) : string :=
  match o with
  | Some s => if truthy s then s else d
  | None => d
  end.

(** [`${o}`]: a missing value prints as [undefined]. *)
Definition interpolate (o : option string) : string :=
  match o with
  | Some s => s
  | None => "undefined"
  end.

(** [`${n}`] for a non-negative integer. *)
Definition numberToString (n : nat) : string :=
  NilZero.string_of_uint (Nat.to_uint n).

(** [s.split(sep)] for a one-character separator. *)
Fixpoint split (sep : ascii) (s : string) : list string :=
  match s with
  | EmptyString => [EmptyString]
  | String c rest =>
      if Ascii.eqb c sep then EmptyString :: split sep rest
      else match split sep rest with
           | [] => [String c EmptyString]
           | h :: t => String c h :: t
           end
  end.

(** [hay.includes(needle)] *)
Fixpoint includes (needle hay : string) : bool :=
  String.prefix needle hay
  || match hay with
     | EmptyString => false
     | String _ rest => includes needle rest
     end.

End Js.

(** ** Exceptions *)

Inductive Result (A : Type) : Type :=
| Ok (a : A)
| Throw (e : Js.Error).

Arguments Ok {A} a.
Arguments Throw {A} e.

Definition bind {A B : Type} (c : Result A) (k : A -> Result B) : Result B :=
  match c with
  | Ok a => k a
  | Throw e => Throw e
  end.

Notation "x <- c ;; k" := (bind c (fun x => k))
  (at level 61, c at next level, right associativity).

(** ** The component state *)

Inductive ViewMode : Type := single | compare.

Record AppState : Type := mkAppState {
  sourcePages : list string;
  sourceMimeType : option string;
  resultPages : list string;
  isProcessing : bool;
  isUploading : bool;
  error : option string;
  userPrompt : string;
  viewMode : ViewMode;
  fileInputValue : string
}.

(** [useState] initial values; the file input starts with no file. *)
Definition initialState : AppState :=
  mkAppState [] None [] false false None "" single "".

Definition setSourcePages (v : list string) (st : AppState) : AppState :=
  mkAppState v (sourceMimeType st) (resultPages st) (isProcessing st)
    (isUploading st) (error st) (userPrompt st) (viewMode st)
    (fileInputValue st).

Definition setSourceMimeType (v : option string) (st : AppState) : AppState :=
  mkAppState (sourcePages st) v (resultPages st) (isProcessing st)
    (isUploading st) (error st) (userPrompt st) (viewMode st)
    (fileInputValue st).

Definition setResultPages (v : list string) (st : AppState) : AppState :=
  mkAppState (sourcePages st) (sourceMimeType st) v (isProcessing st)
    (isUploading st) (error st) (userPrompt st) (viewMode st)
    (fileInputValue st).

Definition setIsProcessing (v : bool) (st : AppState) : AppState :=
  mkAppState (sourcePages st) (sourceMimeType st) (resultPages st) v
    (isUploading st) (error st) (userPrompt st) (viewMode st)
    (fileInputValue st).

Definition setIsUploading (v : bool) (st : AppState) : AppState :=
  mkAppState (sourcePages st) (sourceMimeType st) (resultPages st)
    (isProcessing st) v (error st) (userPrompt st) (viewMode st)
    (fileInputValue st).

Definition setError (v : option string) (st : AppState) : AppState :=
  mkAppState (sourcePages st) (sourceMimeType st) (resultPages st)
    (isProcessing st) (isUploading st) v (userPrompt st) (viewMode st)
    (fileInputValue st).

(** [fileInputRef.current.value = ''] *)
Definition resetFileInput (st : AppState) : AppState :=
  mkAppState (sourcePages st) (sourceMimeType st) (resultPages st)
    (isProcessing st) (isUploading st) (error st) (userPrompt st)
    (viewMode st) "".

(** ** The edit service: requests and responses *)

Module GenAI.

Record InlineData : Type := mkInlineData {
  data : option string;
  mimeType : option string
}.

Record Part : Type := mkPart {
  inlineData : option InlineData;
  text : option string
}.

Record Content : Type := mkContent { parts : option (list Part) }.

Record Candidate : Type := mkCandidate { content : option Content }.

Record Response : Type := mkResponse {
  candidates : option (list Candidate)
}.

(** The argument of [ai.models.generateContent]: the model name, the
    two parts of [contents] and the system instruction. *)
Record Request : Type := mkRequest {
  model : string;
  imageData : option string;
  imageMimeType : string;
  instruction : string;
  systemInstruction : string
}.

End GenAI.

Import GenAI.

(** [response.candidates && response.candidates[0]?.content?.parts]:
    the parts the loop iterates, none when the chain is falsy. *)
Definition responseParts (response : Response) : list Part :=
  match candidates response with
  | Some (first :: _) =>
      match content first with
      | Some c =>
          match parts c with
          | Some ps => ps
          | None => []
          end
      | None => []
      end
  | _ => []
  end.

(** [`data:${part.inlineData.mimeType || 'image/png'};base64,${data}`] *)
Definition imageUrl (d : InlineData) : string :=
  "data:" ++ Js.orElse (mimeType d) "image/png" ++ ";base64,"
  ++ Js.interpolate (data d).

(** The [for ... of] over the parts: [Some url] when an inline-image part
    ended the loop ([foundImage]), otherwise the accumulated
    [textResponse]. *)
Fixpoint scanParts (ps : list Part) (textResponse : string)
  : option string * string :=
  match ps with
  | [] => (None, textResponse)
  | part :: rest =>
      match inlineData part with
      | Some d => (Some (imageUrl d), textResponse)
      | None =>
          if Js.truthyOpt (text part)
          then scanParts rest (textResponse ++ Js.interpolate (text part))
          else scanParts rest textResponse
      end
  end.

(** The message of the error thrown for page index [i] (0-based). *)
Definition noImageMessage (i : nat) (textResponse : string) : string :=
  "第 " ++ Js.numberToString (i + 1) ++ " 页未能生成图像。AI回复: "
  ++ Js.orElse (Some textResponse) "无".

(** Lines 153-171: what one response contributes for page index [i]. *)
Definition interpretResponse (response : Response) (i : nat) : Result string :=
  match scanParts (responseParts response) "" with
  | (Some url, _) => Ok url
  | (None, textResponse) => Throw (Js.newError (noImageMessage i textResponse))
  end.

(** ** [processImage] *)

(** One call of the service as the run saw it: the request issued and
    what came back (a response, or a rejected promise). *)
Definition Exchange : Type := (Request * Result Response)%type.

(** How a call of [processImage] ended. *)
Inductive RunOutcome : Type :=
| skipped                      (* the guard of line 120 returned *)
| completed                    (* the loop ran off the end of the pages *)
| failed (e : Js.Error).       (* the [catch] block ran *)

Section EditRun.

(** The edit client.  [World] is whatever the remote service depends
    on; a call may answer or throw, and moves the world on. *)
Context {World : Type}.
Variable generateContent : World -> Request -> Result Response * World.

(** [String.prototype.trim] *)
Variable trim : string -> string.

(** [sourcePages[i].split(',')[1]] *)
Definition base64Data (page : string) : option string :=
  nth_error (Js.split "," page) 1.

(** The request of lines 131-151 for one page. *)
Definition buildRequest (mime prompt page : string) : Request :=
  mkRequest
    "gemini-2.5-flash-image"
    (base64Data page)
    mime
    ("TASK: Image Editing.
INSTRUCTION: " ++ trim prompt ++ "
REQUIREMENT: Output ONLY the edited image. Do not add any new elements not requested. Maintain the original resolution and style.")
    "You are a professional document and image restoration expert. Your specialty is removing handwriting, marks, and annotations from scanned documents and photos while perfectly preserving the original printed text and background structure. You always output the modified image directly.".

(** The state of the [try] block when it is left. *)
Record LoopEnd : Type := mkLoopEnd {
  thrown : option Js.Error;
  endState : AppState;
  endWorld : World;
  exchanges : list Exchange;
  (** the component state at each [await] of the loop, in order *)
  suspended : list AppState
}.

(** The [for] loop of lines 128-175, entered at index [i] with the pages
    from [i] on still to do and [results] holding the pages done. *)
Fixpoint editLoop (mime prompt : string) (pages : list string) (i : nat)
    (results : list string) (w : World) (st : AppState) : LoopEnd :=
  match pages with
  | [] => mkLoopEnd None st w [] []
  | page :: rest =>
      let request := buildRequest mime prompt page in
      let (answer, w') := generateContent w request in
      match (response <- answer ;; interpretResponse response i) with
      | Throw e => mkLoopEnd (Some e) st w' [(request, answer)] [st]
      | Ok url =>
          let results' := results ++ [url] in
          let r := editLoop mime prompt rest (S i) results' w'
                     (setResultPages results' st) in
          mkLoopEnd (thrown r) (endState r) (endWorld r)
            ((request, answer) :: exchanges r) (st :: suspended r)
      end
  end.

Record Run : Type := mkRun {
  outcome : RunOutcome;
  finalState : AppState;
  finalWorld : World;
  (** the calls of the service, in the order they were made *)
  issued : list Exchange;
  (** the states other handlers can observe while the run is suspended *)
  observed : list AppState
}.

(** Lines 119-182. *)
Definition processImage (w : World) (st : AppState) : Run :=
  if (List.length (sourcePages st) =? 0)%nat
     || negb (Js.truthyOpt (sourceMimeType st))
  then mkRun skipped st w [] []
  else
    let mime := Js.interpolate (sourceMimeType st) in
    let st1 := setResultPages [] (setError None (setIsProcessing true st)) in
    let r := editLoop mime (userPrompt st) (sourcePages st) 0 [] w st1 in
    match thrown r with
    | Some err =>
        mkRun (failed err)
          (setIsProcessing false
             (setError (Some (Js.orElse (Js.message err) "处理图像时发生错误。"))
                (endState r)))
          (endWorld r) (exchanges r) (suspended r)
    | None =>
        mkRun completed (setIsProcessing false (endState r))
          (endWorld r) (exchanges r) (suspended r)
    end.

(** The same loop when other handlers run while a request is pending:
    [others i] is what they did to the component state during the
    request of page index [i].  The loop keeps the pages, the MIME type
    and the prompt it captured, and its own [results]; what it writes,
    it writes over the state the others left. *)
Fixpoint editLoopAmid (others : nat -> AppState -> AppState)
    (mime prompt : string) (pages : list string) (i : nat)
    (results : list string) (w : World) (st : AppState) : LoopEnd :=
  match pages with
  | [] => mkLoopEnd None st w [] []
  | page :: rest =>
      let request := buildRequest mime prompt page in
      let (answer, w') := generateContent w request in
      let st' := others i st in
      match (response <- answer ;; interpretResponse response i) with
      | Throw e => mkLoopEnd (Some e) st' w' [(request, answer)] [st]
      | Ok url =>
          let results' := results ++ [url] in
          let r := editLoopAmid others mime prompt rest (S i) results' w'
                     (setResultPages results' st') in
          mkLoopEnd (thrown r) (endState r) (endWorld r)
            ((request, answer) :: exchanges r) (st :: suspended r)
      end
  end.

Definition processImageAmid (others : nat -> AppState -> AppState)
    (w : World) (st : AppState) : Run :=
  if (List.length (sourcePages st) =? 0)%nat
     || negb (Js.truthyOpt (sourceMimeType st))
  then mkRun skipped st w [] []
  else
    let mime := Js.interpolate (sourceMimeType st) in
    let st1 := setResultPages [] (setError None (setIsProcessing true st)) in
    let r := editLoopAmid others mime (userPrompt st) (sourcePages st) 0 []
               w st1 in
    match thrown r with
    | Some err =>
        mkRun (failed err)
          (setIsProcessing false
             (setError (Some (Js.orElse (Js.message err) "处理图像时发生错误。"))
                (endState r)))
          (endWorld r) (exchanges r) (suspended r)
    | None =>
        mkRun completed (setIsProcessing false (endState r))
          (endWorld r) (exchanges r) (suspended r)
    end.

End EditRun.

(** ** [handleImageUpload] *)

(** The [File] of the change event, as far as the handler reads it. *)
Record File : Type := mkFile {
  fileName : string;
  fileSize : N;
  fileType : string
}.

(** The browser and PDF-decoder calls a handler makes, for the log. *)
Inductive Call : Type :=
| callTimeout
| callArrayBuffer
| callGetDocument
| callGetPage (pageNumber : nat)
| callRender (pageNumber : nat)
| callReadAsDataURL.

(** A computation that may throw and records the calls it made. *)
Definition Logged (A : Type) : Type := (list Call * Result A)%type.

Definition ret {A : Type} (a : A) : Logged A := ([], Ok a).

Definition raise {A : Type} (e : Js.Error) : Logged A := ([], Throw e).

Definition call {A : Type} (c : Call) (r : Result A) : Logged A := ([c], r).

Definition lbind {A B : Type} (c : Logged A) (k : A -> Logged B) : Logged B :=
  match c with
  | (log, Ok a) => let (log', r) := k a in (log ++ log', r)
  | (log, Throw e) => (log, Throw e)
  end.

Notation "x <~ c ;; k" := (lbind c (fun x => k))
  (at level 61, c at next level, right associativity).

(** [100 * 1024 * 1024] *)
Definition maxFileSize : N := 100 * 1024 * 1024.

Record Upload : Type := mkUpload {
  uploadState : AppState;
  calls : list Call;
  (** the state other handlers can observe while the upload is suspended *)
  uploadObserved : list AppState
}.

Section Uploader.

(** The PDF decoder and the browser. *)
Context {Bytes PdfDocument PdfPage Viewport Canvas : Type}.
Variable arrayBuffer : File -> Result Bytes.
Variable getDocument : Bytes -> Result PdfDocument.
Variable numPages : PdfDocument -> nat.
Variable getPage : PdfDocument -> nat -> Result PdfPage.
Variable getViewport : PdfPage -> Q -> Viewport.
(** whether [getContext('2d')] gave a context for the canvas of page [i] *)
Variable getContext2d : nat -> bool.
(** the canvas, sized to the viewport, after [page.render] resolved *)
Variable render : PdfPage -> Viewport -> Result Canvas.
Variable toDataURL : Canvas -> string -> string.
(** [reader.result] when [onloadend] fires *)
Variable readAsDataURL : File -> string.

(** The body of the [for] loop of lines 67-85 for page number [i]. *)
Definition rasterizePage (pdf : PdfDocument) (i : nat) : Logged string :=
  page <~ call (callGetPage i) (getPage pdf i) ;;
  let viewport := getViewport page 2 in
  if getContext2d i then
    canvas <~ call (callRender i) (render page viewport) ;;
    ret (toDataURL canvas "image/png")
  else raise (Js.newError "无法创建画布").

(** Page [k] of [pdf] loads, gets a canvas context and renders at scale
    2 into [canvas]. *)
Definition rendersAt (pdf : PdfDocument) (k : nat) (page : PdfPage)
    (canvas : Canvas) : Prop :=
  getPage pdf k = Ok page
  /\ getContext2d k = true
  /\ render page (getViewport page 2) = Ok canvas.

(** The loop from page number [i] with [remaining] pages to go. *)
Fixpoint rasterizeFrom (pdf : PdfDocument) (i remaining : nat)
    (pages : list string) : Logged (list string) :=
  match remaining with
  | O => ret pages
  | S remaining' =>
      url <~ rasterizePage pdf i ;;
      rasterizeFrom pdf (S i) remaining' (pages ++ [url])
  end.

(** The [try] block of lines 55-88 up to the two setters. *)
Definition readPdf (file : File) : Logged (list string) :=
  typedarray <~ call callArrayBuffer (arrayBuffer file) ;;
  pdf <~ call callGetDocument (getDocument typedarray) ;;
  rasterizeFrom pdf 1 (numPages pdf) [].

Definition pdfErrorMessage (err : Js.Error) : string :=
  "读取 PDF 文件时发生错误: " ++ Js.orElse (Js.message err) "未知错误".

(** Lines 37-107; [file] is [e.target.files?.[0]]. *)
Definition handleImageUpload (st : AppState) (file : option File) : Upload :=
  match file with
  | None => mkUpload st [] []
  | Some file =>
      if (maxFileSize <? fileSize file)%N
      then mkUpload (setError (Some "文件大小不能超过 100MB") st) [] []
      else
        let st1 :=
          setSourcePages []
            (setResultPages [] (setError None (setIsUploading true st))) in
        if (fileType file =? "application/pdf")%string then
          let (log, r) := readPdf file in
          let st2 :=
            match r with
            | Ok pages =>
                setSourceMimeType (Some "image/png") (setSourcePages pages st1)
            | Throw err => setError (Some (pdfErrorMessage err)) st1
            end in
          mkUpload (resetFileInput (setIsUploading false st2))
            (callTimeout :: log) [st1]
        else
          let base64String := readAsDataURL file in
          mkUpload
            (resetFileInput
               (setIsUploading false
                  (setSourceMimeType (Some (fileType file))
                     (setSourcePages [base64String] st1))))
            [callTimeout; callReadAsDataURL] [st1]
  end.

End Uploader.

(** ** [clearImage] (lines 109-117) *)

Definition clearImage (st : AppState) : AppState :=
  resetFileInput
    (setError None
       (setResultPages [] (setSourceMimeType None (setSourcePages [] st)))).

(** ** [downloadResult] *)

(** What [pdf.getImageProperties] reports: pixel sizes, never zero. *)
Record ImageProperties : Type := mkImageProperties {
  width : positive;
  height : positive
}.

(** One [addImage]: the data, the format tag and the box in page units. *)
Record Placement : Type := mkPlacement {
  placedImage : string;
  format : string;
  boxX : Q;
  boxY : Q;
  boxWidth : Q;
  boxHeight : Q
}.

(** The document a [jsPDF] object holds: its constructor arguments and
    its pages, each the images placed on it.  A new document has one
    empty page; [addPage] appends one and makes it current; [addImage]
    draws on the current (last) page. *)
Record JsPdf : Type := mkJsPdf {
  orientation : string;
  units : string;
  paper : string;
  pdfPages : list (list Placement)
}.

Definition newJsPdf (o u f : string) : JsPdf := mkJsPdf o u f [[]].

Definition addPage (pdf : JsPdf) : JsPdf :=
  mkJsPdf (orientation pdf) (units pdf) (paper pdf) (pdfPages pdf ++ [[]]).

Definition addImage (p : Placement) (pdf : JsPdf) : JsPdf :=
  mkJsPdf (orientation pdf) (units pdf) (paper pdf)
    (match rev (pdfPages pdf) with
     | [] => []
     | current :: before => rev before ++ [current ++ [p]]
     end).

(** What a click on the download button comes to: the handler returns
    at its guard, clicks a link, saves a PDF, or throws before anything
    was saved. *)
Inductive Download : Type :=
| noDownload
| anchorClick (href download : string)
| pdfSave (pdf : JsPdf) (filename : string)
| downloadThrows (e : Js.Error).

Definition Qgtb (a b : Q) : bool := negb (Qle_bool a b).

Section ResultAssembler.

(** [pdf.internal.pageSize.getWidth()] and [getHeight()] of the new
    document, in its unit. *)
Variables pdfWidth pdfHeight : Q.
(** [pdf.getImageProperties]: the PDF writer decodes the image data of
    the page and throws when it cannot.  [pdf.addImage] runs the same
    decoder on the same data, so it does not throw once the properties
    were read. *)
Variable getImageProperties : string -> Result ImageProperties.

(** Lines 203-218: the box of one image whose properties were read. *)
Definition placeImage (pageData : string) (imgProps : ImageProperties)
  : Placement :=
  let ratio := (inject_Z (Zpos (width imgProps))
                / inject_Z (Zpos (height imgProps)))%Q in
  let pdfRatio := (pdfWidth / pdfHeight)%Q in
  let finalWidth := if Qgtb ratio pdfRatio then pdfWidth
                    else (pdfHeight * ratio)%Q in
  let finalHeight := if Qgtb ratio pdfRatio then (pdfWidth / ratio)%Q
                     else pdfHeight in
  let x := ((pdfWidth - finalWidth) / 2)%Q in
  let y := ((pdfHeight - finalHeight) / 2)%Q in
  mkPlacement pageData "PNG" x y finalWidth finalHeight.

(** The [forEach] callback applied from index [index] on; an exception
    of the callback ends the [forEach]. *)
Fixpoint appendPages (pages : list string) (index : nat) (pdf : JsPdf)
  : Result JsPdf :=
  match pages with
  | [] => Ok pdf
  | pageData :: rest =>
      let pdf1 := if (0 <? index)%nat then addPage pdf else pdf in
      imgProps <- getImageProperties pageData ;;
      appendPages rest (S index)
        (addImage (placeImage pageData imgProps) pdf1)
  end.

(** Lines 184-223.  Nothing catches what the callback throws, so
    [pdf.save] is reached only when every page was placed. *)
Definition downloadResult (st : AppState) : Download :=
  match resultPages st with
  | [] => noDownload
  | [page] => anchorClick page "cleaned_worksheet.png"
  | pages =>
      match appendPages pages 0 (newJsPdf "p" "mm" "a4") with
      | Ok pdf => pdfSave pdf "cleaned_document.pdf"
      | Throw e => downloadThrows e
      end
  end.

(** The PDF writer decodes each page of [pages], with the properties
    listed in [props]. *)
Definition decodes (pages : list string) (props : list ImageProperties)
  : Prop :=
  Forall2 (fun page imgProps => getImageProperties page = Ok imgProps)
    pages props.

(** The pages of the document for decoded result pages: one page each,
    holding the one image. *)
Definition placements (pages : list string) (props : list ImageProperties)
  : list (list Placement) :=
  map (fun pp => [placeImage (fst pp) (snd pp)]) (combine pages props).

End ResultAssembler.

(** ** Reading a run: what a response holds, what a run stored *)

(** A part carries an inline image when its [inlineData] is present. *)
Definition isInlineImage (p : Part) : bool :=
  match inlineData p with
  | Some _ => true
  | None => false
  end.

(** The predicate in the words of the specification, for comparison with
    the test of line 157: a part contains inline image bytes when its
    [inlineData] is present and holds [data]. *)
Definition containsImageBytes (p : Part) : bool :=
  match inlineData p with
  | Some d =>
      match data d with
      | Some _ => true
      | None => false
      end
  | None => false
  end.

(** A response contains an inline-image part. *)
Definition hasInlineImage (response : Response) : bool :=
  existsb isInlineImage (responseParts response).

(** The service answered, and with an inline-image part. *)
Definition answeredWithImage (answer : Result Response) : bool :=
  match answer with
  | Ok response => hasInlineImage response
  | Throw _ => false
  end.

(** An exchange that came back with an inline-image part. *)
Definition withImage (ex : Exchange) : Prop :=
  answeredWithImage (snd ex) = true.

(** The text of every text part, in order. *)
Definition allText (ps : list Part) : string :=
  fold_right (fun p acc => Js.orElse (text p) "" ++ acc)%string "" ps.

(** The page a successful exchange yields. *)
Definition answerUrl (answer : Result Response) : option string :=
  match answer with
  | Ok response => fst (scanParts (responseParts response) "")
  | Throw _ => None
  end.

(** The pages a sequence of exchanges yields, in order. *)
Definition pagesOf (exs : list Exchange) : list string :=
  flat_map (fun ex => match answerUrl (snd ex) with
                      | Some url => [url]
                      | None => []
                      end) exs.

(** The error an exchange without image raises at page index [i]. *)
Definition errorOf (answer : Result Response) (i : nat) : Js.Error :=
  match answer with
  | Ok response =>
      Js.newError
        (noImageMessage i (snd (scanParts (responseParts response) "")))
  | Throw e => e
  end.

(** The exchanges are the oracle's: each answer is what the service gave
    for that request in the world the previous calls left. *)
Fixpoint served {World : Type}
    (generateContent : World -> Request -> Result Response * World)
    (w : World) (exs : list Exchange) : Prop :=
  match exs with
  | [] => True
  | (request, answer) :: rest =>
      fst (generateContent w request) = answer
      /\ served generateContent (snd (generateContent w request)) rest
  end.

(** ** Sessions: the handlers run one after the other *)

Definition setUserPrompt (v : string) (st : AppState) : AppState :=
  mkAppState (sourcePages st) (sourceMimeType st) (resultPages st)
    (isProcessing st) (isUploading st) (error st) v (viewMode st)
    (fileInputValue st).

Definition setViewMode (v : ViewMode) (st : AppState) : AppState :=
  mkAppState (sourcePages st) (sourceMimeType st) (resultPages st)
    (isProcessing st) (isUploading st) (error st) (userPrompt st) v
    (fileInputValue st).

(** Where the latest edit run over the current document stands. *)
Inductive RunStatus : Type :=
| noRun          (* no run since the document was loaded or cleared *)
| inFlight       (* a run is suspended at a request *)
| allPagesDone   (* the latest run left its loop after the last page *)
| aborted.       (* the latest run ended in its [catch] block *)

(** An upload that passes the size check resets the document. *)
Definition statusAfterUpload (file : option File) (s : RunStatus) : RunStatus :=
  match file with
  | None => s
  | Some f => if (maxFileSize <? fileSize f)%N then s else noRun
  end.

Definition statusAfterRun (o : RunOutcome) (s : RunStatus) : RunStatus :=
  match o with
  | skipped => s
  | completed => allPagesDone
  | failed _ => aborted
  end.

(** What each standing says about the two sequences. *)
Definition standing (st : AppState) (s : RunStatus) : Prop :=
  match s with
  | noRun => resultPages st = []
  | inFlight | aborted =>
      List.length (resultPages st) < List.length (sourcePages st)
  | allPagesDone =>
      List.length (resultPages st) = List.length (sourcePages st)
  end.

Section Session.

Context {World Bytes PdfDocument PdfPage Viewport Canvas : Type}.
Variable generateContent : World -> Request -> Result Response * World.
Variable trim : string -> string.
Variable arrayBuffer : File -> Result Bytes.
Variable getDocument : Bytes -> Result PdfDocument.
Variable numPages : PdfDocument -> nat.
Variable getPage : PdfDocument -> nat -> Result PdfPage.
Variable getViewport : PdfPage -> Q -> Viewport.
Variable getContext2d : nat -> bool.
Variable render : PdfPage -> Viewport -> Result Canvas.
Variable toDataURL : Canvas -> string -> string.
Variable readAsDataURL : File -> string.

Definition upload (st : AppState) (file : option File) : Upload :=
  handleImageUpload arrayBuffer getDocument numPages getPage getViewport
    getContext2d render toDataURL readAsDataURL st file.

(** The states in which no handler is suspended, with the world of the
    edit service and the standing of the latest run.  Each handler is
    started only there, so no two handlers overlap. *)
Inductive idle : World -> AppState -> RunStatus -> Prop :=
| idle_init (w : World) :
    idle w initialState noRun
| idle_prompt (w : World) (st : AppState) (s : RunStatus) (p : string) :
    idle w st s -> idle w (setUserPrompt p st) s
| idle_view (w : World) (st : AppState) (s : RunStatus) (v : ViewMode) :
    idle w st s -> idle w (setViewMode v st) s
| idle_upload (w : World) (st : AppState) (s : RunStatus)
    (file : option File) :
    idle w st s ->
    idle w (uploadState (upload st file)) (statusAfterUpload file s)
| idle_clear (w : World) (st : AppState) (s : RunStatus) :
    idle w st s -> idle w (clearImage st) noRun
| idle_download (w : World) (st : AppState) (s : RunStatus)
    (pdfWidth pdfHeight : Q)
    (getImageProperties : string -> Result ImageProperties) (d : Download) :
    idle w st s ->
    downloadResult pdfWidth pdfHeight getImageProperties st = d ->
    idle w st s
| idle_run (w : World) (st : AppState) (s : RunStatus) :
    idle w st s ->
    idle (finalWorld (processImage generateContent trim w st))
      (finalState (processImage generateContent trim w st))
      (statusAfterRun (outcome (processImage generateContent trim w st)) s).

(** Every state the view can render: the idle ones and the ones a
    suspended upload or run leaves standing. *)
Inductive visible : AppState -> RunStatus -> Prop :=
| visible_idle (w : World) (st : AppState) (s : RunStatus) :
    idle w st s -> visible st s
| visible_uploading (w : World) (st : AppState) (s : RunStatus)
    (file : option File) (st' : AppState) :
    idle w st s ->
    In st' (uploadObserved (upload st file)) ->
    visible st' noRun
| visible_running (w : World) (st : AppState) (s : RunStatus)
    (st' : AppState) :
    idle w st s ->
    In st' (observed (processImage generateContent trim w st)) ->
    visible st' inFlight.

End Session.

(** ** The view (lines 225-512)

    The JSX is a function of the state; what follows are the conditions
    and texts it computes, each under the name of the element it
    decides. *)

(** [{error && (...)}] (line 287): the banner and its text. *)
Definition errorBanner (st : AppState) : option string :=
  if Js.truthyOpt (error st) then error st else None.

(** The clear button is rendered when [sourcePages.length > 0]
    (line 309). *)
Definition clearButtonVisible (st : AppState) : bool :=
  0 <? List.length (sourcePages st).

(** The drop target is rendered when [!sourcePages.length] (line 320);
    its click opens the file picker when [!isUploading] (line 322). *)
Definition dropTargetVisible (st : AppState) : bool :=
  List.length (sourcePages st) =? 0.

Definition dropTargetOpensPicker (st : AppState) : bool :=
  negb (isUploading st).

(** The three looks of the start button (lines 379-385). *)
Inductive StartStyle : Type := unavailable | busy | active.

(** One row of the result list (lines 444-484): its label, the original
    beside it in compare mode ([sourcePages[idx]], which may be missing)
    and the result image. *)
Record ResultRow : Type := mkResultRow {
  rowLabel : string;
  rowOriginal : option (option string);
  rowResult : string
}.

Fixpoint resultRowsFrom (mode : ViewMode) (sources : list string)
    (idx : nat) (pages : list string) : list ResultRow :=
  match pages with
  | [] => []
  | page :: rest =>
      mkResultRow
        ("第 " ++ Js.numberToString (idx + 1) ++ " 页")%string
        (match mode with
         | compare => Some (nth_error sources idx)
         | single => None
         end)
        page
      :: resultRowsFrom mode sources (S idx) rest
  end.

(** The result panel (lines 441-507): the rows and, below them, the text
    of the pending page; or the large spinner; or the placeholder. *)
Inductive ResultPanel : Type :=
| panelPages (rows : list ResultRow) (pending : option string)
| panelBusy
| panelPlaceholder.

Definition resultPanel (st : AppState) : ResultPanel :=
  if 0 <? List.length (resultPages st) then
    panelPages
      (resultRowsFrom (viewMode st) (sourcePages st) 0 (resultPages st))
      (if isProcessing st
          && (List.length (resultPages st) <? List.length (sourcePages st))
       then Some ("正在处理第 "
                  ++ Js.numberToString (List.length (resultPages st) + 1)
                  ++ " 页...")%string
       else None)
  else if isProcessing st then panelBusy
  else panelPlaceholder.

(** The view toggle and the download button are rendered when
    [resultPages.length > 0] (lines 409 and 429). *)
Definition downloadButtonVisible (st : AppState) : bool :=
  0 <? List.length (resultPages st).

Section StartButton.

Variable trim : string -> string.

(** [disabled] of the start button (line 378). *)
Definition startDisabled (st : AppState) : bool :=
  (List.length (sourcePages st) =? 0)
  || isProcessing st
  || negb (Js.truthy (trim (userPrompt st))).

(** [className] of the start button (lines 380-384). *)
Definition startStyle (st : AppState) : StartStyle :=
  if (List.length (sourcePages st) =? 0)
     || negb (Js.truthy (trim (userPrompt st)))
  then unavailable
  else if isProcessing st then busy
  else active.

(** The text of the start button (lines 387-397). *)
Definition startLabel (st : AppState) : string :=
  if isProcessing st then
    "AI 正在处理... ("
    ++ Js.numberToString (List.length (resultPages st)) ++ "/"
    ++ Js.numberToString (List.length (sourcePages st)) ++ ")"
  else if List.length (sourcePages st) =? 0 then "请先上传文件"
  else if negb (Js.truthy (trim (userPrompt st))) then "请先输入清除需求"
  else "开始智能擦除".

End StartButton.

(** Two states that differ at most in the fields a run writes:
    [resultPages], [isProcessing] and [error]. *)
Definition sameDocument (a b : AppState) : Prop :=
  sourcePages a = sourcePages b
  /\ sourceMimeType a = sourceMimeType b
  /\ userPrompt a = userPrompt b
  /\ viewMode a = viewMode b
  /\ isUploading a = isUploading b
  /\ fileInputValue a = fileInputValue b.

(** A data URL with a base64 payload, as far as its shape goes. *)
Definition isDataUrl (s : string) : bool :=
  String.prefix "data:" s && Js.includes ";base64," s.

(** What every state of a session satisfies besides the bound on the
    result pages: an error that is set has a text, a loaded document has
    a MIME type, and the result pages are data URLs. *)
Definition sane (st : AppState) : Prop :=
  error st <> Some ""
  /\ (sourcePages st <> [] -> sourceMimeType st <> None)
  /\ Forall (fun page => isDataUrl page = true) (resultPages st).

(** The character does not occur in the string. *)
Fixpoint lacks (c : ascii) (s : string) : bool :=
  match s with
  | EmptyString => true
  | String x rest => negb (Ascii.eqb x c) && lacks c rest
  end.

(** ** Test doubles *)

Module Fake.

(** An edit service that replays canned answers and then fails. *)
Definition scripted (w : list (Result Response)) (_ : Request)
  : Result Response * list (Result Response) :=
  match w with
  | [] => (Throw (Js.newError "network error"), [])
  | answer :: rest => (answer, rest)
  end.

(** An edit service that answers every request with the same image. *)
Definition imagePart (d m : option string) : Part :=
  mkPart (Some (mkInlineData d m)) None.

Definition textPart (t : string) : Part := mkPart None (Some t).

Definition respond (ps : list Part) : Response :=
  mkResponse (Some [mkCandidate (Some (mkContent (Some ps)))]).

Definition alwaysImage (w : unit) (_ : Request) : Result Response * unit :=
  (Ok (respond [imagePart (Some "QUJD") (Some "image/png")]), w).

Definition noTrim (s : string) : string := s.

(** The user clears the document while the first request is pending. *)
Definition clearDuringFirst (i : nat) (st : AppState) : AppState :=
  if (i =? 0)%nat then clearImage st else st.

(** A document loaded and not yet edited. *)
Definition loaded (pages : list string) (mime : option string) : AppState :=
  mkAppState pages mime [] false false None "erase the answers" single "".

(** A PDF decoder whose documents are their page counts, whose pages
    are their numbers, and that fails to render page [bad]. *)
Definition arrayBuffer (f : File) : Result string := Ok (fileName f).

Definition getDocument (n : nat) (_ : string) : Result nat := Ok n.

Definition numPages (pdf : nat) : nat := pdf.

Definition getPage (pdf : nat) (i : nat) : Result nat := Ok i.

Definition getViewport (page : nat) (scale : Q) : nat * Q := (page, scale).

Definition getContext2d (_ : nat) : bool := true.

Definition render (bad : nat) (page : nat) (_ : nat * Q) : Result nat :=
  if (page =? bad)%nat then Throw (Js.newError "render failed")
  else Ok page.

Definition toDataURL (canvas : nat) (mime : string) : string :=
  "data:" ++ mime ++ ";base64,page" ++ Js.numberToString canvas.

Definition readAsDataURL (f : File) : string :=
  "data:" ++ fileType f ++ ";base64," ++ fileName f.

Definition pdfFile : File := mkFile "scan.pdf" 4096 "application/pdf".

Definition pngFile : File := mkFile "UVJT" 2048 "image/png".

Definition hugeFile : File :=
  mkFile "huge.pdf" (maxFileSize + 1) "application/pdf".

(** The upload handler over the fake decoder with [n] pages. *)
Definition upload (n bad : nat) (st : AppState) (file : option File)
  : Upload :=
  handleImageUpload arrayBuffer (getDocument n) numPages getPage
    getViewport getContext2d (render bad) toDataURL readAsDataURL st file.

(** Two images the PDF writer can decode: the base64 text of a PNG file
    of 16 by 9 pixels and of one of 2 by 3 pixels. *)
Definition widePayload : string :=
  "iVBORw0KGgoAAAANSUhEUgAAABAAAAAJCAIAAAC0SDtlAAAAEklEQVR42mP4TyJgGNUwKDQAALtPrmCToa6/AAAAAElFTkSuQmCC".

Definition tallPayload : string :=
  "iVBORw0KGgoAAAANSUhEUgAAAAIAAAADCAIAAAA2iEnWAAAADklEQVR42mP4DwYMKBQAvFgR706hsM4AAAAASUVORK5CYII=".

Definition widePng : string := "data:image/png;base64," ++ widePayload.

Definition tallPng : string := "data:image/png;base64," ++ tallPayload.

(** A PDF writer that decodes these two images and nothing else. *)
Definition getImageProperties (pageData : string) : Result ImageProperties :=
  if (pageData =? widePng)%string then Ok (mkImageProperties 16 9)
  else if (pageData =? tallPng)%string then Ok (mkImageProperties 2 3)
  else Throw (Js.newError "addImage does not support files of type 'UNKNOWN', please ensure that a plugin for 'UNKNOWN' support is added.").

(** An edit service that answers with the wide image, then the tall
    one, then the wide one again. *)
Definition pngAnswers : list (Result Response) :=
  [Ok (respond [imagePart (Some widePayload) (Some "image/png")]);
   Ok (respond [textPart "done"; imagePart (Some tallPayload) None]);
   Ok (respond [imagePart (Some widePayload) (Some "image/png")])].

(** A decoder whose file read fails, and one whose document fails to
    open. *)
Definition failingArrayBuffer (f : File) : Result string :=
  Throw (Js.newError "The requested file could not be read").

Definition failingGetDocument (_ : string) : Result nat :=
  Throw (Js.mkError None).

(** A file whose type the browser does not know. *)
Definition untypedFile : File := mkFile "bm90ZXM=" 10 "".

(** The state after uploading [pngFile], typing an instruction and
    running the edit against [alwaysImage]. *)
Definition edited : AppState :=
  finalState
    (processImage alwaysImage noTrim tt
       (setUserPrompt "erase the answers"
          (uploadState (upload 3 0 initialState (Some pngFile))))).

(** The state after an upload of [hugeFile] was rejected, after a PDF
    whose second page fails to render was uploaded, and after a run whose
    only request was refused. *)
Definition rejected : AppState :=
  uploadState (upload 3 0 initialState (Some hugeFile)).

Definition unreadable : AppState :=
  uploadState (upload 3 2 initialState (Some pdfFile)).

Definition refusing (w : unit) (_ : Request) : Result Response * unit :=
  (Ok (respond [textPart "I cannot edit this."]), w).

Definition refused : AppState :=
  finalState
    (processImage refusing noTrim tt
       (setUserPrompt "erase the answers"
          (uploadState (upload 3 0 initialState (Some pngFile))))).

(** The state after uploading [untypedFile]. *)
Definition untyped : AppState :=
  uploadState (upload 3 0 initialState (Some untypedFile)).

End Fake.

(** * Properties *)

(** ** Strings *)

Lemma prefix_app (n rest : string) :
  String.prefix n (n ++ rest)%string = true.
Proof.
  induction n as [|c n IH]; simpl.
  - now destruct rest.
  - destruct (ascii_dec c c); [exact IH | congruence].
Qed.

Lemma includes_prefix (n hay : string) :
  String.prefix n hay = true -> Js.includes n hay = true.
Proof.
  intros H. destruct hay as [|c hay]; unfold Js.includes; fold Js.includes;
    now rewrite H.
Qed.

Lemma includes_app (n before rest : string) :
  Js.includes n (before ++ n ++ rest)%string = true.
Proof.
  induction before as [|c before IH].
  - apply includes_prefix. exact (prefix_app n rest).
  - change (String.prefix n (String c (before ++ n ++ rest))
            || Js.includes n (before ++ n ++ rest)%string = true).
    rewrite IH. apply orb_true_r.
Qed.

Lemma append_assoc (a b c : string) : ((a ++ b) ++ c = a ++ b ++ c)%string.
Proof. induction a as [|x a IH]; simpl; [reflexivity | now rewrite IH]. Qed.

Lemma append_nil_r (a : string) : (a ++ "" = a)%string.
Proof. induction a as [|x a IH]; simpl; [reflexivity | now rewrite IH]. Qed.

Lemma noImageMessage_truthy (i : nat) (t : string) :
  Js.truthy (noImageMessage i t) = true.
Proof. reflexivity. Qed.

Lemma noImageMessage_names_page (i : nat) (t : string) :
  Js.includes (Js.numberToString (i + 1)) (noImageMessage i t) = true.
Proof. unfold noImageMessage. apply includes_app. Qed.

(** ** One response *)

Lemma scanParts_none (ps : list Part) (t : string) :
  existsb isInlineImage ps = false ->
  scanParts ps t = (None, (t ++ allText ps)%string).
Proof.
  revert t; induction ps as [|p ps IH]; simpl; intros t H.
  - now rewrite append_nil_r.
  - unfold isInlineImage in H at 1.
    destruct (inlineData p); [discriminate|]. simpl in H.
    destruct (text p) as [s|]; simpl.
    + destruct s as [|c s]; simpl.
      * now apply IH.
      * rewrite IH by assumption. now rewrite append_assoc.
    + now apply IH.
Qed.

Lemma scanParts_first (before after : list Part) (p : Part) (d : InlineData)
    (t : string) :
  existsb isInlineImage before = false ->
  inlineData p = Some d ->
  fst (scanParts (before ++ p :: after) t) = Some (imageUrl d).
Proof.
  revert t; induction before as [|q before IH]; simpl; intros t H Hp.
  - now rewrite Hp.
  - unfold isInlineImage in H at 1.
    destruct (inlineData q); [discriminate|]. simpl in H.
    destruct (Js.truthyOpt (text q)); now apply IH.
Qed.

Lemma scanParts_found (ps : list Part) (t : string) :
  existsb isInlineImage ps = true ->
  exists url, fst (scanParts ps t) = Some url.
Proof.
  revert t; induction ps as [|p ps IH]; simpl; intros t H; [discriminate|].
  unfold isInlineImage in H at 1.
  destruct (inlineData p) as [d|]; [now eexists|]. simpl in H.
  destruct (Js.truthyOpt (text p)); now apply IH.
Qed.

Lemma answerUrl_image (answer : Result Response) :
  answeredWithImage answer = true ->
  exists response url,
    answer = Ok response /\ answerUrl answer = Some url
    /\ forall i, interpretResponse response i = Ok url.
Proof.
  destruct answer as [response|e]; simpl; [|discriminate].
  intros H. destruct (scanParts_found _ "" H) as [url Hurl].
  exists response, url. repeat split; [assumption|].
  intros i. unfold interpretResponse.
  destruct (scanParts (responseParts response) "") as [[u|] t];
    simpl in Hurl; congruence.
Qed.

Lemma answerUrl_no_image (answer : Result Response) (i : nat) :
  answeredWithImage answer = false ->
  answerUrl answer = None
  /\ (response <- answer ;; interpretResponse response i)
     = Throw (errorOf answer i).
Proof.
  destruct answer as [response|e]; simpl; [|now split].
  intros H. unfold hasInlineImage in H.
  unfold interpretResponse. rewrite (scanParts_none _ "" H). now split.
Qed.

(** ** The loop of [processImage] *)

Section EditRunFacts.

Context {World : Type}.
Variable generateContent : World -> Request -> Result Response * World.
Variable trim : string -> string.

#[local] Abbreviation editLoop := (editLoop generateContent trim).
#[local] Abbreviation processImage := (processImage generateContent trim).

(** The loop writes [resultPages] and nothing else. *)
Lemma editLoop_frame (mime prompt : string) (pages : list string) :
  forall i results w st,
    endState (editLoop mime prompt pages i results w st)
    = setResultPages
        (resultPages (endState (editLoop mime prompt pages i results w st)))
        st.
Proof.
  induction pages as [|page rest IH]; intros i results w st; simpl.
  - now destruct st.
  - destruct (generateContent w _) as [answer w'].
    destruct (response <- answer ;; interpretResponse response i);
      simpl; [|now destruct st].
    rewrite IH at 1. reflexivity.
Qed.

(** The published pages are the pages of the successful exchanges. *)
Lemma editLoop_pages (mime prompt : string) (pages : list string) :
  forall i results w st,
    resultPages st = results ->
    resultPages (endState (editLoop mime prompt pages i results w st))
    = results ++ pagesOf (exchanges (editLoop mime prompt pages i results w st)).
Proof.
  induction pages as [|page rest IH]; intros i results w st Hst; simpl.
  - now rewrite app_nil_r.
  - destruct (generateContent w _) as [answer w'].
    destruct (answeredWithImage answer) eqn:Himg.
    + destruct (answerUrl_image _ Himg) as (response & url & -> & Hurl & Hok).
      simpl. rewrite Hok. simpl.
      rewrite IH by reflexivity.
      unfold pagesOf at 2. simpl. simpl in Hurl. rewrite Hurl.
      now rewrite <- app_assoc.
    + destruct (answerUrl_no_image _ i Himg) as [Hnone ->]. simpl.
      unfold pagesOf. simpl. rewrite Hnone. simpl.
      now rewrite app_nil_r.
Qed.

(** How the loop ends: either every page was asked and answered with an
    image, or the last exchange is the first one without. *)
Lemma editLoop_shape (mime prompt : string) (pages : list string) :
  forall i results w st,
    let r := editLoop mime prompt pages i results w st in
    served generateContent w (exchanges r)
    /\ map fst (exchanges r)
       = map (buildRequest trim mime prompt)
           (firstn (List.length (exchanges r)) pages)
    /\ match thrown r with
       | None =>
           Forall withImage (exchanges r)
           /\ List.length (exchanges r) = List.length pages
       | Some e =>
           exists done request answer,
             exchanges r = done ++ [(request, answer)]
             /\ Forall withImage done
             /\ answeredWithImage answer = false
             /\ e = errorOf answer (i + List.length done)
             /\ List.length done < List.length pages
       end.
Proof.
  induction pages as [|page rest IH]; intros i results w st; simpl.
  - repeat split; constructor.
  - destruct (generateContent w _) as [answer w'] eqn:Hcall.
    destruct (answeredWithImage answer) eqn:Himg.
    + destruct (answerUrl_image _ Himg) as (response & url & -> & _ & Hok).
      simpl. rewrite Hok. simpl.
      specialize (IH (S i) (results ++ [url]) w'
                    (setResultPages (results ++ [url]) st)).
      simpl in IH. destruct IH as (Hserved & Hreq & Hend).
      rewrite Hcall. simpl. repeat split; try assumption.
      * now rewrite Hreq.
      * destruct (thrown _) as [e|].
        -- destruct Hend as (done & request & answer & He & Hdone & Hno & Herr & Hlen).
           exists ((buildRequest trim mime prompt page, Ok response) :: done),
             request, answer.
           rewrite He. simpl. repeat split; try assumption.
           ++ constructor; assumption.
           ++ rewrite Herr. f_equal. lia.
           ++ lia.
        -- destruct Hend as [Hall Hlen]. split.
           ++ constructor; assumption.
           ++ now rewrite Hlen.
    + destruct (answerUrl_no_image _ i Himg) as [_ ->]. simpl.
      rewrite Hcall. simpl. repeat split.
      exists [], (buildRequest trim mime prompt page), answer.
      simpl. repeat split; try assumption.
      all: try (now rewrite Nat.add_0_r); try lia; constructor.
Qed.

(** The states left standing at the requests: the document untouched,
    fewer results than source pages. *)
Lemma editLoop_suspended (mime prompt : string) (pages : list string) :
  forall i results w st st',
    resultPages st = results ->
    In st' (suspended (editLoop mime prompt pages i results w st)) ->
    sourcePages st' = sourcePages st
    /\ List.length (resultPages st')
       < List.length results + List.length pages.
Proof.
  induction pages as [|page rest IH]; intros i results w st st' Hst Hin;
    simpl in Hin.
  - contradiction.
  - destruct (generateContent w _) as [answer w'].
    destruct (response <- answer ;; interpretResponse response i) as [url|e];
      simpl in Hin.
    + destruct Hin as [<- | Hin].
      * rewrite Hst. simpl. split; [reflexivity | lia].
      * apply IH in Hin; [|reflexivity]. destruct Hin as [Hsrc Hlen].
        split; [exact Hsrc|].
        rewrite length_app in Hlen. simpl in *. lia.
    + destruct Hin as [<- | []].
      rewrite Hst. simpl. split; [reflexivity | lia].
Qed.

(** [processImage] past its guard. *)
Lemma processImage_entered (w : World) (st : AppState) (m : string) :
  sourcePages st <> [] ->
  sourceMimeType st = Some m ->
  m <> "" ->
  let st1 := setResultPages [] (setError None (setIsProcessing true st)) in
  let r := editLoop m (userPrompt st) (sourcePages st) 0 [] w st1 in
  processImage w st
  = match thrown r with
    | Some err =>
        mkRun (failed err)
          (setIsProcessing false
             (setError (Some (Js.orElse (Js.message err) "处理图像时发生错误。"))
                (endState r)))
          (endWorld r) (exchanges r) (suspended r)
    | None =>
        mkRun completed (setIsProcessing false (endState r))
          (endWorld r) (exchanges r) (suspended r)
    end.
Proof.
  intros Hsrc Hmime Hm. unfold processImage. rewrite Hmime. simpl.
  destruct (sourcePages st) as [|p ps] eqn:E; [congruence|].
  destruct m as [|c m]; [congruence|]. reflexivity.
Qed.

(** [processImage] stopped by its guard. *)
Lemma processImage_skipped (w : World) (st : AppState) :
  sourcePages st = [] \/ Js.truthyOpt (sourceMimeType st) = false ->
  processImage w st = mkRun skipped st w [] [].
Proof.
  intros [H|H]; unfold processImage; rewrite H; simpl.
  - reflexivity.
  - now rewrite orb_true_r.
Qed.

(** An exchange was made only if the guard let the run in. *)
Lemma processImage_issued_entered (w : World) (st : AppState) :
  issued (processImage w st) <> [] ->
  sourcePages st <> []
  /\ exists m, sourceMimeType st = Some m /\ m <> "".
Proof.
  intros H. split.
  - intros E. rewrite processImage_skipped in H by (now left). now apply H.
  - destruct (sourceMimeType st) as [[|c m]|] eqn:E.
    + rewrite processImage_skipped in H by (right; now rewrite E).
      now contradiction H.
    + exists (String c m). split; [reflexivity | discriminate].
    + rewrite processImage_skipped in H by (right; now rewrite E).
      now contradiction H.
Qed.

End EditRunFacts.

(** ** Pages of a list of exchanges *)

Lemma pagesOf_app (a b : list Exchange) :
  pagesOf (a ++ b) = pagesOf a ++ pagesOf b.
Proof. apply flat_map_app. Qed.

Lemma pagesOf_no_image (request : Request) (answer : Result Response) :
  answeredWithImage answer = false -> pagesOf [(request, answer)] = [].
Proof.
  intros H. destruct (answerUrl_no_image answer 0 H) as [Hnone _].
  unfold pagesOf. simpl. now rewrite Hnone.
Qed.

(** Exchanges that all came back with an image yield one page each, at
    the index of the exchange. *)
Lemma pagesOf_withImage (exs : list Exchange) :
  Forall withImage exs ->
  List.length (pagesOf exs) = List.length exs
  /\ forall i request answer,
       nth_error exs i = Some (request, answer) ->
       exists response url,
         answer = Ok response
         /\ hasInlineImage response = true
         /\ (forall k, interpretResponse response k = Ok url)
         /\ nth_error (pagesOf exs) i = Some url.
Proof.
  induction 1 as [|[rq ans] exs Hx Hall [IHlen IHnth]].
  - split; [reflexivity|]. intros [|i] ? ? H; discriminate.
  - destruct (answerUrl_image ans Hx) as (response & url & -> & Hurl & Hok).
    change (pagesOf ((rq, Ok response) :: exs))
      with ((match answerUrl (Ok response) with
             | Some u => [u] | None => [] end) ++ pagesOf exs).
    rewrite Hurl. simpl. split; [now rewrite IHlen|].
    intros [|i] request answer Hnth; simpl in Hnth.
    + injection Hnth as <- <-. exists response, url. now repeat split.
    + exact (IHnth i request answer Hnth).
Qed.

(** The exchange at the index of a page carries that page's request. *)
Lemma nth_error_requests {A : Type} (f : A -> Request) (exs : list Exchange)
    (pages : list A) :
  map fst exs = map f pages ->
  forall i page,
    nth_error pages i = Some page ->
    exists answer, nth_error exs i = Some (f page, answer).
Proof.
  revert pages; induction exs as [|[rq ans] exs IH];
    intros [|q pages] Heq [|i] page Hpage; simpl in *; try discriminate.
  - injection Hpage as ->. injection Heq as -> _. now exists ans.
  - injection Heq as _ Heq. exact (IH pages Heq i page Hpage).
Qed.

Section EditRunShape.

Context {World : Type}.
Variable generateContent : World -> Request -> Result Response * World.
Variable trim : string -> string.

#[local] Abbreviation processImage := (processImage generateContent trim).

(** A run that passed the guard, read off its exchanges. *)
Lemma processImage_ran (w : World) (st : AppState) (m : string) :
  sourcePages st <> [] ->
  sourceMimeType st = Some m ->
  m <> "" ->
  let run := processImage w st in
  resultPages (finalState run) = pagesOf (issued run)
  /\ sourcePages (finalState run) = sourcePages st
  /\ served generateContent w (issued run)
  /\ map fst (issued run)
     = map (buildRequest trim m (userPrompt st))
         (firstn (List.length (issued run)) (sourcePages st))
  /\ match outcome run with
     | skipped => False
     | completed =>
         Forall withImage (issued run)
         /\ List.length (issued run) = List.length (sourcePages st)
         /\ error (finalState run) = None
     | failed e =>
         exists done request answer,
           issued run = done ++ [(request, answer)]
           /\ Forall withImage done
           /\ answeredWithImage answer = false
           /\ e = errorOf answer (List.length done)
           /\ List.length done < List.length (sourcePages st)
           /\ error (finalState run)
              = Some (Js.orElse (Js.message e) "处理图像时发生错误。")
     end.
Proof.
  intros Hsrc Hmime Hm run. subst run.
  rewrite (processImage_entered _ _ w st m Hsrc Hmime Hm).
  set (st1 := setResultPages [] (setError None (setIsProcessing true st))).
  set (r := editLoop generateContent trim m (userPrompt st)
              (sourcePages st) 0 [] w st1).
  pose proof (editLoop_frame generateContent trim m (userPrompt st)
                (sourcePages st) 0 [] w st1) as Hframe.
  pose proof (editLoop_pages generateContent trim m (userPrompt st)
                (sourcePages st) 0 [] w st1 eq_refl) as Hpages.
  destruct (editLoop_shape generateContent trim m (userPrompt st)
              (sourcePages st) 0 [] w st1) as (Hserved & Hreq & Hend).
  fold r in Hframe, Hpages, Hserved, Hreq, Hend. simpl in Hpages.
  destruct (thrown r) as [e|]; simpl.
  - repeat split; try assumption.
    + now rewrite Hframe.
    + destruct Hend as (done & request & answer & He & Hdone & Hno & Herr & Hlen).
      exists done, request, answer. now repeat split.
  - repeat split; try assumption; try tauto.
    all: now rewrite Hframe.
Qed.

(** Whatever a run stored for an exchange is at the exchange's index. *)
Lemma processImage_stored (w : World) (st : AppState) (i : nat)
    (request : Request) (answer : Result Response) (url : string) :
  nth_error (issued (processImage w st)) i = Some (request, answer) ->
  answerUrl answer = Some url ->
  nth_error (resultPages (finalState (processImage w st))) i = Some url.
Proof.
  intros Hnth Hurl.
  assert (Hne : issued (processImage w st) <> []).
  { intros E. rewrite E in Hnth. destruct i; discriminate. }
  destruct (processImage_issued_entered _ _ w st Hne) as (Hsrc & m & Hmime & Hm).
  destruct (processImage_ran w st m Hsrc Hmime Hm)
    as (Hres & _ & _ & _ & Hout).
  rewrite Hres.
  assert (Hgen : forall exs, Forall withImage exs ->
            nth_error exs i = Some (request, answer) ->
            nth_error (pagesOf exs) i = Some url).
  { intros exs Hall Hn.
    destruct (proj2 (pagesOf_withImage exs Hall) i _ _ Hn)
      as (response & u & -> & _ & Hok & Hu).
    simpl in Hurl. specialize (Hok 0). unfold interpretResponse in Hok.
    destruct (scanParts (responseParts response) "") as [[v|] t];
      simpl in Hurl; congruence. }
  destruct (outcome (processImage w st)) as [| |e]; [contradiction| |].
  - now apply Hgen.
  - destruct Hout as (done & rq & ans & He & Hdone & Hno & _).
    rewrite He in Hnth |- *. rewrite pagesOf_app.
    destruct (Nat.lt_ge_cases i (List.length done)) as [Hlt|Hge].
    + rewrite nth_error_app1 in Hnth by assumption.
      rewrite nth_error_app1
        by (now rewrite (proj1 (pagesOf_withImage done Hdone))).
      now apply Hgen.
    + rewrite nth_error_app2 in Hnth by assumption.
      destruct (i - List.length done) as [|k]; simpl in Hnth.
      * injection Hnth as <- <-.
        destruct (answerUrl_no_image ans 0 Hno) as [Hnone _]. congruence.
      * destruct k; discriminate.
Qed.

(** A run stops at the first exchange that brings no image: it is the
    last exchange, the pages before it are the result, and its error is
    the one set. *)
Lemma processImage_stops_at (w : World) (st : AppState) (k : nat)
    (rq : Request) (ans : Result Response) :
  nth_error (issued (processImage w st)) k = Some (rq, ans) ->
  answeredWithImage ans = false ->
  let run := processImage w st in
  exists done,
    issued run = done ++ [(rq, ans)]
    /\ List.length done = k
    /\ Forall withImage done
    /\ resultPages (finalState run) = pagesOf done
    /\ outcome run = failed (errorOf ans k)
    /\ error (finalState run)
       = Some (Js.orElse (Js.message (errorOf ans k)) "处理图像时发生错误。")
    /\ map fst (issued run)
       = map (buildRequest trim (Js.interpolate (sourceMimeType st))
                (userPrompt st))
           (firstn (S k) (sourcePages st)).
Proof.
  intros Hnth Hno run.
  assert (Hne : issued run <> []).
  { intros E. unfold run in E. rewrite E in Hnth. destruct k; discriminate. }
  destruct (processImage_issued_entered _ _ w st Hne) as (Hsrc & m & Hmime & Hm).
  destruct (processImage_ran w st m Hsrc Hmime Hm)
    as (Hres & _ & _ & Hreq & Hout).
  fold run in Hres, Hreq, Hout, Hnth. rewrite Hmime. simpl Js.interpolate.
  destruct (outcome run) as [| |e] eqn:Ho; [contradiction| |].
  - exfalso. destruct Hout as (Hall & _).
    rewrite Forall_forall in Hall.
    specialize (Hall _ (nth_error_In _ _ Hnth)).
    unfold withImage in Hall. simpl in Hall. congruence.
  - destruct Hout as (done & rq' & ans' & He & Hdone & Hnoimg & Herr & Hlen & Hmsg).
    assert (Hidx : k = List.length done).
    { destruct (Nat.lt_trichotomy k (List.length done)) as [Hlt|[Heq|Hgt]].
      - exfalso. rewrite He, nth_error_app1 in Hnth by assumption.
        rewrite Forall_forall in Hdone.
        specialize (Hdone _ (nth_error_In _ _ Hnth)).
        unfold withImage in Hdone. simpl in Hdone. congruence.
      - exact Heq.
      - exfalso. rewrite He, nth_error_app2 in Hnth by lia.
        destruct (k - List.length done) as [|[|k']] eqn:E;
          simpl in Hnth; try discriminate. lia. }
    rewrite He, Hidx, nth_error_app2, Nat.sub_diag in Hnth by lia.
    simpl in Hnth. injection Hnth as -> ->.
    exists done. rewrite Hidx. repeat split; try assumption.
    + rewrite Hres, He, pagesOf_app, (pagesOf_no_image _ _ Hno).
      apply app_nil_r.
    + now rewrite Herr.
    + now rewrite Hmsg, Herr.
    + rewrite Hreq, He, length_app. simpl List.length.
      now rewrite Nat.add_1_r.
Qed.

End EditRunShape.

(** ** The edit run *)

(** C1, as amended.  A document of K >= 1 source pages whose MIME type is
    neither null nor the empty string, edited by a service that answers
    every request of the run with an inline-image part: the run leaves
    its loop after the last page, the result sequence has exactly K
    pages, the page at index [i] is the one read from the answer to the
    request built from source page [i], and the error is null. *)
Theorem processImage_all_pages {World : Type}
    (generateContent : World -> Request -> Result Response * World)
    (trim : string -> string) (w : World) (st : AppState) (m : string) :
  sourcePages st <> [] ->
  sourceMimeType st = Some m ->
  m <> "" ->
  Forall withImage (issued (processImage generateContent trim w st)) ->
  let run := processImage generateContent trim w st in
  outcome run = completed
  /\ List.length (resultPages (finalState run)) = List.length (sourcePages st)
  /\ (forall i page,
        nth_error (sourcePages st) i = Some page ->
        exists response url,
          nth_error (issued run) i
          = Some (buildRequest trim m (userPrompt st) page, Ok response)
          /\ hasInlineImage response = true
          /\ interpretResponse response i = Ok url
          /\ nth_error (resultPages (finalState run)) i = Some url)
  /\ served generateContent w (issued run)
  /\ error (finalState run) = None.
Proof.
  intros Hsrc Hmime Hm Hall run.
  destruct (processImage_ran generateContent trim w st m Hsrc Hmime Hm)
    as (Hres & _ & Hserved & Hreq & Hout).
  fold run in Hres, Hserved, Hreq, Hout, Hall.
  destruct (outcome run) as [| |e] eqn:Ho; [contradiction| |].
  - destruct Hout as (_ & Hlen & Herr).
    destruct (pagesOf_withImage (issued run) Hall) as [Hplen Hpnth].
    rewrite Hlen, firstn_all in Hreq.
    repeat split; try assumption.
    + now rewrite Hres, Hplen.
    + intros i page Hpage.
      destruct (nth_error_requests _ _ _ Hreq i page Hpage) as [ans Hex].
      destruct (Hpnth i _ _ Hex) as (response & url & -> & Himg & Hok & Hu).
      exists response, url. rewrite Hres. now repeat split.
  - exfalso. destruct Hout as (done & rq & ans & He & _ & Hno & _).
    rewrite He in Hall. apply Forall_app in Hall. destruct Hall as [_ Hlast].
    inversion Hlast as [|? ? Hx _]; subst. unfold withImage in Hx.
    simpl in Hx. congruence.
Qed.

(** C2.  In any run, if the answer to page [j] (1-indexed) holds no
    inline-image part, then [j] is the first such page (every earlier
    page was answered with an image and its result is still in the
    result sequence at its index), the result sequence has exactly
    [j - 1] pages, the error is the message naming page [j], and the run
    issued exactly [j] requests, those of pages 1 to [j]. *)
Theorem processImage_first_failure {World : Type}
    (generateContent : World -> Request -> Result Response * World)
    (trim : string -> string) (w : World) (st : AppState) (j : nat)
    (request : Request) (response : Response) :
  1 <= j ->
  nth_error (issued (processImage generateContent trim w st)) (j - 1)
  = Some (request, Ok response) ->
  hasInlineImage response = false ->
  let run := processImage generateContent trim w st in
  List.length (resultPages (finalState run)) = j - 1
  /\ error (finalState run)
     = Some (noImageMessage (j - 1) (allText (responseParts response)))
  /\ Js.includes (Js.numberToString j)
       (noImageMessage (j - 1) (allText (responseParts response))) = true
  /\ List.length (issued run) = j
  /\ map fst (issued run)
     = map (buildRequest trim (Js.interpolate (sourceMimeType st))
              (userPrompt st))
         (firstn j (sourcePages st))
  /\ (forall i, i < j - 1 ->
        exists rq resp url,
          nth_error (issued run) i = Some (rq, Ok resp)
          /\ hasInlineImage resp = true
          /\ interpretResponse resp i = Ok url
          /\ nth_error (resultPages (finalState run)) i = Some url).
Proof.
  intros Hj Hnth Hno run.
  destruct (processImage_stops_at generateContent trim w st (j - 1) request
              (Ok response) Hnth Hno)
    as (done & He & Hlen & Hdone & Hres & _ & Hmsg & Hreq).
  fold run in He, Hres, Hmsg, Hreq.
  destruct (pagesOf_withImage done Hdone) as [Hplen Hpnth].
  assert (Htext : errorOf (Ok response) (j - 1)
                  = Js.newError (noImageMessage (j - 1)
                                   (allText (responseParts response)))).
  { simpl. unfold hasInlineImage in Hno.
    now rewrite (scanParts_none _ "" Hno). }
  repeat split.
  - now rewrite Hres, Hplen.
  - rewrite Hmsg, Htext. reflexivity.
  - replace j with (j - 1 + 1) at 1 by lia. apply noImageMessage_names_page.
  - rewrite He, length_app. simpl. lia.
  - rewrite Hreq. do 2 f_equal. lia.
  - intros i Hi. rewrite <- Hlen in Hi.
    destruct (nth_error done i) as [[rq' ans']|] eqn:Hex.
    2:{ apply nth_error_None in Hex. lia. }
    destruct (Hpnth i _ _ Hex) as (resp & url & -> & Himg & Hok & Hu).
    exists rq', resp, url. rewrite He, nth_error_app1, Hres by assumption.
    now repeat split.
Qed.

(** A part without [inlineData] adds its text, if it has any. *)
Lemma orElse_empty (o : option string) :
  Js.orElse o "" = match o with Some t => t | None => "" end.
Proof. destruct o as [[|c t]|]; reflexivity. Qed.

Lemma concat_empty_cons (x : string) (xs : list string) :
  String.concat "" (x :: xs) = (x ++ String.concat "" xs)%string.
Proof. destruct xs; simpl; [now rewrite append_nil_r | reflexivity]. Qed.

Lemma allText_concat (ps : list Part) :
  allText ps
  = String.concat ""
      (map (fun q => match text q with Some t => t | None => "" end) ps).
Proof.
  induction ps as [|p ps IH]; [reflexivity|].
  cbn [allText fold_right map]. fold (allText ps).
  now rewrite concat_empty_cons, orElse_empty, IH.
Qed.

Lemma no_inlineData_no_image (ps : list Part) :
  (forall q, In q ps -> inlineData q = None) ->
  existsb isInlineImage ps = false.
Proof.
  induction ps as [|p ps IH]; intros H; [reflexivity|].
  simpl. unfold isInlineImage at 1. rewrite (H p (or_introl eq_refl)).
  apply IH. intros q Hq. apply H. now right.
Qed.

Lemma orElse_cases (o : option string) (d : string) :
  Js.orElse o d = match o with Some (String c m) => String c m | _ => d end.
Proof. destruct o as [[|c t]|]; reflexivity. Qed.

(** C6, as amended.  A response is read as the sequence of parts of its
    first candidate.  The first part that has an [inlineData] field,
    with or without bytes in it, gives the page's result: the data URL of
    its MIME type ([image/png] when missing or empty) and its data (the
    text [undefined] when missing), whatever parts follow it.  When no
    part has the field, the call fails with the message that embeds the
    1-based page number and the texts of all text parts, concatenated in
    order, or a placeholder when there is no text; and likewise when the
    response has no candidate, no content or no parts. *)
Theorem interpretResponse_contract (response : Response) (i : nat) :
  (forall first others ct before p d after,
      candidates response = Some (first :: others) ->
      content first = Some ct ->
      parts ct = Some (before ++ p :: after) ->
      (forall q, In q before -> inlineData q = None) ->
      inlineData p = Some d ->
      interpretResponse response i
      = Ok ("data:"
            ++ match mimeType d with
               | Some (String c m) => String c m
               | _ => "image/png"
               end
            ++ ";base64,"
            ++ match data d with
               | Some b => b
               | None => "undefined"
               end)%string)
  /\ (forall first others ct ps,
        candidates response = Some (first :: others) ->
        content first = Some ct ->
        parts ct = Some ps ->
        (forall q, In q ps -> inlineData q = None) ->
        let textResponse :=
          String.concat ""
            (map (fun q => match text q with Some t => t | None => "" end)
               ps) in
        let message :=
          ("第 " ++ Js.numberToString (i + 1) ++ " 页未能生成图像。AI回复: "
           ++ match textResponse with
              | EmptyString => "无"
              | _ => textResponse
              end)%string in
        interpretResponse response i = Throw (Js.newError message)
        /\ Js.includes (Js.numberToString (i + 1)) message = true)
  /\ (candidates response = None
      \/ candidates response = Some []
      \/ (exists first others,
            candidates response = Some (first :: others)
            /\ (content first = None
                \/ exists ct, content first = Some ct /\ parts ct = None)) ->
      interpretResponse response i
      = Throw (Js.newError
                 ("第 " ++ Js.numberToString (i + 1)
                  ++ " 页未能生成图像。AI回复: 无")%string)).
Proof.
  split; [|split].
  - intros first others ct before p d after Hc Hct Hps Hbefore Hp.
    unfold interpretResponse.
    assert (Hparts : responseParts response = before ++ p :: after).
    { unfold responseParts. now rewrite Hc, Hct, Hps. }
    pose proof (scanParts_first before after p d ""
                  (no_inlineData_no_image before Hbefore) Hp) as H.
    rewrite <- Hparts in H.
    destruct (scanParts (responseParts response) "") as [[u|] t];
      simpl in H; [|discriminate].
    injection H as ->. unfold imageUrl, Js.interpolate.
    now rewrite orElse_cases.
  - intros first others ct ps Hc Hct Hps Hnone textResponse message.
    assert (Hparts : responseParts response = ps).
    { unfold responseParts. now rewrite Hc, Hct, Hps. }
    split.
    + unfold interpretResponse. rewrite Hparts.
      rewrite (scanParts_none ps "" (no_inlineData_no_image ps Hnone)).
      simpl. rewrite allText_concat. fold textResponse.
      unfold noImageMessage, message.
      now destruct textResponse.
    + unfold message. apply includes_app.
  - intros Hnone.
    assert (Hparts : responseParts response = []).
    { unfold responseParts.
      destruct Hnone as [-> | [-> | (first & others & -> & [-> | Hct])]];
        try reflexivity.
      destruct Hct as (ct & -> & ->). reflexivity. }
    unfold interpretResponse. now rewrite Hparts.
Qed.

(** C6 as stated fails: line 157 tests that the part has an [inlineData]
    field, not that the field holds bytes.  A response whose first part
    has the field without data and whose second part carries bytes gives
    the first part's URL, [data:image/png;base64,undefined], not the
    second's; and a response in which no part contains bytes is taken as
    a success all the same. *)
Lemma interpretResponse_bytes_counterexample :
  (let empty := Fake.imagePart None (Some "image/png") in
   let full := Fake.imagePart (Some "QUJD") (Some "image/png") in
   find containsImageBytes [empty; full] = Some full
   /\ interpretResponse (Fake.respond [empty; full]) 0
      = Ok "data:image/png;base64,undefined"
   /\ interpretResponse (Fake.respond [empty; full]) 0
      <> Ok "data:image/png;base64,QUJD")
  /\
  (let ps := [Fake.textPart "sorry"; Fake.imagePart None None] in
   existsb containsImageBytes ps = false
   /\ interpretResponse (Fake.respond ps) 0
      = Ok "data:image/png;base64,undefined"
   /\ forall e, interpretResponse (Fake.respond ps) 0 <> Throw e).
Proof.
  split; cbv zeta; repeat split; try reflexivity; discriminate.
Qed.

Lemma interpretResponse_contract_witness :
  interpretResponse
    (Fake.respond [Fake.textPart "here it is";
                   Fake.imagePart (Some "QUJD") (Some "image/jpeg");
                   Fake.imagePart (Some "REVG") None]) 0
  = Ok "data:image/jpeg;base64,QUJD"
  /\ interpretResponse
       (Fake.respond [Fake.imagePart None (Some "");
                      Fake.imagePart (Some "REVG") None]) 0
     = Ok "data:image/png;base64,undefined"
  /\ interpretResponse
       (Fake.respond [Fake.textPart "I cannot "; mkPart None None;
                      Fake.textPart ""; Fake.textPart "edit this."]) 11
     = Throw (Js.newError "第 12 页未能生成图像。AI回复: I cannot edit this.")
  /\ interpretResponse (Fake.respond [mkPart None None]) 2
     = Throw (Js.newError "第 3 页未能生成图像。AI回复: 无")
  /\ interpretResponse (mkResponse (Some [mkCandidate None])) 0
     = Throw (Js.newError "第 1 页未能生成图像。AI回复: 无").
Proof.
  split; [|split; [|split; [|split]]].
  - exact (proj1 (interpretResponse_contract
                    (Fake.respond
                       [Fake.textPart "here it is";
                        Fake.imagePart (Some "QUJD") (Some "image/jpeg");
                        Fake.imagePart (Some "REVG") None]) 0)
             _ [] _ [Fake.textPart "here it is"]
             (Fake.imagePart (Some "QUJD") (Some "image/jpeg"))
             (mkInlineData (Some "QUJD") (Some "image/jpeg"))
             [Fake.imagePart (Some "REVG") None]
             eq_refl eq_refl eq_refl
             ltac:(intros q [<- | []]; reflexivity) eq_refl).
  - exact (proj1 (interpretResponse_contract
                    (Fake.respond
                       [Fake.imagePart None (Some "");
                        Fake.imagePart (Some "REVG") None]) 0)
             _ [] _ []
             (Fake.imagePart None (Some ""))
             (mkInlineData None (Some ""))
             [Fake.imagePart (Some "REVG") None]
             eq_refl eq_refl eq_refl
             ltac:(intros q []) eq_refl).
  - exact (proj1 (proj1 (proj2 (interpretResponse_contract
                    (Fake.respond
                       [Fake.textPart "I cannot "; mkPart None None;
                        Fake.textPart ""; Fake.textPart "edit this."]) 11))
             _ [] _
             [Fake.textPart "I cannot "; mkPart None None;
              Fake.textPart ""; Fake.textPart "edit this."]
             eq_refl eq_refl eq_refl
             ltac:(intros q [<- | [<- | [<- | [<- | []]]]]; reflexivity))).
  - exact (proj1 (proj1 (proj2 (interpretResponse_contract
                    (Fake.respond [mkPart None None]) 2))
             _ [] _ [mkPart None None]
             eq_refl eq_refl eq_refl
             ltac:(intros q [<- | []]; reflexivity))).
  - exact (proj2 (proj2 (interpretResponse_contract
                    (mkResponse (Some [mkCandidate None])) 0))
             (or_intror (or_intror
                (ex_intro _ (mkCandidate None)
                   (ex_intro _ [] (conj eq_refl (or_introl eq_refl))))))).
Defined.

(** C10.  When the answer to the request of page [i] has, as its first
    inline-image part, image bytes [b] with no MIME type (missing, or the
    empty string), the result page stored at index [i] is the data URL
    [data:image/png;base64,b]. *)
Theorem result_mime_defaults_to_png {World : Type}
    (generateContent : World -> Request -> Result Response * World)
    (trim : string -> string) (w : World) (st : AppState) (i : nat)
    (request : Request) (response : Response)
    (before after : list Part) (p : Part) (d : InlineData) (b : string) :
  nth_error (issued (processImage generateContent trim w st)) i
  = Some (request, Ok response) ->
  responseParts response = before ++ p :: after ->
  existsb isInlineImage before = false ->
  inlineData p = Some d ->
  data d = Some b ->
  Js.truthyOpt (mimeType d) = false ->
  nth_error (resultPages (finalState (processImage generateContent trim w st))) i
  = Some ("data:image/png;base64," ++ b)%string.
Proof.
  intros Hnth Hparts Hbefore Hp Hdata Hmime.
  apply (processImage_stored _ _ w st i request (Ok response)); [assumption|].
  simpl. rewrite Hparts, (scanParts_first before after p d "" Hbefore Hp).
  f_equal. unfold imageUrl. rewrite Hdata.
  destruct (mimeType d) as [[|c s]|]; simpl in *; congruence.
Qed.

(** C1 as stated fails at the guard of line 120.  A one-page document
    whose MIME type is the empty string (a file of a type the browser
    does not know) is not null, and the service would answer every
    request with an image, yet the run returns at once and the result
    sequence stays empty.  A document of no pages with an error standing
    keeps the error. *)
Lemma processImage_guard_counterexample :
  (let st := Fake.loaded ["data:;base64,QUJD"] (Some "") in
   let run := processImage Fake.alwaysImage Fake.noTrim tt st in
   sourceMimeType st <> None
   /\ (forall request,
         answeredWithImage (fst (Fake.alwaysImage tt request)) = true)
   /\ Forall withImage (issued run)
   /\ List.length (sourcePages st) = 1
   /\ List.length (resultPages (finalState run)) = 0
   /\ outcome run = skipped)
  /\
  (let st := setError (Some "文件大小不能超过 100MB")
               (Fake.loaded [] (Some "image/png")) in
   let run := processImage Fake.alwaysImage Fake.noTrim tt st in
   sourceMimeType st <> None
   /\ Forall withImage (issued run)
   /\ error (finalState run) <> None).
Proof.
  split; cbv zeta; repeat split; try discriminate; try reflexivity;
    constructor.
Qed.

Lemma processImage_all_pages_witness :
  let st := Fake.loaded ["data:image/jpeg;base64,AAAA";
                         "data:image/jpeg;base64,BBBB"] (Some "image/jpeg") in
  let w := [Ok (Fake.respond [Fake.imagePart (Some "QUJD") (Some "image/png")]);
            Ok (Fake.respond [Fake.textPart "done";
                              Fake.imagePart (Some "REVG") None])] in
  let run := processImage Fake.scripted Fake.noTrim w st in
  outcome run = completed
  /\ resultPages (finalState run)
     = ["data:image/png;base64,QUJD"; "data:image/png;base64,REVG"]
  /\ List.length (resultPages (finalState run)) = List.length (sourcePages st)
  /\ error (finalState run) = None.
Proof.
  cbv zeta.
  pose proof (processImage_all_pages Fake.scripted Fake.noTrim
    [Ok (Fake.respond [Fake.imagePart (Some "QUJD") (Some "image/png")]);
     Ok (Fake.respond [Fake.textPart "done";
                       Fake.imagePart (Some "REVG") None])]
    (Fake.loaded ["data:image/jpeg;base64,AAAA";
                  "data:image/jpeg;base64,BBBB"] (Some "image/jpeg"))
    "image/jpeg"
    ltac:(discriminate) eq_refl ltac:(discriminate)
    ltac:(vm_compute; repeat constructor)) as H.
  cbv zeta in H.
  destruct H as (Hout & Hlen & _ & _ & Herr).
  repeat split; try assumption.
Defined.

Lemma processImage_first_failure_witness :
  let st := Fake.loaded ["data:image/png;base64,AAAA";
                         "data:image/png;base64,BBBB";
                         "data:image/png;base64,CCCC"] (Some "image/png") in
  let refusal := Fake.respond [Fake.textPart "I cannot "; Fake.textPart "edit this."] in
  let w := [Ok (Fake.respond [Fake.imagePart (Some "QUJD") (Some "image/png")]);
            Ok refusal;
            Ok (Fake.respond [Fake.imagePart (Some "REVG") None])] in
  let run := processImage Fake.scripted Fake.noTrim w st in
  resultPages (finalState run) = ["data:image/png;base64,QUJD"]
  /\ List.length (resultPages (finalState run)) = 2 - 1
  /\ error (finalState run)
     = Some "第 2 页未能生成图像。AI回复: I cannot edit this."
  /\ List.length (issued run) = 2.
Proof.
  cbv zeta.
  pose proof (processImage_first_failure Fake.scripted Fake.noTrim
    [Ok (Fake.respond [Fake.imagePart (Some "QUJD") (Some "image/png")]);
     Ok (Fake.respond [Fake.textPart "I cannot "; Fake.textPart "edit this."]);
     Ok (Fake.respond [Fake.imagePart (Some "REVG") None])]
    (Fake.loaded ["data:image/png;base64,AAAA";
                  "data:image/png;base64,BBBB";
                  "data:image/png;base64,CCCC"] (Some "image/png"))
    2
    (buildRequest Fake.noTrim "image/png" "erase the answers"
       "data:image/png;base64,BBBB")
    (Fake.respond [Fake.textPart "I cannot "; Fake.textPart "edit this."])
    ltac:(lia) eq_refl eq_refl)
    as H.
  cbv zeta in H.
  destruct H as (Hlen & Herr & _ & Hiss & _).
  repeat split; try assumption.
Defined.

Lemma result_mime_defaults_to_png_witness :
  let st := Fake.loaded ["data:image/jpeg;base64,AAAA"] (Some "image/jpeg") in
  let w := [Ok (Fake.respond [Fake.textPart "here it is";
                              Fake.imagePart (Some "QUJD") None;
                              Fake.imagePart (Some "REVG") (Some "image/webp")])] in
  nth_error (resultPages (finalState (processImage Fake.scripted Fake.noTrim w st))) 0
  = Some "data:image/png;base64,QUJD".
Proof.
  cbv zeta.
  apply (result_mime_defaults_to_png Fake.scripted Fake.noTrim _ _ 0
           (buildRequest Fake.noTrim "image/jpeg" "erase the answers"
              "data:image/jpeg;base64,AAAA")
           (Fake.respond [Fake.textPart "here it is";
                          Fake.imagePart (Some "QUJD") None;
                          Fake.imagePart (Some "REVG") (Some "image/webp")])
           [Fake.textPart "here it is"]
           [Fake.imagePart (Some "REVG") (Some "image/webp")]
           (Fake.imagePart (Some "QUJD") None)
           (mkInlineData (Some "QUJD") None) "QUJD");
    reflexivity.
Defined.

(** ** Uploading *)

Section UploadFacts.

Context {Bytes PdfDocument PdfPage Viewport Canvas : Type}.
Variable arrayBuffer : File -> Result Bytes.
Variable getDocument : Bytes -> Result PdfDocument.
Variable numPages : PdfDocument -> nat.
Variable getPage : PdfDocument -> nat -> Result PdfPage.
Variable getViewport : PdfPage -> Q -> Viewport.
Variable getContext2d : nat -> bool.
Variable render : PdfPage -> Viewport -> Result Canvas.
Variable toDataURL : Canvas -> string -> string.
Variable readAsDataURL : File -> string.

#[local] Abbreviation rasterizePage :=
  (rasterizePage getPage getViewport getContext2d render toDataURL).
#[local] Abbreviation rasterizeFrom :=
  (rasterizeFrom getPage getViewport getContext2d render toDataURL).
#[local] Abbreviation readPdf :=
  (readPdf arrayBuffer getDocument numPages getPage getViewport
     getContext2d render toDataURL).
#[local] Abbreviation handleImageUpload :=
  (handleImageUpload arrayBuffer getDocument numPages getPage getViewport
     getContext2d render toDataURL readAsDataURL).
#[local] Abbreviation rendersAt :=
  (rendersAt getPage getViewport getContext2d render).

Lemma rasterizePage_ok (pdf : PdfDocument) (k : nat) (page : PdfPage)
    (canvas : Canvas) :
  rendersAt pdf k page canvas ->
  rasterizePage pdf k
  = ([callGetPage k; callRender k], Ok (toDataURL canvas "image/png")).
Proof.
  intros (Hpage & Hctx & Hrender). unfold rasterizePage.
  rewrite Hpage. simpl. rewrite Hctx, Hrender. reflexivity.
Qed.

Lemma rasterizeFrom_ok (pdf : PdfDocument) :
  forall remaining i pages,
    (forall k, i <= k < i + remaining ->
       exists page canvas, rendersAt pdf k page canvas) ->
    exists urls,
      rasterizeFrom pdf i remaining pages
      = (flat_map (fun k => [callGetPage k; callRender k]) (seq i remaining),
         Ok (pages ++ urls))
      /\ List.length urls = remaining
      /\ forall k, k < remaining ->
           exists page canvas,
             rendersAt pdf (i + k) page canvas
             /\ nth_error urls k = Some (toDataURL canvas "image/png").
Proof.
  induction remaining as [|remaining IH]; intros i pages Hok.
  - exists []. simpl. rewrite app_nil_r. repeat split. intros k Hk; lia.
  - destruct (Hok i ltac:(lia)) as (page & canvas & Hr).
    destruct (IH (S i) (pages ++ [toDataURL canvas "image/png"])) as
      (urls & Hrun & Hlen & Hnth).
    { intros k Hk. apply Hok. lia. }
    exists (toDataURL canvas "image/png" :: urls).
    simpl. rewrite (rasterizePage_ok pdf i page canvas Hr). simpl.
    rewrite Hrun, <- app_assoc. simpl. repeat split.
    + now rewrite Hlen.
    + intros [|k] Hk.
      * exists page, canvas. now rewrite Nat.add_0_r.
      * destruct (Hnth k ltac:(lia)) as (page' & canvas' & Hr' & Hk').
        exists page', canvas'. now rewrite Nat.add_succ_r.
Qed.

(** C3.  A PDF file within the size limit whose decoding succeeds, with
    N pages that each load and render: the upload leaves exactly N
    source pages, the page at position [k] (counted from 1) being the
    PNG data URL of the canvas page number [k] was rendered into at
    scale 2; the pages were visited in the order 1..N; and the shared
    MIME type is [image/png]. *)
Theorem pdf_upload_rasterizes_every_page (st : AppState) (file : File)
    (typedarray : Bytes) (pdf : PdfDocument) :
  fileType file = "application/pdf" ->
  (fileSize file <= maxFileSize)%N ->
  arrayBuffer file = Ok typedarray ->
  getDocument typedarray = Ok pdf ->
  (forall k, 1 <= k <= numPages pdf ->
     exists page canvas, rendersAt pdf k page canvas) ->
  let up := handleImageUpload st (Some file) in
  List.length (sourcePages (uploadState up)) = numPages pdf
  /\ (forall k, 1 <= k <= numPages pdf ->
        exists page canvas,
          getPage pdf k = Ok page
          /\ render page (getViewport page 2) = Ok canvas
          /\ nth_error (sourcePages (uploadState up)) (k - 1)
             = Some (toDataURL canvas "image/png"))
  /\ calls up
     = callTimeout :: callArrayBuffer :: callGetDocument
       :: flat_map (fun k => [callGetPage k; callRender k])
            (seq 1 (numPages pdf))
  /\ sourceMimeType (uploadState up) = Some "image/png"
  /\ resultPages (uploadState up) = []
  /\ error (uploadState up) = None
  /\ isUploading (uploadState up) = false.
Proof.
  intros Htype Hsize Hbuf Hdoc Hpages up.
  destruct (rasterizeFrom_ok pdf (numPages pdf) 1 [])
    as (urls & Hrun & Hlen & Hnth).
  { intros k Hk. apply Hpages. lia. }
  assert (Hup : up = mkUpload
            (resetFileInput
               (setIsUploading false
                  (setSourceMimeType (Some "image/png")
                     (setSourcePages urls
                        (setSourcePages []
                           (setResultPages []
                              (setError None (setIsUploading true st))))))))
            (callTimeout :: callArrayBuffer :: callGetDocument
               :: flat_map (fun k => [callGetPage k; callRender k])
                    (seq 1 (numPages pdf)))
            [setSourcePages []
               (setResultPages []
                  (setError None (setIsUploading true st)))]).
  { unfold up, handleImageUpload.
    apply N.ltb_ge in Hsize. rewrite Hsize, Htype. simpl.
    unfold readPdf. rewrite Hbuf. simpl. rewrite Hdoc. simpl.
    rewrite Hrun. reflexivity. }
  rewrite Hup. simpl. repeat split; try assumption.
  intros k Hk. destruct (Hnth (k - 1) ltac:(lia)) as (page & canvas & Hr & Hu).
  replace (1 + (k - 1)) with k in Hr by lia.
  destruct Hr as (Hpage & _ & Hrender). now exists page, canvas.
Qed.

(** C5.  A file larger than 100MB: the upload sets the size-limit
    error and returns; it makes no call (no timer, no file read, no
    decoding), and every other field of the state is what it was. *)
Theorem oversize_upload_rejected (st : AppState) (file : File) :
  (maxFileSize < fileSize file)%N ->
  let up := handleImageUpload st (Some file) in
  error (uploadState up) = Some "文件大小不能超过 100MB"
  /\ calls up = []
  /\ uploadObserved up = []
  /\ uploadState up = setError (Some "文件大小不能超过 100MB") st
  /\ sourcePages (uploadState up) = sourcePages st
  /\ resultPages (uploadState up) = resultPages st
  /\ sourceMimeType (uploadState up) = sourceMimeType st
  /\ isUploading (uploadState up) = isUploading st
  /\ isProcessing (uploadState up) = isProcessing st
  /\ userPrompt (uploadState up) = userPrompt st
  /\ viewMode (uploadState up) = viewMode st
  /\ fileInputValue (uploadState up) = fileInputValue st.
Proof.
  intros Hsize up. unfold up, handleImageUpload.
  apply N.ltb_lt in Hsize. rewrite Hsize. simpl. repeat split.
Qed.

(** The body of the loop for page [k] calls for page [k] only. *)
Lemma rasterizePage_calls (pdf : PdfDocument) (k : nat) :
  forall c, In c (fst (rasterizePage pdf k)) ->
            c = callGetPage k \/ c = callRender k.
Proof.
  unfold rasterizePage. destruct (getPage pdf k) as [page|e]; simpl.
  - destruct (getContext2d k); simpl.
    + destruct (render page (getViewport page 2)) as [canvas|e]; simpl;
        intros c [<- | [<- | []]]; auto.
    + intros c [<- | []]; auto.
  - intros c [<- | []]; auto.
Qed.

(** The loop up to its first failing page. *)
Lemma rasterizeFrom_first_failure (pdf : PdfDocument) :
  forall remaining i pages k log e,
    i <= k < i + remaining ->
    (forall j, i <= j < k -> exists page canvas, rendersAt pdf j page canvas) ->
    rasterizePage pdf k = (log, Throw e) ->
    rasterizeFrom pdf i remaining pages
    = (flat_map (fun j => [callGetPage j; callRender j]) (seq i (k - i)) ++ log,
       Throw e).
Proof.
  induction remaining as [|remaining IH]; intros i pages k log e Hk Hok Hfail;
    [lia|].
  simpl. destruct (Nat.eq_dec k i) as [->|Hne].
  - rewrite Hfail, Nat.sub_diag. reflexivity.
  - destruct (Hok i ltac:(lia)) as (page & canvas & Hr).
    rewrite (rasterizePage_ok pdf i page canvas Hr).
    simpl.
    rewrite (IH (S i) (pages ++ [toDataURL canvas "image/png"]) k log e
               ltac:(lia) ltac:(intros j Hj; apply Hok; lia) Hfail).
    replace (k - i) with (S (k - S i)) by lia. reflexivity.
Qed.

(** What the loop body does for one page: it renders it, or throws. *)
Lemma rasterizePage_cases (pdf : PdfDocument) (k : nat) :
  (exists page canvas, rendersAt pdf k page canvas)
  \/ (exists log e, rasterizePage pdf k = (log, Throw e)).
Proof.
  unfold rasterizePage, rendersAt.
  destruct (getPage pdf k) as [page|e] eqn:Hpage; simpl.
  - destruct (getContext2d k) eqn:Hctx; simpl.
    + destruct (render page (getViewport page 2)) as [canvas|e] eqn:Hrender;
        simpl.
      * left. now exists page, canvas.
      * right. now eexists _, e.
    + right. now eexists _, _.
  - right. now eexists _, e.
Qed.

(** Up to page [n], every page renders or there is a first that throws. *)
Lemma first_failing_page (pdf : PdfDocument) (n : nat) :
  (forall j, 1 <= j <= n -> exists page canvas, rendersAt pdf j page canvas)
  \/ (exists k log e,
        1 <= k <= n
        /\ (forall j, 1 <= j < k ->
              exists page canvas, rendersAt pdf j page canvas)
        /\ rasterizePage pdf k = (log, Throw e)).
Proof.
  induction n as [|n [IH | (k & log & e & Hk & Hbefore & Hfail)]].
  - left. intros j Hj. lia.
  - destruct (rasterizePage_cases pdf (S n)) as [Hok | (log & e & Hfail)].
    + left. intros j Hj.
      destruct (Nat.eq_dec j (S n)) as [-> | Hne]; [exact Hok|].
      apply IH. lia.
    + right. exists (S n), log, e. split; [lia | split; [|exact Hfail]].
      intros j Hj. apply IH. lia.
  - right. exists k, log, e. split; [lia | now split].
Qed.

(** The [catch] and [finally] blocks after the [try] block threw [e]. *)
Lemma handleImageUpload_caught (st : AppState) (file : File) (e : Js.Error) :
  fileType file = "application/pdf" ->
  (fileSize file <= maxFileSize)%N ->
  snd (readPdf file) = Throw e ->
  let up := handleImageUpload st (Some file) in
  error (uploadState up)
  = Some ("读取 PDF 文件时发生错误: "
          ++ Js.orElse (Js.message e) "未知错误")%string
  /\ sourcePages (uploadState up) = []
  /\ resultPages (uploadState up) = []
  /\ sourceMimeType (uploadState up) = sourceMimeType st
  /\ isUploading (uploadState up) = false.
Proof.
  intros Htype Hsize Hthrow up. unfold up, handleImageUpload.
  apply N.ltb_ge in Hsize. rewrite Hsize, Htype. simpl.
  destruct (readPdf file) as [log r]. simpl in Hthrow. subst r.
  simpl. repeat split.
Qed.

(** C8, as amended.  A PDF upload within the size limit in which
    reading the file, opening the document or loading or rendering a
    page throws: the operation ends in its [catch] block with the error
    that was thrown first, the error shown is the fixed prefix followed
    by the message of that error (or a fixed placeholder when it has
    none), the pages rasterized before the failure are dropped, and the
    source and result sequences are empty.  The message carries no page
    count of its own. *)
Theorem pdf_upload_failure_resets (st : AppState) (file : File) :
  fileType file = "application/pdf" ->
  (fileSize file <= maxFileSize)%N ->
  let up := handleImageUpload st (Some file) in
  let abortedWith (e : Js.Error) :=
    snd (readPdf file) = Throw e
    /\ error (uploadState up)
       = Some ("读取 PDF 文件时发生错误: "
               ++ Js.orElse (Js.message e) "未知错误")%string
    /\ sourcePages (uploadState up) = []
    /\ resultPages (uploadState up) = []
    /\ sourceMimeType (uploadState up) = sourceMimeType st
    /\ isUploading (uploadState up) = false in
  (forall e, arrayBuffer file = Throw e -> abortedWith e)
  /\ (forall typedarray e,
        arrayBuffer file = Ok typedarray ->
        getDocument typedarray = Throw e ->
        abortedWith e)
  /\ (forall typedarray pdf k e,
        arrayBuffer file = Ok typedarray ->
        getDocument typedarray = Ok pdf ->
        1 <= k <= numPages pdf ->
        (forall j, 1 <= j < k ->
           exists page canvas, rendersAt pdf j page canvas) ->
        (getPage pdf k = Throw e
         \/ (exists page,
               getPage pdf k = Ok page
               /\ getContext2d k = false
               /\ e = Js.newError "无法创建画布")
         \/ (exists page,
               getPage pdf k = Ok page
               /\ getContext2d k = true
               /\ render page (getViewport page 2) = Throw e)) ->
        abortedWith e)
  /\ (forall typedarray pdf k e,
        arrayBuffer file = Ok typedarray ->
        getDocument typedarray = Ok pdf ->
        1 <= k <= numPages pdf ->
        snd (rasterizePage pdf k) = Throw e ->
        exists k' e',
          1 <= k' <= k
          /\ (forall j, 1 <= j < k' ->
                exists page canvas, rendersAt pdf j page canvas)
          /\ snd (rasterizePage pdf k') = Throw e'
          /\ abortedWith e').
Proof.
  intros Htype Hsize up abortedWith.
  assert (Hcaught : forall e, snd (readPdf file) = Throw e -> abortedWith e).
  { intros e He. split; [exact He|].
    exact (handleImageUpload_caught st file e Htype Hsize He). }
  assert (Hpage : forall typedarray pdf k log e,
            arrayBuffer file = Ok typedarray ->
            getDocument typedarray = Ok pdf ->
            1 <= k <= numPages pdf ->
            (forall j, 1 <= j < k ->
               exists page canvas, rendersAt pdf j page canvas) ->
            rasterizePage pdf k = (log, Throw e) ->
            abortedWith e).
  { intros typedarray pdf k log e Hbuf Hdoc Hk Hbefore Hfail.
    apply Hcaught. unfold readPdf. rewrite Hbuf. simpl. rewrite Hdoc. simpl.
    now rewrite (rasterizeFrom_first_failure pdf (numPages pdf) 1 [] k log e
                   ltac:(lia) Hbefore Hfail). }
  split; [|split; [|split]].
  - intros e He. apply Hcaught. unfold readPdf. now rewrite He.
  - intros typedarray e Hbuf He. apply Hcaught. unfold readPdf.
    rewrite Hbuf. simpl. now rewrite He.
  - intros typedarray pdf k e Hbuf Hdoc Hk Hbefore Hfail.
    assert (Hthrow : exists log, rasterizePage pdf k = (log, Throw e)).
    { unfold rasterizePage.
      destruct Hfail as [Hp | [(page & Hp & Hctx & ->)
                              | (page & Hp & Hctx & Hr)]];
        rewrite Hp; simpl; [now eexists | |].
      - rewrite Hctx. simpl. now eexists.
      - rewrite Hctx, Hr. simpl. now eexists. }
    destruct Hthrow as [log Hlog].
    exact (Hpage typedarray pdf k log e Hbuf Hdoc Hk Hbefore Hlog).
  - intros typedarray pdf k e Hbuf Hdoc Hk He.
    destruct (first_failing_page pdf k)
      as [Hall | (k' & log & e' & Hk' & Hbefore & Hfail)].
    + destruct (Hall k ltac:(lia)) as (page & canvas & Hr).
      rewrite (rasterizePage_ok pdf k page canvas Hr) in He. discriminate.
    + exists k', e'. split; [exact Hk' | split; [exact Hbefore | split]].
      * now rewrite Hfail.
      * exact (Hpage typedarray pdf k' log e' Hbuf Hdoc ltac:(lia) Hbefore
                 Hfail).
Qed.

End UploadFacts.

Lemma pdf_upload_rasterizes_every_page_witness :
  let up := Fake.upload 3 0 initialState (Some Fake.pdfFile) in
  sourcePages (uploadState up)
  = ["data:image/png;base64,page1"; "data:image/png;base64,page2";
     "data:image/png;base64,page3"]
  /\ List.length (sourcePages (uploadState up)) = 3
  /\ sourceMimeType (uploadState up) = Some "image/png".
Proof.
  cbv zeta.
  pose proof (pdf_upload_rasterizes_every_page
    Fake.arrayBuffer (Fake.getDocument 3) Fake.numPages Fake.getPage
    Fake.getViewport Fake.getContext2d (Fake.render 0) Fake.toDataURL
    Fake.readAsDataURL initialState Fake.pdfFile "scan.pdf" 3
    eq_refl ltac:(vm_compute; discriminate) eq_refl eq_refl
    ltac:(intros k Hk; exists k, k; destruct k;
          [lia | repeat split])) as H.
  cbv zeta in H. destruct H as (Hlen & _ & _ & Hmime & _).
  repeat split; assumption.
Defined.

Lemma oversize_upload_rejected_witness :
  let st := Fake.loaded ["data:image/png;base64,AAAA"] (Some "image/png") in
  let up := Fake.upload 3 0 st (Some Fake.hugeFile) in
  error (uploadState up) = Some "文件大小不能超过 100MB"
  /\ calls up = []
  /\ sourcePages (uploadState up) = ["data:image/png;base64,AAAA"].
Proof.
  cbv zeta.
  pose proof (oversize_upload_rejected
    Fake.arrayBuffer (Fake.getDocument 3) Fake.numPages Fake.getPage
    Fake.getViewport Fake.getContext2d (Fake.render 0) Fake.toDataURL
    Fake.readAsDataURL
    (Fake.loaded ["data:image/png;base64,AAAA"] (Some "image/png"))
    Fake.hugeFile ltac:(vm_compute; reflexivity)) as H.
  cbv zeta in H. destruct H as (Herr & Hcalls & _ & _ & Hsrc & _).
  repeat split; assumption.
Defined.

(** C8 as stated fails: the handler puts no page count into the message.
    A three-page PDF whose second page fails to render leaves the message
    of the thrown error behind the fixed prefix; neither the page count
    nor the number of the failing page occurs in it. *)
Lemma pdf_upload_failure_counterexample :
  let up := Fake.upload 3 2 initialState (Some Fake.pdfFile) in
  Fake.numPages 3 = 3
  /\ error (uploadState up) = Some "读取 PDF 文件时发生错误: render failed"
  /\ Js.includes (Js.numberToString 3) "读取 PDF 文件时发生错误: render failed"
     = false
  /\ Js.includes (Js.numberToString 2) "读取 PDF 文件时发生错误: render failed"
     = false
  /\ sourcePages (uploadState up) = [].
Proof. cbv zeta. repeat split. Qed.

Lemma pdf_upload_failure_resets_witness :
  (let up := Fake.upload 3 2 initialState (Some Fake.pdfFile) in
   error (uploadState up) = Some "读取 PDF 文件时发生错误: render failed"
   /\ sourcePages (uploadState up) = []
   /\ resultPages (uploadState up) = [])
  /\ (let up :=
        handleImageUpload Fake.failingArrayBuffer (Fake.getDocument 3)
          Fake.numPages Fake.getPage Fake.getViewport Fake.getContext2d
          (Fake.render 0) Fake.toDataURL Fake.readAsDataURL
          (Fake.loaded ["data:image/png;base64,AAAA"] (Some "image/png"))
          (Some Fake.pdfFile) in
      error (uploadState up)
      = Some "读取 PDF 文件时发生错误: The requested file could not be read"
      /\ sourcePages (uploadState up) = [])
  /\ (let up :=
        handleImageUpload Fake.arrayBuffer Fake.failingGetDocument
          Fake.numPages Fake.getPage Fake.getViewport Fake.getContext2d
          (Fake.render 0) Fake.toDataURL Fake.readAsDataURL
          initialState (Some Fake.pdfFile) in
      error (uploadState up) = Some "读取 PDF 文件时发生错误: 未知错误"
      /\ sourcePages (uploadState up) = [])
  /\ (let up :=
        handleImageUpload Fake.arrayBuffer (Fake.getDocument 3)
          Fake.numPages Fake.getPage Fake.getViewport
          (fun i => negb (i =? 3)) (Fake.render 0) Fake.toDataURL
          Fake.readAsDataURL initialState (Some Fake.pdfFile) in
      error (uploadState up) = Some "读取 PDF 文件时发生错误: 无法创建画布"
      /\ sourcePages (uploadState up) = []).
Proof.
  cbv zeta. split; [|split; [|split]].
  - pose proof (pdf_upload_failure_resets
      Fake.arrayBuffer (Fake.getDocument 3) Fake.numPages Fake.getPage
      Fake.getViewport Fake.getContext2d (Fake.render 2) Fake.toDataURL
      Fake.readAsDataURL initialState Fake.pdfFile
      eq_refl ltac:(vm_compute; discriminate)) as H.
    cbv zeta in H. destruct H as (_ & _ & Hpage & _).
    destruct (Hpage "scan.pdf" 3 2 (Js.newError "render failed")
                eq_refl eq_refl ltac:(cbv [Fake.numPages]; lia)
                ltac:(intros j Hj; assert (j = 1) as -> by lia;
                      exists 1, 1; repeat split)
                (or_intror (or_intror
                   (ex_intro _ 2 (conj eq_refl (conj eq_refl eq_refl))))))
      as (_ & Herr & Hsrc & Hres & _).
    repeat split; assumption.
  - pose proof (pdf_upload_failure_resets
      Fake.failingArrayBuffer (Fake.getDocument 3) Fake.numPages Fake.getPage
      Fake.getViewport Fake.getContext2d (Fake.render 0) Fake.toDataURL
      Fake.readAsDataURL
      (Fake.loaded ["data:image/png;base64,AAAA"] (Some "image/png"))
      Fake.pdfFile
      eq_refl ltac:(vm_compute; discriminate)) as H.
    cbv zeta in H. destruct H as (Hread & _).
    destruct (Hread (Js.newError "The requested file could not be read")
                eq_refl) as (_ & Herr & Hsrc & _).
    split; assumption.
  - pose proof (pdf_upload_failure_resets
      Fake.arrayBuffer Fake.failingGetDocument Fake.numPages Fake.getPage
      Fake.getViewport Fake.getContext2d (Fake.render 0) Fake.toDataURL
      Fake.readAsDataURL initialState Fake.pdfFile
      eq_refl ltac:(vm_compute; discriminate)) as H.
    cbv zeta in H. destruct H as (_ & Hopen & _).
    destruct (Hopen "scan.pdf" (Js.mkError None) eq_refl eq_refl)
      as (_ & Herr & Hsrc & _).
    split; assumption.
  - pose proof (pdf_upload_failure_resets
      Fake.arrayBuffer (Fake.getDocument 3) Fake.numPages Fake.getPage
      Fake.getViewport (fun i => negb (i =? 3)) (Fake.render 0)
      Fake.toDataURL Fake.readAsDataURL initialState Fake.pdfFile
      eq_refl ltac:(vm_compute; discriminate)) as H.
    cbv zeta in H. destruct H as (_ & _ & Hpage & _).
    destruct (Hpage "scan.pdf" 3 3 (Js.newError "无法创建画布")
                eq_refl eq_refl ltac:(cbv [Fake.numPages]; lia)
                ltac:(intros j Hj;
                      assert (j = 1 \/ j = 2) as [-> | ->] by lia;
                      [exists 1, 1 | exists 2, 2]; repeat split)
                (or_intror (or_introl
                   (ex_intro _ 3 (conj eq_refl (conj eq_refl eq_refl))))))
      as (_ & Herr & Hsrc & _).
    split; assumption.
Defined.

(** ** Clearing *)

(** C9.  Whatever the state, [clearImage] leaves no source pages, a null
    source MIME type, no result pages and a null error; it also empties
    the file input and touches nothing else. *)
Theorem clearImage_resets (st : AppState) :
  sourcePages (clearImage st) = []
  /\ sourceMimeType (clearImage st) = None
  /\ resultPages (clearImage st) = []
  /\ error (clearImage st) = None
  /\ fileInputValue (clearImage st) = ""
  /\ isProcessing (clearImage st) = isProcessing st
  /\ isUploading (clearImage st) = isUploading st
  /\ userPrompt (clearImage st) = userPrompt st
  /\ viewMode (clearImage st) = viewMode st.
Proof. repeat split. Qed.

(** ** Downloading *)

(** The box of an image of aspect ratio [r] on a page [W] by [H], as
    lines 206-216 compute it. *)
Lemma fit_box (W H r : Q) :
  (0 < W)%Q -> (0 < H)%Q -> (0 < r)%Q ->
  let wide := Qgtb r (W / H) in
  let finalWidth := if wide then W else (H * r)%Q in
  let finalHeight := if wide then (W / r)%Q else H in
  let x := ((W - finalWidth) / 2)%Q in
  let y := ((H - finalHeight) / 2)%Q in
  (finalWidth / finalHeight == r)%Q
  /\ ((W / H < r)%Q -> finalWidth == W)%Q
  /\ ((r <= W / H)%Q -> finalHeight == H)%Q
  /\ (x + finalWidth + x == W)%Q
  /\ (y + finalHeight + y == H)%Q
  /\ (0 <= x)%Q
  /\ (0 <= y)%Q.
Proof.
  intros HW HH Hr wide finalWidth finalHeight x y.
  assert (HW0 : ~ (W == 0)%Q) by (intros E; rewrite E in HW; lra).
  assert (HH0 : ~ (H == 0)%Q) by (intros E; rewrite E in HH; lra).
  assert (Hr0 : ~ (r == 0)%Q) by (intros E; rewrite E in Hr; lra).
  assert (Hq : (W / H * H == W)%Q) by (field; assumption).
  assert (Hh : (W / r * r == W)%Q) by (field; assumption).
  subst x y finalWidth finalHeight wide. unfold Qgtb.
  set (q := (W / H)%Q) in *. set (h := (W / r)%Q) in *.
  destruct (Qle_bool r q) eqn:Hcmp; simpl.
  - apply Qle_bool_iff in Hcmp.
    assert (Hfit : (H * r <= W)%Q) by (clearbody q h; nra).
    repeat split; try reflexivity; try (field; assumption);
      try (apply Qle_shift_div_l; lra).
    intros Hlt. lra.
  - assert (Hlt : (q < r)%Q).
    { apply Qnot_le_lt. intros Hle. apply Qle_bool_iff in Hle. congruence. }
    assert (Hfit : (h <= H)%Q) by (clearbody q h; nra).
    repeat split; try reflexivity; try (apply Qle_shift_div_l; lra).
    + subst h. field. split; assumption.
    + intros Hle. lra.
    + field.
    + field.
Qed.

Section DownloadFacts.

Variables pdfWidth pdfHeight : Q.
Variable getImageProperties : string -> Result ImageProperties.

#[local] Abbreviation placeImage := (placeImage pdfWidth pdfHeight).
#[local] Abbreviation appendPages :=
  (appendPages pdfWidth pdfHeight getImageProperties).
#[local] Abbreviation downloadResult :=
  (downloadResult pdfWidth pdfHeight getImageProperties).
#[local] Abbreviation decodes := (decodes getImageProperties).
#[local] Abbreviation placements := (placements pdfWidth pdfHeight).

Lemma addImage_addPage (p : Placement) (pdf : JsPdf) :
  addImage p (addPage pdf)
  = mkJsPdf (orientation pdf) (units pdf) (paper pdf)
      (pdfPages pdf ++ [[p]]).
Proof.
  unfold addImage, addPage. cbn [orientation units paper pdfPages].
  rewrite rev_app_distr. cbn [rev app]. now rewrite rev_involutive.
Qed.

(** Past the first page, every decoded page of the result adds one page
    holding one image. *)
Lemma appendPages_later (pages : list string) (props : list ImageProperties) :
  decodes pages props ->
  forall index pdf,
    0 < index ->
    appendPages pages index pdf
    = Ok (mkJsPdf (orientation pdf) (units pdf) (paper pdf)
            (pdfPages pdf ++ placements pages props)).
Proof.
  induction 1 as [|page imgProps pages props Hpage _ IH];
    intros index pdf Hindex; simpl.
  - unfold placements. simpl. rewrite app_nil_r. now destruct pdf.
  - destruct index as [|index]; [lia|]. simpl.
    rewrite Hpage. simpl.
    rewrite addImage_addPage, IH by lia. simpl.
    unfold placements. simpl. now rewrite <- app_assoc.
Qed.

Lemma appendPages_new (o u f : string) (pages : list string)
    (props : list ImageProperties) :
  decodes pages props ->
  pages <> [] ->
  appendPages pages 0 (newJsPdf o u f) = Ok (mkJsPdf o u f (placements pages props)).
Proof.
  intros Hdec Hne. destruct Hdec as [|page imgProps pages props Hpage Hrest];
    [congruence|].
  simpl. rewrite Hpage. simpl.
  now rewrite (appendPages_later pages props Hrest) by lia.
Qed.

(** The first page that does not decode ends the loop with its error. *)
Lemma appendPages_throws (before after : list string) (page : string)
    (e : Js.Error) :
  (forall q, In q before -> exists imgProps, getImageProperties q = Ok imgProps) ->
  getImageProperties page = Throw e ->
  forall index pdf,
    appendPages (before ++ page :: after) index pdf = Throw e.
Proof.
  induction before as [|q before IH]; intros Hbefore Hpage index pdf; simpl.
  - now rewrite Hpage.
  - destruct (Hbefore q (or_introl eq_refl)) as [imgProps Hq].
    rewrite Hq. simpl. apply IH; [|exact Hpage].
    intros q' Hq'. apply Hbefore. now right.
Qed.

(** Pages that each decode, decode as a list. *)
Lemma decodes_all (pages : list string) :
  (forall page, In page pages ->
     exists imgProps, getImageProperties page = Ok imgProps) ->
  exists props, decodes pages props.
Proof.
  induction pages as [|page pages IH]; intros Hall.
  - exists []. constructor.
  - destruct (Hall page (or_introl eq_refl)) as [imgProps Hpage].
    destruct IH as [props Hprops].
    { intros q Hq. apply Hall. now right. }
    exists (imgProps :: props). now constructor.
Qed.

(** Either every page decodes or there is a first one that does not. *)
Lemma first_undecodable (pages : list string) :
  (forall page, In page pages ->
     exists imgProps, getImageProperties page = Ok imgProps)
  \/ exists before page after e,
       pages = before ++ page :: after
       /\ (forall q, In q before ->
             exists imgProps, getImageProperties q = Ok imgProps)
       /\ getImageProperties page = Throw e.
Proof.
  induction pages as [|page pages IH].
  - left. intros page [].
  - destruct (getImageProperties page) as [imgProps|e] eqn:Hpage.
    + destruct IH as [Hall | (before & q & after & e & -> & Hbefore & Hq)].
      * left. intros q [<- | Hq]; [eexists; eassumption | now apply Hall].
      * right. exists (page :: before), q, after, e.
        repeat split; [|exact Hq].
        intros q' [<- | Hq']; [eexists; eassumption | now apply Hbefore].
    + right. exists [], page, pages, e. repeat split; [|exact Hpage].
      intros q [].
Qed.

Lemma placements_length (pages : list string) (props : list ImageProperties) :
  decodes pages props ->
  List.length (placements pages props) = List.length pages.
Proof.
  induction 1 as [|page imgProps pages props _ _ IH]; [reflexivity|].
  unfold placements in *. simpl. now rewrite IH.
Qed.

Lemma placements_nth (pages : list string) (props : list ImageProperties) :
  decodes pages props ->
  forall i pageData,
    nth_error pages i = Some pageData ->
    exists imgProps,
      getImageProperties pageData = Ok imgProps
      /\ nth_error (placements pages props) i
         = Some [placeImage pageData imgProps].
Proof.
  induction 1 as [|page imgProps pages props Hpage _ IH];
    intros [|i] pageData Hnth; simpl in Hnth; try discriminate.
  - injection Hnth as <-. now exists imgProps.
  - exact (IH i pageData Hnth).
Qed.

(** What a click does, by the number of result pages. *)
Lemma downloadResult_cases (st : AppState) :
  match resultPages st with
  | [] => downloadResult st = noDownload
  | [page] => downloadResult st = anchorClick page "cleaned_worksheet.png"
  | pages =>
      (forall props,
         decodes pages props ->
         downloadResult st
         = pdfSave (mkJsPdf "p" "mm" "a4" (placements pages props))
             "cleaned_document.pdf")
      /\ (forall before page after e,
            pages = before ++ page :: after ->
            (forall q, In q before ->
               exists imgProps, getImageProperties q = Ok imgProps) ->
            getImageProperties page = Throw e ->
            downloadResult st = downloadThrows e)
  end.
Proof.
  unfold downloadResult.
  destruct (resultPages st) as [|a [|b rest]] eqn:E; try reflexivity.
  split.
  - intros props Hdec.
    now rewrite (appendPages_new "p" "mm" "a4" _ props Hdec) by discriminate.
  - intros before page after e Heq Hbefore Hpage.
    now rewrite Heq, (appendPages_throws before after page e Hbefore Hpage).
Qed.

Lemma ratio_positive (props : ImageProperties) :
  (0 < inject_Z (Zpos (width props)) / inject_Z (Zpos (height props)))%Q.
Proof.
  apply Qlt_shift_div_l; unfold Qlt; simpl; lia.
Qed.

(** C4, as amended.  A result sequence of one page is offered as
    [cleaned_worksheet.png], its link being the page itself.  A result
    sequence of more than one page, each an image the PDF writer can
    decode, is saved as [cleaned_document.pdf], a portrait A4 document
    in millimetres with one page per result page in result order, each
    holding that page's image in a box that has the image's aspect
    ratio, spans the page width when the image is relatively wider than
    the page and the page height otherwise, has equal margins left and
    right and equal margins above and below, and lies within the page.
    When some page does not decode, the click throws the error of the
    first such page and saves nothing. *)
Theorem downloadResult_assembles (st : AppState) :
  (0 < pdfWidth)%Q ->
  (0 < pdfHeight)%Q ->
  (forall page,
      resultPages st = [page] ->
      downloadResult st = anchorClick page "cleaned_worksheet.png")
  /\ (1 < List.length (resultPages st) ->
      (forall page, In page (resultPages st) ->
         exists imgProps, getImageProperties page = Ok imgProps) ->
      exists pdf,
        downloadResult st = pdfSave pdf "cleaned_document.pdf"
        /\ orientation pdf = "p" /\ units pdf = "mm" /\ paper pdf = "a4"
        /\ List.length (pdfPages pdf) = List.length (resultPages st)
        /\ forall i pageData,
             nth_error (resultPages st) i = Some pageData ->
             exists imgProps p,
               getImageProperties pageData = Ok imgProps
               /\ nth_error (pdfPages pdf) i = Some [p]
               /\ placedImage p = pageData
               /\ let ratio :=
                    (inject_Z (Zpos (width imgProps))
                     / inject_Z (Zpos (height imgProps)))%Q in
                  (boxWidth p / boxHeight p == ratio)%Q
                  /\ ((pdfWidth / pdfHeight < ratio)%Q ->
                      boxWidth p == pdfWidth)%Q
                  /\ ((ratio <= pdfWidth / pdfHeight)%Q ->
                      boxHeight p == pdfHeight)%Q
                  /\ (boxX p + boxWidth p + boxX p == pdfWidth)%Q
                  /\ (boxY p + boxHeight p + boxY p == pdfHeight)%Q
                  /\ (0 <= boxX p)%Q
                  /\ (0 <= boxY p)%Q)
  /\ (1 < List.length (resultPages st) ->
      forall before page after e,
        resultPages st = before ++ page :: after ->
        (forall q, In q before ->
           exists imgProps, getImageProperties q = Ok imgProps) ->
        getImageProperties page = Throw e ->
        downloadResult st = downloadThrows e).
Proof.
  intros HW HH. pose proof (downloadResult_cases st) as Hcases.
  split; [|split].
  - intros page Hone. now rewrite Hone in Hcases.
  - intros Hmany Hall.
    destruct (decodes_all (resultPages st) Hall) as [props Hdec].
    exists (mkJsPdf "p" "mm" "a4" (placements (resultPages st) props)).
    split; [|split; [|split; [|split; [|split]]]]; try reflexivity.
    + destruct (resultPages st) as [|a [|b rest]]; simpl in Hmany; try lia.
      exact (proj1 Hcases props Hdec).
    + simpl. now apply placements_length.
    + intros i pageData Hnth.
      destruct (placements_nth _ _ Hdec i pageData Hnth)
        as (imgProps & Hprops & Hplace).
      exists imgProps, (placeImage pageData imgProps).
      split; [exact Hprops | split; [exact Hplace | split; [reflexivity|]]].
      exact (fit_box pdfWidth pdfHeight _ HW HH (ratio_positive imgProps)).
  - intros Hmany before page after e Heq Hbefore Hpage.
    destruct (resultPages st) as [|a [|b rest]]; simpl in Hmany; try lia.
    exact (proj2 Hcases before page after e Heq Hbefore Hpage).
Qed.

End DownloadFacts.

(** C4 as stated fails: the click reads the properties of every page
    with nothing to catch what the PDF writer throws.  A two-page run
    whose second answer is an inline-image part without data stores
    [data:image/png;base64,undefined] as the second result page; the
    writer cannot decode it, the click throws and no PDF is saved. *)
Lemma downloadResult_undecodable_counterexample :
  let st := Fake.loaded ["data:image/png;base64,AAAA";
                         "data:image/png;base64,BBBB"] (Some "image/png") in
  let w := [Ok (Fake.respond [Fake.imagePart (Some Fake.widePayload)
                                (Some "image/png")]);
            Ok (Fake.respond [Fake.imagePart None (Some "image/png")])] in
  let final := finalState (processImage Fake.scripted Fake.noTrim w st) in
  resultPages final = [Fake.widePng; "data:image/png;base64,undefined"]
  /\ resultPages final <> []
  /\ (exists e,
        downloadResult 210 297 Fake.getImageProperties final
        = downloadThrows e)
  /\ forall pdf name,
       downloadResult 210 297 Fake.getImageProperties final
       <> pdfSave pdf name.
Proof.
  cbv zeta. repeat split; try discriminate.
  eexists. reflexivity.
Qed.

Lemma downloadResult_assembles_witness :
  let one := setResultPages ["data:image/png;base64,QUJD"] initialState in
  let two := setResultPages [Fake.widePng; Fake.tallPng] initialState in
  let bad :=
    setResultPages [Fake.widePng; "data:image/png;base64,undefined";
                    Fake.tallPng] initialState in
  downloadResult 210 297 Fake.getImageProperties one
  = anchorClick "data:image/png;base64,QUJD" "cleaned_worksheet.png"
  /\ (exists pdf,
        downloadResult 210 297 Fake.getImageProperties two
        = pdfSave pdf "cleaned_document.pdf"
        /\ List.length (pdfPages pdf) = 2
        /\ exists wide tall,
             pdfPages pdf = [[wide]; [tall]]
             /\ (boxWidth wide == 210 /\ boxHeight wide == 945 # 8
                 /\ boxX wide == 0 /\ boxY wide == 1431 # 16)%Q
             /\ (boxHeight tall == 297 /\ boxWidth tall == 198
                 /\ boxX tall == 6 /\ boxY tall == 0)%Q)
  /\ downloadResult 210 297 Fake.getImageProperties bad
     = downloadThrows
         (Js.newError "addImage does not support files of type 'UNKNOWN', please ensure that a plugin for 'UNKNOWN' support is added.").
Proof.
  cbv zeta. split; [|split].
  - apply (proj1 (downloadResult_assembles 210 297 Fake.getImageProperties
                    (setResultPages ["data:image/png;base64,QUJD"] initialState)
                    ltac:(reflexivity) ltac:(reflexivity))).
    reflexivity.
  - destruct (proj1 (proj2 (downloadResult_assembles 210 297
                              Fake.getImageProperties
                              (setResultPages [Fake.widePng; Fake.tallPng]
                                 initialState)
                              ltac:(reflexivity) ltac:(reflexivity)))
                ltac:(simpl; lia)
                ltac:(intros page [<- | [<- | []]]; eexists; reflexivity))
      as (pdf & Hsave & _ & _ & _ & Hlen & _).
    exists pdf. split; [exact Hsave | split; [exact Hlen|]].
    assert (Hpdf : pdf = mkJsPdf "p" "mm" "a4"
                     (placements 210 297 [Fake.widePng; Fake.tallPng]
                        [mkImageProperties 16 9; mkImageProperties 2 3])).
    { vm_compute in Hsave. injection Hsave as <-. vm_compute. reflexivity. }
    rewrite Hpdf.
    exists (placeImage 210 297 Fake.widePng (mkImageProperties 16 9)),
      (placeImage 210 297 Fake.tallPng (mkImageProperties 2 3)).
    split; [reflexivity|].
    repeat split; vm_compute; reflexivity.
  - apply (proj2 (proj2 (downloadResult_assembles 210 297
                           Fake.getImageProperties
                           (setResultPages
                              [Fake.widePng; "data:image/png;base64,undefined";
                               Fake.tallPng] initialState)
                           ltac:(reflexivity) ltac:(reflexivity)))
             ltac:(simpl; lia)
             [Fake.widePng] "data:image/png;base64,undefined" [Fake.tallPng]).
    + reflexivity.
    + intros q [<- | []]. eexists. reflexivity.
    + reflexivity.
Defined.

(** ** Sessions *)

(** With no other handler running, the loop amid others is the loop. *)
Lemma editLoopAmid_alone {World : Type}
    (generateContent : World -> Request -> Result Response * World)
    (trim : string -> string) (mime prompt : string) (pages : list string) :
  forall i results w st,
    editLoopAmid generateContent trim (fun _ st' => st') mime prompt pages i
      results w st
    = editLoop generateContent trim mime prompt pages i results w st.
Proof.
  induction pages as [|page rest IH]; intros i results w st; simpl.
  - reflexivity.
  - destruct (generateContent w _) as [answer w'].
    destruct (response <- answer ;; interpretResponse response i);
      [now rewrite IH | reflexivity].
Qed.

Lemma processImageAmid_alone {World : Type}
    (generateContent : World -> Request -> Result Response * World)
    (trim : string -> string) (w : World) (st : AppState) :
  processImageAmid generateContent trim (fun _ st' => st') w st
  = processImage generateContent trim w st.
Proof.
  unfold processImageAmid, processImage.
  now rewrite editLoopAmid_alone.
Qed.

Section SessionFacts.

Context {World Bytes PdfDocument PdfPage Viewport Canvas : Type}.
Variable generateContent : World -> Request -> Result Response * World.
Variable trim : string -> string.
Variable arrayBuffer : File -> Result Bytes.
Variable getDocument : Bytes -> Result PdfDocument.
Variable numPages : PdfDocument -> nat.
Variable getPage : PdfDocument -> nat -> Result PdfPage.
Variable getViewport : PdfPage -> Q -> Viewport.
Variable getContext2d : nat -> bool.
Variable render : PdfPage -> Viewport -> Result Canvas.
Variable toDataURL : Canvas -> string -> string.
Variable readAsDataURL : File -> string.

#[local] Abbreviation upload :=
  (upload arrayBuffer getDocument numPages getPage getViewport
     getContext2d render toDataURL readAsDataURL).
#[local] Abbreviation idle :=
  (idle generateContent trim arrayBuffer getDocument numPages getPage
     getViewport getContext2d render toDataURL readAsDataURL).
#[local] Abbreviation visible :=
  (visible generateContent trim arrayBuffer getDocument numPages getPage
     getViewport getContext2d render toDataURL readAsDataURL).
#[local] Abbreviation processImage := (processImage generateContent trim).

(** An upload that passes the size check leaves no result page, while
    it is suspended and when it is done. *)
Lemma upload_accepted (st : AppState) (file : File) :
  (maxFileSize <? fileSize file)%N = false ->
  resultPages (uploadState (upload st (Some file))) = []
  /\ forall st', In st' (uploadObserved (upload st (Some file))) ->
                 resultPages st' = [].
Proof.
  intros Hsize. unfold upload, handleImageUpload. rewrite Hsize.
  destruct (fileType file =? "application/pdf")%string.
  - destruct (readPdf _ _ _ _ _ _ _ _ file) as [log [pages|e]]; simpl;
      (split; [reflexivity | intros st' [<- | []]; reflexivity]).
  - simpl. split; [reflexivity | intros st' [<- | []]; reflexivity].
Qed.

Lemma upload_rejected (st : AppState) (file : option File) :
  match file with
  | None => True
  | Some f => (maxFileSize <? fileSize f)%N = true
  end ->
  sourcePages (uploadState (upload st file)) = sourcePages st
  /\ resultPages (uploadState (upload st file)) = resultPages st
  /\ uploadObserved (upload st file) = [].
Proof.
  unfold upload, handleImageUpload. destruct file as [f|]; intros H.
  - rewrite H. now repeat split.
  - now repeat split.
Qed.

(** What a run does to the standing. *)
Lemma processImage_standing (w : World) (st : AppState) (s : RunStatus) :
  standing st s ->
  standing (finalState (processImage w st))
    (statusAfterRun (outcome (processImage w st)) s)
  /\ forall st', In st' (observed (processImage w st)) ->
                 standing st' inFlight.
Proof.
  intros Hst.
  destruct (sourcePages st) as [|p ps] eqn:Hsrc.
  { rewrite processImage_skipped by (now left). simpl.
    split; [assumption | intros st' []]. }
  destruct (sourceMimeType st) as [[|c m]|] eqn:Hmime;
    try (rewrite processImage_skipped by (right; now rewrite Hmime); simpl;
         split; [assumption | intros st' []]).
  assert (Hne : sourcePages st <> []) by (rewrite Hsrc; discriminate).
  assert (Hm : String c m <> "") by discriminate.
  split.
  - destruct (processImage_ran generateContent trim w st _ Hne Hmime Hm)
      as (Hres & Hsame & _ & _ & Hout).
    destruct (outcome (processImage w st)) as [| |e]; [contradiction| |];
      simpl; rewrite Hres, Hsame.
    + destruct Hout as (Hall & Hlen & _).
      now rewrite (proj1 (pagesOf_withImage _ Hall)).
    + destruct Hout as (done & rq & ans & He & Hdone & Hno & _ & Hlen & _).
      rewrite He, pagesOf_app, (pagesOf_no_image _ _ Hno), app_nil_r.
      now rewrite (proj1 (pagesOf_withImage _ Hdone)).
  - intros st' Hin.
    rewrite (processImage_entered generateContent trim w st _ Hne Hmime Hm)
      in Hin.
    assert (Hsus : In st' (suspended
              (editLoop generateContent trim (String c m) (userPrompt st)
                 (sourcePages st) 0 [] w
                 (setResultPages []
                    (setError None (setIsProcessing true st)))))).
    { destruct (thrown _); exact Hin. }
    apply editLoop_suspended in Hsus; [|reflexivity].
    destruct Hsus as [Hsame Hlen]. simpl in *. now rewrite Hsame.
Qed.

Lemma idle_standing (w : World) (st : AppState) (s : RunStatus) :
  idle w st s -> standing st s.
Proof.
  induction 1 as [w | w st s p _ IH | w st s v _ IH | w st s file _ IH
                 | w st s _ IH | w st s pw ph props d _ IH _
                 | w st s _ IH].
  - reflexivity.
  - destruct s; exact IH.
  - destruct s; exact IH.
  - destruct file as [f|].
    + unfold statusAfterUpload.
      destruct (maxFileSize <? fileSize f)%N eqn:Hsize.
      * destruct (upload_rejected st (Some f) Hsize) as (Hsrc & Hres & _).
        destruct s; unfold standing in *; rewrite ?Hsrc, ?Hres; exact IH.
      * exact (proj1 (upload_accepted st f Hsize)).
    + exact IH.
  - reflexivity.
  - exact IH.
  - exact (proj1 (processImage_standing w st s IH)).
Qed.

Lemma visible_standing (st : AppState) (s : RunStatus) :
  visible st s -> standing st s.
Proof.
  intros [w st0 s0 Hidle | w st0 s0 file st' Hidle Hin | w st0 s0 st' Hidle Hin].
  - exact (idle_standing w st0 s0 Hidle).
  - destruct file as [f|].
    + destruct (maxFileSize <? fileSize f)%N eqn:Hsize.
      * rewrite (proj2 (proj2 (upload_rejected st0 (Some f) Hsize))) in Hin.
        contradiction.
      * exact (proj2 (upload_accepted st0 f Hsize) st' Hin).
    + contradiction.
  - exact (proj2 (processImage_standing w st0 s0
                    (idle_standing w st0 s0 Hidle)) st' Hin).
Qed.

(** C7, as amended.  When the handlers run one at a time, every state
    the view can render has at most as many result pages as source
    pages; and when the document has at least one page, the two
    lengths are equal exactly when the latest edit run over it left its
    loop after the last page. *)
Theorem visible_results_bounded (st : AppState) (s : RunStatus) :
  visible st s ->
  List.length (resultPages st) <= List.length (sourcePages st)
  /\ (sourcePages st <> [] ->
      (List.length (resultPages st) = List.length (sourcePages st)
       <-> s = allPagesDone)).
Proof.
  intros Hvis. apply visible_standing in Hvis.
  destruct s; unfold standing in Hvis.
  - rewrite Hvis. simpl. split; [lia|].
    intros Hne. split; [|discriminate].
    destruct (sourcePages st); [congruence | discriminate].
  - split; [lia|]. intros _. split; [lia | discriminate].
  - split; [lia|]. intros _. now split.
  - split; [lia|]. intros _. split; [lia | discriminate].
Qed.

End SessionFacts.

(** C7 as stated fails twice.  In the initial state both sequences are
    empty, so the lengths are equal though no run has completed.  And
    the clear button stays enabled during a run: cleared while its first
    request is pending, a two-page run goes on to publish its two
    results over an empty source sequence. *)
Lemma visible_results_counterexample :
  (visible Fake.alwaysImage Fake.noTrim Fake.arrayBuffer (Fake.getDocument 3)
     Fake.numPages Fake.getPage Fake.getViewport Fake.getContext2d
     (Fake.render 0) Fake.toDataURL Fake.readAsDataURL initialState noRun
   /\ List.length (resultPages initialState)
      = List.length (sourcePages initialState)
   /\ noRun <> allPagesDone)
  /\
  (let st := Fake.loaded ["data:image/png;base64,AAAA";
                          "data:image/png;base64,BBBB"] (Some "image/png") in
   let run := processImageAmid Fake.alwaysImage Fake.noTrim
                Fake.clearDuringFirst tt st in
   outcome run = completed
   /\ sourcePages (finalState run) = []
   /\ List.length (resultPages (finalState run)) = 2
   /\ ~ List.length (resultPages (finalState run))
        <= List.length (sourcePages (finalState run))).
Proof.
  split.
  - split; [|split; [reflexivity | discriminate]].
    apply (visible_idle _ _ _ _ _ _ _ _ _ _ _ tt). constructor.
  - cbv zeta. repeat split. vm_compute. lia.
Qed.

Lemma visible_results_bounded_witness :
  let st0 := uploadState (Fake.upload 3 0 initialState (Some Fake.pngFile)) in
  let run := processImage Fake.alwaysImage Fake.noTrim tt
               (setUserPrompt "erase the answers" st0) in
  sourcePages (finalState run) = ["data:image/png;base64,UVJT"]
  /\ resultPages (finalState run) = ["data:image/png;base64,QUJD"]
  /\ List.length (resultPages (finalState run))
     <= List.length (sourcePages (finalState run))
  /\ (List.length (resultPages (finalState run))
      = List.length (sourcePages (finalState run))
      <-> statusAfterRun (outcome run) noRun = allPagesDone).
Proof.
  cbv zeta.
  pose proof (visible_results_bounded
    Fake.alwaysImage Fake.noTrim Fake.arrayBuffer (Fake.getDocument 3)
    Fake.numPages Fake.getPage Fake.getViewport Fake.getContext2d
    (Fake.render 0) Fake.toDataURL Fake.readAsDataURL _ _
    (visible_idle _ _ _ _ _ _ _ _ _ _ _ _ _ _
       (idle_run _ _ _ _ _ _ _ _ _ _ _ _ _ _
          (idle_prompt _ _ _ _ _ _ _ _ _ _ _ _ _ _ "erase the answers"
             (idle_upload _ _ _ _ _ _ _ _ _ _ _ _ _ _ (Some Fake.pngFile)
                (idle_init _ _ _ _ _ _ _ _ _ _ _ tt)))))) as H.
  destruct H as [Hle Hiff].
  split; [reflexivity | split; [reflexivity | split]].
  - exact Hle.
  - exact (Hiff ltac:(discriminate)).
Defined.

(** ** Further properties of the handlers *)

Section EditRunMore.

Context {World : Type}.
Variable generateContent : World -> Request -> Result Response * World.
Variable trim : string -> string.

#[local] Abbreviation editLoop := (editLoop generateContent trim).
#[local] Abbreviation processImage := (processImage generateContent trim).

Lemma setResultPages_same (st : AppState) :
  setResultPages (resultPages st) st = st.
Proof. now destruct st. Qed.

(** At its [k]-th request the loop has published the pages of the first
    [k] exchanges and changed nothing else. *)
Lemma editLoop_progress (mime prompt : string) (pages : list string) :
  forall i results w st k st',
    resultPages st = results ->
    nth_error (suspended (editLoop mime prompt pages i results w st)) k
    = Some st' ->
    st' = setResultPages
            (results
             ++ firstn k
                  (pagesOf (exchanges (editLoop mime prompt pages i results w st))))
            st.
Proof.
  induction pages as [|page rest IH]; intros i results w st k st' Hst Hnth;
    simpl in Hnth |- *.
  - destruct k; discriminate.
  - destruct (generateContent w _) as [answer w'].
    destruct (answeredWithImage answer) eqn:Himg.
    + destruct (answerUrl_image _ Himg) as (response & url & -> & Hurl & Hok).
      simpl in Hnth |- *. rewrite Hok in Hnth |- *. simpl in Hnth |- *.
      unfold pagesOf. simpl flat_map. simpl in Hurl. rewrite Hurl.
      destruct k as [|k]; simpl in Hnth |- *.
      * injection Hnth as <-. rewrite app_nil_r, <- Hst.
        symmetry. apply setResultPages_same.
      * apply IH in Hnth; [|reflexivity]. rewrite Hnth.
        unfold pagesOf. now rewrite <- app_assoc.
    + destruct (answerUrl_no_image _ i Himg) as [Hnone Hbind].
      rewrite Hbind in Hnth |- *. simpl in Hnth |- *.
      destruct k as [|[|k]]; simpl in Hnth; try discriminate.
      injection Hnth as <-. simpl. rewrite app_nil_r, <- Hst.
      symmetry. apply setResultPages_same.
Qed.

Lemma processImage_observed_entered (w : World) (st : AppState) :
  observed (processImage w st) <> [] ->
  sourcePages st <> []
  /\ exists m, sourceMimeType st = Some m /\ m <> "".
Proof.
  intros H. split.
  - intros E. rewrite processImage_skipped in H by (now left). now apply H.
  - destruct (sourceMimeType st) as [[|c m]|] eqn:E.
    + rewrite processImage_skipped in H by (right; now rewrite E).
      now contradiction H.
    + exists (String c m). split; [reflexivity | discriminate].
    + rewrite processImage_skipped in H by (right; now rewrite E).
      now contradiction H.
Qed.

(** Progressive publishing: while the run waits for the answer to its
    [k]-th request (counted from 0), the view shows exactly the first [k]
    pages of what the run will end with, the source pages untouched, the
    busy flag up and no error. *)
Theorem processImage_publishes_progressively (w : World) (st st' : AppState)
    (k : nat) :
  nth_error (observed (processImage w st)) k = Some st' ->
  resultPages st' = firstn k (resultPages (finalState (processImage w st)))
  /\ sourcePages st' = sourcePages st
  /\ isProcessing st' = true
  /\ error st' = None.
Proof.
  intros Hnth.
  assert (Hne : observed (processImage w st) <> []).
  { intros E. rewrite E in Hnth. destruct k; discriminate. }
  destruct (processImage_observed_entered w st Hne) as (Hsrc & m & Hmime & Hm).
  destruct (processImage_ran generateContent trim w st m Hsrc Hmime Hm)
    as (Hres & _).
  rewrite Hres. clear Hres.
  rewrite (processImage_entered generateContent trim w st m Hsrc Hmime Hm)
    in Hnth |- *.
  set (st1 := setResultPages [] (setError None (setIsProcessing true st))) in *.
  set (r := editLoop m (userPrompt st) (sourcePages st) 0 [] w st1) in *.
  assert (Hsus : nth_error (suspended r) k = Some st')
    by (destruct (thrown r); exact Hnth).
  apply editLoop_progress in Hsus; [|reflexivity].
  rewrite Hsus. destruct (thrown r); now repeat split.
Qed.

(** The guard: with no source page, or a MIME type that is null or the
    empty string, a run issues no request and leaves the state as it
    found it. *)
Theorem processImage_guard (w : World) (st : AppState) :
  sourcePages st = [] \/ sourceMimeType st = None
  \/ sourceMimeType st = Some "" ->
  processImage w st = mkRun skipped st w [] [].
Proof.
  intros [H|[H|H]]; apply processImage_skipped;
    [now left | right; now rewrite H ..].
Qed.

(** A request the service rejects ends the run like a page without
    image: the pages done so far stay, no further request is issued, and
    the error is the rejection's message, or a fixed text when it has
    none. *)
Theorem processImage_service_error (w : World) (st : AppState) (k : nat)
    (rq : Request) (e : Js.Error) :
  nth_error (issued (processImage w st)) k = Some (rq, Throw e) ->
  let run := processImage w st in
  outcome run = failed e
  /\ error (finalState run)
     = Some (Js.orElse (Js.message e) "处理图像时发生错误。")
  /\ List.length (resultPages (finalState run)) = k
  /\ List.length (issued run) = S k.
Proof.
  intros Hnth run.
  destruct (processImage_stops_at generateContent trim w st k rq (Throw e)
              Hnth eq_refl)
    as (done & He & Hlen & Hdone & Hres & Hout & Hmsg & _).
  fold run in He, Hres, Hout, Hmsg. repeat split; try assumption.
  - now rewrite Hres, (proj1 (pagesOf_withImage done Hdone)).
  - rewrite He, length_app. simpl. lia.
Qed.

(** Whatever happens in a run that passed the guard, the busy flag is
    down when it ends. *)
Theorem processImage_ends_idle (w : World) (st : AppState) :
  outcome (processImage w st) <> skipped ->
  isProcessing (finalState (processImage w st)) = false.
Proof.
  unfold processImage.
  destruct ((List.length (sourcePages st) =? 0)
            || negb (Js.truthyOpt (sourceMimeType st))); simpl.
  - congruence.
  - intros _. now destruct (thrown _).
Qed.

End EditRunMore.

Lemma processImage_publishes_progressively_witness :
  let st := Fake.loaded ["data:image/png;base64,AAAA";
                         "data:image/png;base64,BBBB"] (Some "image/png") in
  let run := processImage Fake.alwaysImage Fake.noTrim tt st in
  exists st',
    nth_error (observed run) 1 = Some st'
    /\ resultPages st' = ["data:image/png;base64,QUJD"]
    /\ isProcessing st' = true.
Proof.
  cbv zeta. eexists. split; [reflexivity|].
  pose proof (processImage_publishes_progressively Fake.alwaysImage
    Fake.noTrim tt
    (Fake.loaded ["data:image/png;base64,AAAA";
                  "data:image/png;base64,BBBB"] (Some "image/png"))
    _ 1 eq_refl) as H.
  destruct H as (Hres & _ & Hbusy & _). split; assumption.
Defined.

Lemma processImage_guard_witness :
  let st := Fake.loaded ["data:;base64,QUJD"] (Some "") in
  processImage Fake.alwaysImage Fake.noTrim tt st = mkRun skipped st tt [] [].
Proof.
  cbv zeta.
  apply (processImage_guard Fake.alwaysImage Fake.noTrim tt
           (Fake.loaded ["data:;base64,QUJD"] (Some ""))).
  right. right. reflexivity.
Defined.

Lemma processImage_service_error_witness :
  let st := Fake.loaded ["data:image/png;base64,AAAA";
                         "data:image/png;base64,BBBB"] (Some "image/png") in
  let w := [Ok (Fake.respond [Fake.imagePart (Some "QUJD") None])] in
  let run := processImage Fake.scripted Fake.noTrim w st in
  error (finalState run) = Some "network error"
  /\ List.length (resultPages (finalState run)) = 1
  /\ List.length (issued run) = 2.
Proof.
  cbv zeta.
  pose proof (processImage_service_error Fake.scripted Fake.noTrim
    [Ok (Fake.respond [Fake.imagePart (Some "QUJD") None])]
    (Fake.loaded ["data:image/png;base64,AAAA";
                  "data:image/png;base64,BBBB"] (Some "image/png"))
    1
    (buildRequest Fake.noTrim "image/png" "erase the answers"
       "data:image/png;base64,BBBB")
    (Js.newError "network error") eq_refl) as H.
  cbv zeta in H. destruct H as (_ & Herr & Hlen & Hiss).
  split; [exact Herr | split; assumption].
Defined.

Lemma processImage_ends_idle_witness :
  let st := Fake.loaded ["data:image/png;base64,AAAA"] (Some "image/png") in
  isProcessing (finalState (processImage Fake.scripted Fake.noTrim [] st))
  = false.
Proof.
  cbv zeta.
  apply (processImage_ends_idle Fake.scripted Fake.noTrim []
           (Fake.loaded ["data:image/png;base64,AAAA"] (Some "image/png"))).
  discriminate.
Defined.

Section UploadMore.

Context {Bytes PdfDocument PdfPage Viewport Canvas : Type}.
Variable arrayBuffer : File -> Result Bytes.
Variable getDocument : Bytes -> Result PdfDocument.
Variable numPages : PdfDocument -> nat.
Variable getPage : PdfDocument -> nat -> Result PdfPage.
Variable getViewport : PdfPage -> Q -> Viewport.
Variable getContext2d : nat -> bool.
Variable render : PdfPage -> Viewport -> Result Canvas.
Variable toDataURL : Canvas -> string -> string.
Variable readAsDataURL : File -> string.

#[local] Abbreviation handleImageUpload :=
  (handleImageUpload arrayBuffer getDocument numPages getPage getViewport
     getContext2d render toDataURL readAsDataURL).

(** A file within the size limit that is not a PDF becomes one source
    page, the data URL the file reader produced, and the shared MIME
    type is the file's own; the PDF decoder is not called. *)
Theorem image_upload_single_page (st : AppState) (file : File) :
  fileType file <> "application/pdf" ->
  (fileSize file <= maxFileSize)%N ->
  let up := handleImageUpload st (Some file) in
  sourcePages (uploadState up) = [readAsDataURL file]
  /\ sourceMimeType (uploadState up) = Some (fileType file)
  /\ resultPages (uploadState up) = []
  /\ error (uploadState up) = None
  /\ isUploading (uploadState up) = false
  /\ calls up = [callTimeout; callReadAsDataURL].
Proof.
  intros Htype Hsize up. unfold up, handleImageUpload.
  apply N.ltb_ge in Hsize. apply String.eqb_neq in Htype.
  rewrite Hsize, Htype. now repeat split.
Qed.

(** No file chosen: the handler returns at once. *)
Theorem no_file_no_upload (st : AppState) :
  handleImageUpload st None = mkUpload st [] [].
Proof. reflexivity. Qed.

End UploadMore.

Lemma image_upload_single_page_witness :
  let up := Fake.upload 3 0 initialState (Some Fake.pngFile) in
  sourcePages (uploadState up) = ["data:image/png;base64,UVJT"]
  /\ sourceMimeType (uploadState up) = Some "image/png".
Proof.
  cbv zeta.
  pose proof (image_upload_single_page
    Fake.arrayBuffer (Fake.getDocument 3) Fake.numPages Fake.getPage
    Fake.getViewport Fake.getContext2d (Fake.render 0) Fake.toDataURL
    Fake.readAsDataURL initialState Fake.pngFile
    ltac:(discriminate) ltac:(vm_compute; discriminate)) as H.
  cbv zeta in H. destruct H as (Hsrc & Hmime & _). split; assumption.
Defined.

(** With no result page there is nothing to download. *)
Theorem downloadResult_nothing (pdfWidth pdfHeight : Q)
    (getImageProperties : string -> Result ImageProperties) (st : AppState) :
  resultPages st = [] ->
  downloadResult pdfWidth pdfHeight getImageProperties st = noDownload.
Proof. intros H. unfold downloadResult. now rewrite H. Qed.

Lemma downloadResult_nothing_witness :
  downloadResult 210 297 Fake.getImageProperties initialState = noDownload.
Proof.
  apply (downloadResult_nothing 210 297 Fake.getImageProperties initialState).
  reflexivity.
Defined.

(** [Js.split] agrees with [String.prototype.split] on a data URL: the
    payload is what follows the first comma. *)
Example base64Data_of_data_url :
  base64Data "data:image/png;base64,QUJD" = Some "QUJD"
  /\ base64Data "no comma here" = None
  /\ Js.split "," "a,b,,c" = ["a"; "b"; ""; "c"]
  /\ Js.split "," "" = [""].
Proof. repeat split. Qed.

(** The page-number text is the decimal numeral. *)
Example numberToString_decimal :
  Js.numberToString 0 = "0" /\ Js.numberToString 7 = "7"
  /\ Js.numberToString 12 = "12" /\ Js.numberToString 100 = "100".
Proof. repeat split. Qed.

(** Reading three responses: an image after a text part, a refusal in two
    text parts, and a response without candidates. *)
Example interpretResponse_examples :
  interpretResponse
    (Fake.respond [Fake.textPart "here it is";
                   Fake.imagePart (Some "QUJD") (Some "image/jpeg");
                   Fake.imagePart (Some "REVG") None]) 0
  = Ok "data:image/jpeg;base64,QUJD"
  /\ interpretResponse
       (Fake.respond [Fake.textPart "I cannot "; Fake.textPart "edit this."]) 2
     = Throw (Js.newError "第 3 页未能生成图像。AI回复: I cannot edit this.")
  /\ interpretResponse (mkResponse None) 0
     = Throw (Js.newError "第 1 页未能生成图像。AI回复: 无").
Proof. repeat split. Qed.

(** A 16:9 image on an A4 page spans the width and sits in the middle;
    an image narrower than the page spans the height. *)
Example placeImage_examples :
  let wide := placeImage 210 297 "data:image/jpeg;base64,REVG"
                (mkImageProperties 1600 900) in
  let tall := placeImage 210 297 "data:image/png;base64,QUJD"
                (mkImageProperties 1240 1754) in
  (boxWidth wide == 210 /\ boxHeight wide == 945 # 8
   /\ boxX wide == 0 /\ boxY wide == 1431 # 16)%Q
  /\ (boxHeight tall == 297 /\ boxWidth tall == 184140 # 877
      /\ boxY tall == 0 /\ boxX tall == 15 # 877)%Q.
Proof. cbv zeta. repeat split; vm_compute; reflexivity. Qed.

(** ** The states a run leaves standing *)

Section EditRunObserved.

Context {World : Type}.
Variable generateContent : World -> Request -> Result Response * World.
Variable trim : string -> string.

#[local] Abbreviation editLoop := (editLoop generateContent trim).
#[local] Abbreviation processImage := (processImage generateContent trim).

(** At the [k]-th request of a run (counted from 0) the loop has
    published [k] pages, and pages remain. *)
Lemma editLoop_suspended_length (mime prompt : string) (pages : list string) :
  forall i results w st k st',
    resultPages st = results ->
    nth_error (suspended (editLoop mime prompt pages i results w st)) k
    = Some st' ->
    List.length (resultPages st') = List.length results + k
    /\ k < List.length pages.
Proof.
  induction pages as [|page rest IH]; intros i results w st k st' Hst Hnth;
    simpl in Hnth.
  - destruct k; discriminate.
  - destruct (generateContent w _) as [answer w'].
    destruct (response <- answer ;; interpretResponse response i) as [url|e];
      simpl in Hnth.
    + destruct k as [|k]; simpl in Hnth.
      * injection Hnth as <-. rewrite Hst. simpl. lia.
      * apply IH in Hnth; [|reflexivity]. rewrite length_app in Hnth.
        simpl in *. lia.
    + destruct k as [|[|k]]; simpl in Hnth; try discriminate.
      injection Hnth as <-. rewrite Hst. simpl. lia.
Qed.

(** The state a run leaves standing at its [k]-th request: the state it
    started from with the busy flag up, the error cleared and the first
    [k] pages of its exchanges published. *)
Lemma processImage_observed_at (w : World) (st st' : AppState) (k : nat) :
  nth_error (observed (processImage w st)) k = Some st' ->
  st' = setResultPages (firstn k (pagesOf (issued (processImage w st))))
          (setError None (setIsProcessing true st))
  /\ List.length (resultPages st') = k
  /\ k < List.length (sourcePages st)
  /\ resultPages (finalState (processImage w st))
     = pagesOf (issued (processImage w st)).
Proof.
  intros Hnth.
  assert (Hne : observed (processImage w st) <> []).
  { intros E. rewrite E in Hnth. destruct k; discriminate. }
  destruct (processImage_observed_entered generateContent trim w st Hne)
    as (Hsrc & m & Hmime & Hm).
  destruct (processImage_ran generateContent trim w st m Hsrc Hmime Hm)
    as (Hres & _).
  pose proof (processImage_entered generateContent trim w st m Hsrc Hmime Hm)
    as Hrun.
  cbv zeta in Hrun.
  set (st1 := setResultPages [] (setError None (setIsProcessing true st)))
    in Hrun.
  set (r := editLoop m (userPrompt st) (sourcePages st) 0 [] w st1) in Hrun.
  assert (Hiss : issued (processImage w st) = exchanges r)
    by (rewrite Hrun; destruct (thrown r); reflexivity).
  assert (Hsus : nth_error (suspended r) k = Some st')
    by (rewrite Hrun in Hnth; destruct (thrown r); exact Hnth).
  destruct (editLoop_suspended_length m (userPrompt st) (sourcePages st)
              0 [] w st1 k st' eq_refl Hsus) as [Hlen Hk].
  apply (editLoop_progress generateContent trim) in Hsus; [|reflexivity].
  rewrite Hiss. repeat split; try assumption.
  now rewrite <- Hiss.
Qed.

(** A run writes [resultPages], [isProcessing] and [error] only. *)
Lemma processImage_sameDocument (w : World) (st : AppState) :
  sameDocument (finalState (processImage w st)) st
  /\ forall st', In st' (observed (processImage w st)) -> sameDocument st' st.
Proof.
  split.
  - unfold processImage.
    destruct ((List.length (sourcePages st) =? 0)
              || negb (Js.truthyOpt (sourceMimeType st)));
      [now repeat split|].
    set (st1 := setResultPages [] (setError None (setIsProcessing true st))).
    pose proof (editLoop_frame generateContent trim
                  (Js.interpolate (sourceMimeType st)) (userPrompt st)
                  (sourcePages st) 0 [] w st1) as Hframe.
    destruct (thrown _); simpl; rewrite Hframe; now repeat split.
  - intros st' Hin. apply In_nth_error in Hin. destruct Hin as [k Hk].
    destruct (processImage_observed_at w st st' k Hk) as (-> & _).
    now repeat split.
Qed.

End EditRunObserved.

(** ** What a run leaves alone, and what it asks *)

Section EditRunFrame.

Context {World : Type}.
Variable generateContent : World -> Request -> Result Response * World.
Variable trim : string -> string.

#[local] Abbreviation editLoop := (editLoop generateContent trim).
#[local] Abbreviation editLoopAmid := (editLoopAmid generateContent trim).
#[local] Abbreviation processImage := (processImage generateContent trim).
#[local] Abbreviation processImageAmid :=
  (processImageAmid generateContent trim).

(** A run writes [resultPages], [isProcessing] and [error] and nothing
    else: the source pages, the MIME type, the prompt, the view mode, the
    upload flag and the file input are, when it ends and at every
    request, what they were when it started. *)
Theorem processImage_frame (w : World) (st : AppState) :
  sameDocument (finalState (processImage w st)) st
  /\ forall st', In st' (observed (processImage w st)) -> sameDocument st' st.
Proof. exact (processImage_sameDocument generateContent trim w st). Qed.

(** The loop's requests are those of the first pages, in page order; an
    exchange that is not the last one brought an image. *)
Theorem processImage_requests_in_order (w : World) (st : AppState) :
  let run := processImage w st in
  List.length (issued run) <= List.length (sourcePages st)
  /\ map fst (issued run)
     = map (buildRequest trim (Js.interpolate (sourceMimeType st))
              (userPrompt st))
         (firstn (List.length (issued run)) (sourcePages st))
  /\ served generateContent w (issued run)
  /\ forall i ex,
       nth_error (issued run) i = Some ex ->
       S i < List.length (issued run) ->
       withImage ex.
Proof.
  intros run.
  destruct (list_eq_dec string_dec (sourcePages st) []) as [Hsrc|Hsrc].
  { unfold run. rewrite processImage_skipped by (now left). simpl.
    repeat split; lia. }
  destruct (sourceMimeType st) as [[|c m]|] eqn:Hmime;
    try (unfold run; rewrite processImage_skipped
           by (right; now rewrite Hmime);
         simpl; repeat split; lia).
  destruct (processImage_ran generateContent trim w st (String c m) Hsrc Hmime
              ltac:(discriminate))
    as (_ & _ & Hserved & Hreq & Hout).
  fold run in Hserved, Hreq, Hout. simpl Js.interpolate.
  destruct (outcome run) as [| |e]; [contradiction| |].
  - destruct Hout as (Hall & Hlen & _). repeat split; try assumption; try lia.
    intros i ex Hnth _. rewrite Forall_forall in Hall.
    exact (Hall _ (nth_error_In _ _ Hnth)).
  - destruct Hout as (done & rq & ans & He & Hdone & _ & _ & Hlen & _).
    repeat split; try assumption.
    + rewrite He, length_app. simpl. lia.
    + intros i ex Hnth Hi. rewrite He in Hnth, Hi.
      rewrite length_app in Hi. simpl in Hi.
      rewrite nth_error_app1 in Hnth by lia.
      rewrite Forall_forall in Hdone.
      exact (Hdone _ (nth_error_In _ _ Hnth)).
Qed.

(** The control flow of the loop does not read the component state. *)
Lemma editLoopAmid_exchanges (others : nat -> AppState -> AppState)
    (mime prompt : string) (pages : list string) :
  forall i results w st st',
    exchanges (editLoopAmid others mime prompt pages i results w st)
    = exchanges (editLoop mime prompt pages i results w st')
    /\ thrown (editLoopAmid others mime prompt pages i results w st)
       = thrown (editLoop mime prompt pages i results w st')
    /\ endWorld (editLoopAmid others mime prompt pages i results w st)
       = endWorld (editLoop mime prompt pages i results w st').
Proof.
  induction pages as [|page rest IH]; intros i results w st st'; simpl.
  - now repeat split.
  - destruct (generateContent w _) as [answer w'].
    destruct (response <- answer ;; interpretResponse response i) as [url|e];
      simpl; [|now repeat split].
    destruct (IH (S i) (results ++ [url]) w'
                (setResultPages (results ++ [url]) (others i st))
                (setResultPages (results ++ [url]) st'))
      as (He & Ht & Hw).
    now rewrite He, Ht, Hw.
Qed.

(** A loop that runs off the end of at least one page has published all
    its pages, whatever the others did. *)
Lemma editLoopAmid_published (others : nat -> AppState -> AppState)
    (mime prompt : string) (pages : list string) :
  forall i results w st,
    pages <> [] ->
    thrown (editLoopAmid others mime prompt pages i results w st) = None ->
    resultPages (endState (editLoopAmid others mime prompt pages i results w st))
    = results
      ++ pagesOf (exchanges (editLoopAmid others mime prompt pages i results w st)).
Proof.
  induction pages as [|page rest IH]; intros i results w st Hne Hnone;
    [congruence|].
  simpl in Hnone |- *.
  destruct (generateContent w _) as [answer w'].
  destruct (answeredWithImage answer) eqn:Himg.
  - destruct (answerUrl_image _ Himg) as (response & url & -> & Hurl & Hok).
    simpl in Hnone |- *. rewrite Hok in Hnone |- *. simpl in Hnone |- *.
    unfold pagesOf. simpl flat_map. simpl in Hurl. rewrite Hurl.
    destruct rest as [|page' rest'].
    + simpl. now rewrite ?app_nil_r.
    + rewrite IH by (discriminate || assumption).
      unfold pagesOf. now rewrite <- app_assoc.
  - destruct (answerUrl_no_image _ i Himg) as [_ Hbind].
    rewrite Hbind in Hnone. discriminate.
Qed.

(** What a run asks the service, how it ends and where it leaves the
    service do not depend on what other handlers do to the state while
    its requests are pending; and a run that completes publishes all its
    pages over whatever they left. *)
Theorem processImageAmid_same_exchanges
    (others : nat -> AppState -> AppState) (w : World) (st : AppState) :
  issued (processImageAmid others w st) = issued (processImage w st)
  /\ outcome (processImageAmid others w st) = outcome (processImage w st)
  /\ finalWorld (processImageAmid others w st) = finalWorld (processImage w st)
  /\ (outcome (processImage w st) = completed ->
      resultPages (finalState (processImageAmid others w st))
      = resultPages (finalState (processImage w st))).
Proof.
  unfold processImageAmid, processImage.
  destruct ((List.length (sourcePages st) =? 0)
            || negb (Js.truthyOpt (sourceMimeType st))) eqn:Hguard.
  - repeat split; discriminate.
  - set (st1 := setResultPages [] (setError None (setIsProcessing true st))).
    set (mime := Js.interpolate (sourceMimeType st)).
    destruct (editLoopAmid_exchanges others mime (userPrompt st)
                (sourcePages st) 0 [] w st1 st1) as (He & Ht & Hw).
    assert (Hne : sourcePages st <> []).
    { intros E. rewrite E in Hguard. discriminate. }
    pose proof (editLoopAmid_published others mime (userPrompt st)
                  (sourcePages st) 0 [] w st1 Hne) as Hpub.
    pose proof (editLoop_pages generateContent trim mime (userPrompt st)
                  (sourcePages st) 0 [] w st1 eq_refl) as Hpages.
    rewrite Ht in Hpub |- *. rewrite He in Hpub.
    destruct (thrown (editLoop mime (userPrompt st) (sourcePages st) 0 [] w st1));
      simpl; repeat split; try assumption; try discriminate.
    intros _. rewrite (Hpub eq_refl). now rewrite Hpages.
Qed.

End EditRunFrame.

(** ** The view *)

Lemma resultRowsFrom_nth (mode : ViewMode) (sources pages : list string) :
  forall idx i page,
    nth_error pages i = Some page ->
    nth_error (resultRowsFrom mode sources idx pages) i
    = Some (mkResultRow
              ("第 " ++ Js.numberToString (idx + i + 1) ++ " 页")%string
              (match mode with
               | compare => Some (nth_error sources (idx + i))
               | single => None
               end)
              page).
Proof.
  induction pages as [|p rest IH]; intros idx [|i] page Hnth;
    simpl in Hnth |- *; try discriminate.
  - injection Hnth as ->. now rewrite Nat.add_0_r.
  - rewrite (IH (S idx) i page Hnth).
    now replace (S idx + i) with (idx + S i) by lia.
Qed.

Lemma resultRowsFrom_length (mode : ViewMode) (sources pages : list string) :
  forall idx,
    List.length (resultRowsFrom mode sources idx pages) = List.length pages.
Proof.
  induction pages as [|p rest IH]; intros idx; simpl;
    [reflexivity | now rewrite IH].
Qed.

Section ViewFacts.

Context {World : Type}.
Variable generateContent : World -> Request -> Result Response * World.
Variable trim : string -> string.

#[local] Abbreviation editLoop := (editLoop generateContent trim).
#[local] Abbreviation processImage := (processImage generateContent trim).

(** The three expressions that decide the start button agree: it is
    enabled exactly when its text is the call to start and exactly when
    it has the active look; and then there is a page, no run in flight
    and a non-blank instruction. *)
Theorem start_button_consistent (st : AppState) :
  (startDisabled trim st = false <-> startLabel trim st = "开始智能擦除")
  /\ (startDisabled trim st = false <-> startStyle trim st = active)
  /\ (startDisabled trim st = false ->
      sourcePages st <> [] /\ isProcessing st = false
      /\ trim (userPrompt st) <> "").
Proof.
  unfold startDisabled, startLabel, startStyle.
  destruct (sourcePages st) as [|p ps] eqn:Hsrc;
    destruct (isProcessing st);
    destruct (trim (userPrompt st)) as [|c t] eqn:Hprompt; simpl;
    repeat split; intros; try discriminate; try reflexivity.
Qed.

(** While a run waits for its [k]-th answer (counted from 0): the start
    button is disabled and reads [k] of K; the result panel shows the
    large spinner before the first page and afterwards the pages with
    the text naming page [k + 1], the page being asked for; and the clear
    button is there to be clicked. *)
Theorem run_progress_view (w : World) (st st' : AppState) (k : nat) :
  nth_error (observed (processImage w st)) k = Some st' ->
  k < List.length (sourcePages st)
  /\ startDisabled trim st' = true
  /\ startLabel trim st'
     = ("AI 正在处理... (" ++ Js.numberToString k ++ "/"
        ++ Js.numberToString (List.length (sourcePages st)) ++ ")")%string
  /\ resultPanel st'
     = (if k =? 0 then panelBusy
        else panelPages
               (resultRowsFrom (viewMode st) (sourcePages st) 0
                  (resultPages st'))
               (Some ("正在处理第 " ++ Js.numberToString (k + 1)
                      ++ " 页...")%string))
  /\ clearButtonVisible st' = true.
Proof.
  intros Hnth.
  destruct (processImage_observed_at generateContent trim w st st' k Hnth)
    as (Hst & Hlen & Hk & _).
  assert (Hfields : sourcePages st' = sourcePages st
                    /\ isProcessing st' = true /\ viewMode st' = viewMode st).
  { rewrite Hst. now repeat split. }
  destruct Hfields as (Hs & Hp & Hv).
  unfold startDisabled, startLabel, resultPanel, clearButtonVisible.
  rewrite Hs, Hp, Hv, Hlen.
  assert (Hpos : (0 <? List.length (sourcePages st)) = true)
    by (apply Nat.ltb_lt; lia).
  assert (Hlt : (k <? List.length (sourcePages st)) = true)
    by (now apply Nat.ltb_lt).
  rewrite Hpos, Hlt. repeat split; try assumption.
  - now rewrite orb_true_r.
  - destruct k; reflexivity.
Qed.

End ViewFacts.

(** The download button is rendered exactly when there is a result
    page, which is when [downloadResult] does not return at its guard.
    A click then offers the one page as a link; or, with several pages,
    saves a PDF of as many pages when the PDF writer can decode them
    all, and otherwise throws the error of the first page it cannot
    decode and saves nothing. *)
Theorem download_button_click (pdfWidth pdfHeight : Q)
    (getImageProperties : string -> Result ImageProperties) (st : AppState) :
  (downloadButtonVisible st = true <-> resultPages st <> [])
  /\ (downloadButtonVisible st = true
      <-> downloadResult pdfWidth pdfHeight getImageProperties st
          <> noDownload)
  /\ (downloadButtonVisible st = true ->
      (exists page,
         resultPages st = [page]
         /\ downloadResult pdfWidth pdfHeight getImageProperties st
            = anchorClick page "cleaned_worksheet.png")
      \/ (1 < List.length (resultPages st)
          /\ (forall page, In page (resultPages st) ->
                exists imgProps, getImageProperties page = Ok imgProps)
          /\ exists pdf,
               downloadResult pdfWidth pdfHeight getImageProperties st
               = pdfSave pdf "cleaned_document.pdf"
               /\ List.length (pdfPages pdf) = List.length (resultPages st))
      \/ (1 < List.length (resultPages st)
          /\ exists before page after e,
               resultPages st = before ++ page :: after
               /\ (forall q, In q before ->
                     exists imgProps, getImageProperties q = Ok imgProps)
               /\ getImageProperties page = Throw e
               /\ downloadResult pdfWidth pdfHeight getImageProperties st
                  = downloadThrows e)).
Proof.
  pose proof (downloadResult_cases pdfWidth pdfHeight getImageProperties st)
    as Hcases.
  pose proof (first_undecodable getImageProperties (resultPages st)) as Hdec.
  unfold downloadButtonVisible.
  destruct (resultPages st) as [|a [|b rest]] eqn:E; simpl.
  - rewrite Hcases. repeat split; intros; try discriminate; congruence.
  - rewrite Hcases. repeat split; intros; try discriminate.
    left. now exists a.
  - destruct Hcases as [Hok Hthrow].
    assert (Hnot : downloadResult pdfWidth pdfHeight getImageProperties st
                   <> noDownload).
    { destruct Hdec as [Hall | (before & page & after & e & Heq & Hb & Hp)].
      - destruct (decodes_all getImageProperties _ Hall) as [props Hprops].
        rewrite (Hok props Hprops). discriminate.
      - rewrite (Hthrow before page after e Heq Hb Hp). discriminate. }
    repeat split; intros; try discriminate; try assumption.
    right.
    destruct Hdec as [Hall | (before & page & after & e & Heq & Hb & Hp)].
    + left. destruct (decodes_all getImageProperties _ Hall) as [props Hprops].
      repeat split; [lia | exact Hall |].
      eexists. split; [exact (Hok props Hprops)|].
      simpl. now rewrite (placements_length pdfWidth pdfHeight
                            getImageProperties _ _ Hprops).
    + right. split; [lia|].
      exists before, page, after, e. repeat split; try assumption.
      exact (Hthrow before page after e Heq Hb Hp).
Qed.

Lemma download_button_click_witness :
  let st := Fake.loaded ["data:image/png;base64,AAAA";
                         "data:image/png;base64,BBBB"] (Some "image/png") in
  let w := [Ok (Fake.respond [Fake.imagePart (Some Fake.widePayload)
                                (Some "image/png")]);
            Ok (Fake.respond [Fake.imagePart None (Some "image/png")])] in
  let final := finalState (processImage Fake.scripted Fake.noTrim w st) in
  downloadButtonVisible final = true
  /\ exists before page after e,
       resultPages final = before ++ page :: after
       /\ Fake.getImageProperties page = Throw e
       /\ downloadResult 210 297 Fake.getImageProperties final
          = downloadThrows e.
Proof.
  cbv zeta. split; [reflexivity|].
  destruct (proj2 (proj2 (download_button_click 210 297
                            Fake.getImageProperties
                            (finalState
                               (processImage Fake.scripted Fake.noTrim
                                  [Ok (Fake.respond
                                         [Fake.imagePart
                                            (Some Fake.widePayload)
                                            (Some "image/png")]);
                                   Ok (Fake.respond
                                         [Fake.imagePart None
                                            (Some "image/png")])]
                                  (Fake.loaded
                                     ["data:image/png;base64,AAAA";
                                      "data:image/png;base64,BBBB"]
                                     (Some "image/png"))))))
              eq_refl)
    as [(page & Hone & _) | [(_ & Hall & _) | (_ & Hthrows)]].
  - discriminate Hone.
  - destruct (Hall "data:image/png;base64,undefined"
                ltac:(right; left; reflexivity)) as (imgProps & Hprops).
    discriminate Hprops.
  - destruct Hthrows as (before & page & after & e & Heq & _ & Hpage & Hdl).
    now exists before, page, after, e.
Defined.

(** ** Sessions, continued *)

Lemma orElse_not_empty (o : option string) (d : string) :
  d <> "" -> Js.orElse o d <> "".
Proof.
  intros Hd. destruct o as [[|c s]|]; simpl; try assumption. discriminate.
Qed.

Lemma imageUrl_isDataUrl (d : InlineData) : isDataUrl (imageUrl d) = true.
Proof.
  unfold isDataUrl, imageUrl. apply andb_true_intro. split.
  - apply prefix_app.
  - rewrite <- append_assoc. apply includes_app.
Qed.

Lemma scanParts_isDataUrl (ps : list Part) :
  forall t url, fst (scanParts ps t) = Some url -> isDataUrl url = true.
Proof.
  induction ps as [|p ps IH]; intros t url H; simpl in H; [discriminate|].
  destruct (inlineData p) as [d|].
  - injection H as <-. apply imageUrl_isDataUrl.
  - destruct (Js.truthyOpt (text p)); eapply IH; eassumption.
Qed.

Lemma pagesOf_isDataUrl (exs : list Exchange) :
  Forall (fun page => isDataUrl page = true) (pagesOf exs).
Proof.
  induction exs as [|[rq ans] exs IH]; [constructor|].
  change (pagesOf ((rq, ans) :: exs))
    with ((match answerUrl ans with
           | Some u => [u] | None => [] end) ++ pagesOf exs).
  destruct (answerUrl ans) as [u|] eqn:Hu; simpl; [|exact IH].
  constructor; [|exact IH].
  destruct ans as [response|e]; simpl in Hu; [|discriminate].
  eapply scanParts_isDataUrl; eassumption.
Qed.

Lemma Forall_firstn {A : Type} (P : A -> Prop) (l : list A) (n : nat) :
  Forall P l -> Forall P (firstn n l).
Proof.
  revert n; induction l as [|x l IH]; intros [|n] H; simpl;
    try constructor; inversion H; subst; auto.
Qed.

Section SessionMore.

Context {World Bytes PdfDocument PdfPage Viewport Canvas : Type}.
Variable generateContent : World -> Request -> Result Response * World.
Variable trim : string -> string.
Variable arrayBuffer : File -> Result Bytes.
Variable getDocument : Bytes -> Result PdfDocument.
Variable numPages : PdfDocument -> nat.
Variable getPage : PdfDocument -> nat -> Result PdfPage.
Variable getViewport : PdfPage -> Q -> Viewport.
Variable getContext2d : nat -> bool.
Variable render : PdfPage -> Viewport -> Result Canvas.
Variable toDataURL : Canvas -> string -> string.
Variable readAsDataURL : File -> string.

#[local] Abbreviation upload :=
  (upload arrayBuffer getDocument numPages getPage getViewport
     getContext2d render toDataURL readAsDataURL).
#[local] Abbreviation idle :=
  (idle generateContent trim arrayBuffer getDocument numPages getPage
     getViewport getContext2d render toDataURL readAsDataURL).
#[local] Abbreviation visible :=
  (visible generateContent trim arrayBuffer getDocument numPages getPage
     getViewport getContext2d render toDataURL readAsDataURL).
#[local] Abbreviation processImage := (processImage generateContent trim).

(** While an upload is suspended the drop target is on screen but does
    not open the file picker, the start button is disabled, and there is
    no clear button, no download button and no error banner. *)
Theorem upload_progress_view (st : AppState) (file : option File)
    (st' : AppState) :
  In st' (uploadObserved (upload st file)) ->
  dropTargetVisible st' = true
  /\ dropTargetOpensPicker st' = false
  /\ startDisabled trim st' = true
  /\ clearButtonVisible st' = false
  /\ downloadButtonVisible st' = false
  /\ errorBanner st' = None.
Proof.
  unfold upload, handleImageUpload. destruct file as [f|]; [|intros []].
  destruct (maxFileSize <? fileSize f)%N; [intros []|].
  destruct (fileType f =? "application/pdf")%string.
  - destruct (readPdf _ _ _ _ _ _ _ _ f) as [log r].
    intros [<- | []]. now repeat split.
  - intros [<- | []]. now repeat split.
Qed.

Lemma upload_sane (st : AppState) (file : option File) :
  sane st ->
  sane (uploadState (upload st file))
  /\ forall st', In st' (uploadObserved (upload st file)) -> sane st'.
Proof.
  intros (Herr & Hmime & Hres).
  unfold upload, handleImageUpload. destruct file as [f|].
  2:{ split; [now repeat split | intros st' []]. }
  destruct (maxFileSize <? fileSize f)%N.
  { split; [|intros st' []]. repeat split; try assumption. discriminate. }
  assert (Hobs : sane (setSourcePages []
                         (setResultPages []
                            (setError None (setIsUploading true st))))).
  { repeat split; simpl; try discriminate; try congruence. constructor. }
  destruct (fileType f =? "application/pdf")%string.
  - destruct (readPdf _ _ _ _ _ _ _ _ f) as [log [pages|e]]; simpl.
    + split; [|intros st' [<- | []]; exact Hobs].
      repeat split; simpl; try discriminate. constructor.
    + split; [|intros st' [<- | []]; exact Hobs].
      repeat split; simpl; try congruence; try constructor.
      unfold pdfErrorMessage. discriminate.
  - simpl. split; [|intros st' [<- | []]; exact Hobs].
    repeat split; simpl; try discriminate. constructor.
Qed.

Lemma processImage_sane (w : World) (st : AppState) :
  sane st ->
  sane (finalState (processImage w st))
  /\ forall st', In st' (observed (processImage w st)) -> sane st'.
Proof.
  intros Hsane.
  destruct (processImage_sameDocument generateContent trim w st)
    as [Hfin Hobs].
  destruct Hsane as (Herr & Hmime & Hres).
  destruct (list_eq_dec string_dec (sourcePages st) []) as [Hsrc|Hsrc].
  { rewrite processImage_skipped by (now left). simpl.
    split; [now repeat split | intros st' []]. }
  destruct (sourceMimeType st) as [[|c m]|] eqn:Hm;
    try (rewrite processImage_skipped by (right; now rewrite Hm); simpl;
         split; [repeat split; try assumption; now rewrite Hm
                | intros st' []]).
  split.
  - destruct Hfin as (Hs & Hmt & _).
    destruct (processImage_ran generateContent trim w st (String c m) Hsrc Hm
                ltac:(discriminate)) as (Hpages & _ & _ & _ & Hout).
    repeat split.
    + destruct (outcome (processImage w st)) as [| |e]; [contradiction| |].
      * destruct Hout as (_ & _ & ->). discriminate.
      * destruct Hout as (done & rq & ans & _ & _ & _ & _ & _ & ->).
        intros E. injection E as E.
        now apply (orElse_not_empty (Js.message e) "处理图像时发生错误。").
    + intros _. rewrite Hmt, Hm. discriminate.
    + rewrite Hpages. apply pagesOf_isDataUrl.
  - intros st' Hin. destruct (Hobs st' Hin) as (Hs & Hmt & _).
    apply In_nth_error in Hin. destruct Hin as [k Hk].
    destruct (processImage_observed_at generateContent trim w st st' k Hk)
      as (Hst' & _).
    repeat split.
    + rewrite Hst'. discriminate.
    + intros _. rewrite Hmt, Hm. discriminate.
    + rewrite Hst'. simpl. apply Forall_firstn, pagesOf_isDataUrl.
Qed.

Lemma idle_sane (w : World) (st : AppState) (s : RunStatus) :
  idle w st s -> sane st.
Proof.
  induction 1 as [w | w st s p _ IH | w st s v _ IH | w st s file _ IH
                 | w st s _ IH | w st s pw ph props d _ IH _
                 | w st s _ IH].
  - repeat split; simpl; try discriminate; try congruence. constructor.
  - exact IH.
  - exact IH.
  - exact (proj1 (upload_sane st file IH)).
  - repeat split; simpl; try discriminate; try congruence. constructor.
  - exact IH.
  - exact (proj1 (processImage_sane w st IH)).
Qed.

Lemma visible_sane (st : AppState) (s : RunStatus) : visible st s -> sane st.
Proof.
  intros [w st0 s0 Hidle | w st0 s0 file st' Hidle Hin
         | w st0 s0 st' Hidle Hin].
  - exact (idle_sane w st0 s0 Hidle).
  - exact (proj2 (upload_sane st0 file (idle_sane w st0 s0 Hidle)) st' Hin).
  - exact (proj2 (processImage_sane w st0 (idle_sane w st0 s0 Hidle)) st' Hin).
Qed.

End SessionMore.

Section SessionViews.

Context {World Bytes PdfDocument PdfPage Viewport Canvas : Type}.
Variable generateContent : World -> Request -> Result Response * World.
Variable trim : string -> string.
Variable arrayBuffer : File -> Result Bytes.
Variable getDocument : Bytes -> Result PdfDocument.
Variable numPages : PdfDocument -> nat.
Variable getPage : PdfDocument -> nat -> Result PdfPage.
Variable getViewport : PdfPage -> Q -> Viewport.
Variable getContext2d : nat -> bool.
Variable render : PdfPage -> Viewport -> Result Canvas.
Variable toDataURL : Canvas -> string -> string.
Variable readAsDataURL : File -> string.

#[local] Abbreviation upload :=
  (upload arrayBuffer getDocument numPages getPage getViewport
     getContext2d render toDataURL readAsDataURL).
#[local] Abbreviation idle :=
  (idle generateContent trim arrayBuffer getDocument numPages getPage
     getViewport getContext2d render toDataURL readAsDataURL).
#[local] Abbreviation visible :=
  (visible generateContent trim arrayBuffer getDocument numPages getPage
     getViewport getContext2d render toDataURL readAsDataURL).
#[local] Abbreviation processImage := (processImage generateContent trim).

Lemma upload_flags (st : AppState) (file : option File) :
  isProcessing (uploadState (upload st file)) = isProcessing st
  /\ (isUploading st = false ->
      isUploading (uploadState (upload st file)) = false)
  /\ forall st', In st' (uploadObserved (upload st file)) ->
                 isProcessing st' = isProcessing st
                 /\ isUploading st' = true.
Proof.
  unfold upload, handleImageUpload. destruct file as [f|];
    [|now repeat split].
  destruct (maxFileSize <? fileSize f)%N; [now repeat split|].
  destruct (fileType f =? "application/pdf")%string.
  - destruct (readPdf _ _ _ _ _ _ _ _ f) as [log [pages|e]]; simpl;
      repeat split; try (intros st' [<- | []]; now split); destruct H as [<-|[]];
      reflexivity.
  - simpl. repeat split; destruct H as [<-|[]]; reflexivity.
Qed.

Lemma processImage_flags (w : World) (st : AppState) :
  isProcessing st = false ->
  isProcessing (finalState (processImage w st)) = false.
Proof.
  intros Hp. unfold processImage.
  destruct ((List.length (sourcePages st) =? 0)
            || negb (Js.truthyOpt (sourceMimeType st))); simpl;
    [assumption | now destruct (thrown _)].
Qed.

Lemma idle_flags (w : World) (st : AppState) (s : RunStatus) :
  idle w st s ->
  isProcessing st = false /\ isUploading st = false /\ s <> inFlight.
Proof.
  induction 1 as [w | w st s p _ IH | w st s v _ IH | w st s file _ IH
                 | w st s _ IH | w st s pw ph props d _ IH _
                 | w st s _ IH].
  - now repeat split.
  - exact IH.
  - exact IH.
  - destruct IH as (Hp & Hu & Hs).
    destruct (upload_flags st file) as (Hp' & Hu' & _).
    repeat split; [congruence | now apply Hu' |].
    unfold statusAfterUpload. destruct file as [f|]; [|assumption].
    destruct (maxFileSize <? fileSize f)%N; [assumption | discriminate].
  - destruct IH as (Hp & Hu & Hs). now repeat split.
  - exact IH.
  - destruct IH as (Hp & Hu & Hs).
    destruct (processImage_sameDocument generateContent trim w st)
      as [(_ & _ & _ & _ & Hu' & _) _].
    repeat split; [now apply processImage_flags | congruence |].
    destruct (outcome (processImage w st)); simpl;
      [assumption | discriminate | discriminate].
Qed.

(** In a session whose handlers run one at a time: between handlers
    neither busy flag is up; the processing flag is up exactly in the
    states a run leaves standing at its requests; and the two flags are
    never up together. *)
Theorem busy_flags_follow_the_handlers (st : AppState) (s : RunStatus) :
  visible st s ->
  (isProcessing st = true <-> s = inFlight)
  /\ (isProcessing st = true -> isUploading st = false)
  /\ (forall w, idle w st s ->
        isProcessing st = false /\ isUploading st = false).
Proof.
  intros Hvis. split; [|split].
  - destruct Hvis as [w st0 s0 Hidle | w st0 s0 file st' Hidle Hin
                     | w st0 s0 st' Hidle Hin].
    + destruct (idle_flags w st0 s0 Hidle) as (Hp & _ & Hs).
      split; [congruence | contradiction].
    + destruct (idle_flags w st0 s0 Hidle) as (Hp & _ & _).
      destruct (proj2 (proj2 (upload_flags st0 file)) st' Hin) as [Hp' _].
      split; [congruence | discriminate].
    + apply In_nth_error in Hin. destruct Hin as [k Hk].
      destruct (processImage_observed_at generateContent trim w st0 st' k Hk)
        as (-> & _).
      now split.
  - destruct Hvis as [w st0 s0 Hidle | w st0 s0 file st' Hidle Hin
                     | w st0 s0 st' Hidle Hin]; intros Hp.
    + now destruct (idle_flags w st0 s0 Hidle) as (_ & Hu & _).
    + destruct (idle_flags w st0 s0 Hidle) as (Hp0 & _ & _).
      destruct (proj2 (proj2 (upload_flags st0 file)) st' Hin) as [Hp' _].
      congruence.
    + destruct (idle_flags w st0 s0 Hidle) as (_ & Hu & _).
      destruct (proj2 (processImage_sameDocument generateContent trim w st0)
                  st' Hin) as (_ & _ & _ & _ & Hu' & _).
      congruence.
  - intros w Hidle. destruct (idle_flags w st s Hidle) as (Hp & Hu & _).
    now split.
Qed.

(** In such a session an error that is set always has a text, so the
    banner is on screen exactly when the error is not null, and shows
    it. *)
Theorem error_banner_shows_error (st : AppState) (s : RunStatus) :
  visible st s -> errorBanner st = error st.
Proof.
  intros Hvis.
  destruct (visible_sane generateContent trim arrayBuffer getDocument numPages
              getPage getViewport getContext2d render toDataURL readAsDataURL
              st s Hvis) as (Herr & _).
  unfold errorBanner. destruct (error st) as [[|c e]|]; simpl;
    [congruence | reflexivity | reflexivity].
Qed.

(** In such a session a loaded document always has a MIME type, so with
    pages loaded the start handler returns at its guard exactly when the
    MIME type is the empty string. *)
Theorem loaded_document_skips_on_empty_mime (st : AppState) (s : RunStatus)
    (w : World) :
  visible st s ->
  sourcePages st <> [] ->
  (exists m, sourceMimeType st = Some m)
  /\ (outcome (processImage w st) = skipped <-> sourceMimeType st = Some "").
Proof.
  intros Hvis Hsrc.
  destruct (visible_sane generateContent trim arrayBuffer getDocument numPages
              getPage getViewport getContext2d render toDataURL readAsDataURL
              st s Hvis) as (_ & Hmime & _).
  specialize (Hmime Hsrc).
  destruct (sourceMimeType st) as [[|c m]|] eqn:Hm; [| |congruence].
  - split; [now eexists|].
    rewrite processImage_skipped by (right; now rewrite Hm). now split.
  - split; [now eexists|].
    destruct (processImage_ran generateContent trim w st (String c m) Hsrc Hm
                ltac:(discriminate)) as (_ & _ & _ & _ & Hout).
    split; [|discriminate].
    intros E. rewrite E in Hout. contradiction.
Qed.

(** In such a session every result page on screen is a data URL with a
    base64 payload. *)
Theorem result_pages_are_data_urls (st : AppState) (s : RunStatus) :
  visible st s ->
  Forall (fun page => isDataUrl page = true) (resultPages st).
Proof.
  intros Hvis.
  exact (proj2 (proj2 (visible_sane generateContent trim arrayBuffer
                         getDocument numPages getPage getViewport getContext2d
                         render toDataURL readAsDataURL st s Hvis))).
Qed.

(** In such a session the compare view has an original for every result
    row: the row at index [i] shows source page [i] beside result page
    [i], under the label of page [i + 1]. *)
Theorem compare_rows_have_originals (st : AppState) (s : RunStatus) (i : nat)
    (page : string) :
  visible st s ->
  nth_error (resultPages st) i = Some page ->
  exists original,
    nth_error (sourcePages st) i = Some original
    /\ nth_error (resultRowsFrom compare (sourcePages st) 0 (resultPages st)) i
       = Some (mkResultRow
                 ("第 " ++ Js.numberToString (i + 1) ++ " 页")%string
                 (Some (Some original)) page).
Proof.
  intros Hvis Hnth.
  pose proof (visible_standing generateContent trim arrayBuffer getDocument
                numPages getPage getViewport getContext2d render toDataURL
                readAsDataURL st s Hvis) as Hst.
  assert (Hi : i < List.length (resultPages st))
    by (apply nth_error_Some; congruence).
  assert (Hle : List.length (resultPages st) <= List.length (sourcePages st)).
  { destruct s; unfold standing in Hst; try lia.
    rewrite Hst in Hi. simpl in Hi. lia. }
  destruct (nth_error (sourcePages st) i) as [original|] eqn:Hsrc.
  2:{ apply nth_error_None in Hsrc. lia. }
  exists original. split; [reflexivity|].
  rewrite (resultRowsFrom_nth compare (sourcePages st) (resultPages st) 0 i
             page Hnth).
  simpl. now rewrite Hsrc.
Qed.

End SessionViews.

(** ** Uploading, continued *)

Section UploadFailures.

Context {Bytes PdfDocument PdfPage Viewport Canvas : Type}.
Variable arrayBuffer : File -> Result Bytes.
Variable getDocument : Bytes -> Result PdfDocument.
Variable numPages : PdfDocument -> nat.
Variable getPage : PdfDocument -> nat -> Result PdfPage.
Variable getViewport : PdfPage -> Q -> Viewport.
Variable getContext2d : nat -> bool.
Variable render : PdfPage -> Viewport -> Result Canvas.
Variable toDataURL : Canvas -> string -> string.
Variable readAsDataURL : File -> string.

#[local] Abbreviation rasterizePage :=
  (rasterizePage getPage getViewport getContext2d render toDataURL).
#[local] Abbreviation rasterizeFrom :=
  (rasterizeFrom getPage getViewport getContext2d render toDataURL).
#[local] Abbreviation handleImageUpload :=
  (handleImageUpload arrayBuffer getDocument numPages getPage getViewport
     getContext2d render toDataURL readAsDataURL).
#[local] Abbreviation rendersAt :=
  (rendersAt getPage getViewport getContext2d render).

(** When page [k] of a PDF is the first that fails to load or render,
    the error shown is that page's, the pages before it were each loaded
    and rendered once and in order, and no page after it is touched; the
    source sequence is left empty. *)
Theorem pdf_upload_first_failure (st : AppState) (file : File)
    (typedarray : Bytes) (pdf : PdfDocument) (k : nat) (log : list Call)
    (e : Js.Error) :
  fileType file = "application/pdf" ->
  (fileSize file <= maxFileSize)%N ->
  arrayBuffer file = Ok typedarray ->
  getDocument typedarray = Ok pdf ->
  1 <= k <= numPages pdf ->
  (forall j, 1 <= j < k -> exists page canvas, rendersAt pdf j page canvas) ->
  rasterizePage pdf k = (log, Throw e) ->
  let up := handleImageUpload st (Some file) in
  error (uploadState up)
  = Some ("读取 PDF 文件时发生错误: "
          ++ Js.orElse (Js.message e) "未知错误")%string
  /\ calls up
     = callTimeout :: callArrayBuffer :: callGetDocument
       :: flat_map (fun j => [callGetPage j; callRender j]) (seq 1 (k - 1))
          ++ log
  /\ (forall j, k < j ->
        ~ In (callGetPage j) (calls up) /\ ~ In (callRender j) (calls up))
  /\ sourcePages (uploadState up) = [].
Proof.
  intros Htype Hsize Hbuf Hdoc Hk Hok Hfail up.
  assert (Hup : up = mkUpload
            (resetFileInput
               (setIsUploading false
                  (setError (Some (pdfErrorMessage e))
                     (setSourcePages []
                        (setResultPages []
                           (setError None (setIsUploading true st)))))))
            (callTimeout :: callArrayBuffer :: callGetDocument
               :: flat_map (fun j => [callGetPage j; callRender j])
                    (seq 1 (k - 1)) ++ log)
            [setSourcePages []
               (setResultPages []
                  (setError None (setIsUploading true st)))]).
  { unfold up, handleImageUpload.
    apply N.ltb_ge in Hsize. rewrite Hsize, Htype. simpl.
    unfold readPdf. rewrite Hbuf. simpl. rewrite Hdoc. simpl.
    rewrite (rasterizeFrom_first_failure getPage getViewport getContext2d render
               toDataURL pdf (numPages pdf) 1 [] k log e
               ltac:(lia) Hok Hfail).
    reflexivity. }
  rewrite Hup. simpl. repeat split.
  all: intros Hin; destruct Hin as [Hin|[Hin|[Hin|Hin]]]; try discriminate.
  all: apply in_app_iff in Hin; destruct Hin as [Hin|Hin].
  all: try (apply in_flat_map in Hin; destruct Hin as (j' & Hj' & Hc);
            apply in_seq in Hj';
            destruct Hc as [Hc|[Hc|[]]]; try discriminate;
            injection Hc as ->; lia).
  all: pose proof (rasterizePage_calls getPage getViewport getContext2d render
                     toDataURL pdf k) as Hcalls;
    rewrite Hfail in Hcalls; destruct (Hcalls _ Hin) as [Hc|Hc];
    try discriminate; injection Hc as ->; lia.
Qed.

(** The size limit is inclusive: a file is turned away, with no call
    made, exactly when it has more than 104857600 bytes. *)
Theorem upload_size_limit_is_inclusive (st : AppState) (file : File) :
  calls (handleImageUpload st (Some file)) = []
  <-> (104857600 < fileSize file)%N.
Proof.
  unfold handleImageUpload.
  change maxFileSize with 104857600%N.
  destruct (104857600 <? fileSize file)%N eqn:Hsize.
  - apply N.ltb_lt in Hsize. now split.
  - apply N.ltb_ge in Hsize. split.
    + destruct (fileType file =? "application/pdf")%string.
      * destruct (readPdf _ _ _ _ _ _ _ _ file). discriminate.
      * discriminate.
    + intros H. apply N.lt_nge in H. contradiction.
Qed.

(** An upload never touches the prompt, the view mode or the processing
    flag; one that passes the size check ends with the upload flag down,
    the file input emptied and no result page, and leaves an error only
    together with an empty source sequence. *)
Theorem upload_outcome (st : AppState) (file : option File) :
  let up := handleImageUpload st file in
  userPrompt (uploadState up) = userPrompt st
  /\ viewMode (uploadState up) = viewMode st
  /\ isProcessing (uploadState up) = isProcessing st
  /\ (forall f, file = Some f -> (fileSize f <= maxFileSize)%N ->
        isUploading (uploadState up) = false
        /\ fileInputValue (uploadState up) = ""
        /\ resultPages (uploadState up) = []
        /\ (error (uploadState up) <> None -> sourcePages (uploadState up) = [])).
Proof.
  unfold handleImageUpload. destruct file as [f|].
  2:{ repeat split; discriminate. }
  destruct (maxFileSize <? fileSize f)%N eqn:Hsize.
  { split; [reflexivity | split; [reflexivity | split; [reflexivity|]]].
    intros f' Hf Hle. injection Hf as <-.
    apply N.ltb_lt in Hsize. apply N.lt_nge in Hsize. contradiction. }
  destruct (fileType f =? "application/pdf")%string.
  - destruct (readPdf _ _ _ _ _ _ _ _ f) as [log [pages|e]]; simpl;
      repeat split; intros; simpl in *; congruence.
  - simpl. repeat split; intros; simpl in *; congruence.
Qed.

End UploadFailures.

(** ** The payload of a page *)

Lemma split_lacks (sep : ascii) (s : string) :
  lacks sep s = true -> Js.split sep s = [s].
Proof.
  induction s as [|c s IH]; simpl; intros H; [reflexivity|].
  apply andb_prop in H. destruct H as [Hc Hs].
  apply negb_true_iff in Hc. rewrite Hc, (IH Hs). reflexivity.
Qed.

Lemma split_at_separator (sep : ascii) (a b : string) :
  lacks sep a = true ->
  Js.split sep (a ++ String sep b) = a :: Js.split sep b.
Proof.
  induction a as [|c a IH]; simpl; intros H.
  - now rewrite Ascii.eqb_refl.
  - apply andb_prop in H. destruct H as [Hc Ha].
    apply negb_true_iff in Hc. rewrite Hc, (IH Ha). reflexivity.
Qed.

Lemma lacks_app (sep : ascii) (a b : string) :
  lacks sep (a ++ b) = lacks sep a && lacks sep b.
Proof.
  induction a as [|c a IH]; simpl; [reflexivity|].
  now rewrite IH, andb_assoc.
Qed.

Lemma base64Data_after_comma (head payload : string) :
  lacks "," head = true ->
  lacks "," payload = true ->
  base64Data (head ++ String "," payload) = Some payload.
Proof.
  intros Hhead Hpayload. unfold base64Data.
  now rewrite split_at_separator, split_lacks.
Qed.

(** The payload sent for a page is the text between its first and its
    second comma: all that follows the comma of a data URL whose payload
    has no comma, only the part up to the next comma when it has one, and
    nothing ([undefined]) when the page has no comma at all. *)
Theorem base64Data_is_between_commas (head payload : string) :
  lacks "," head = true ->
  lacks "," payload = true ->
  base64Data (head ++ "," ++ payload) = Some payload
  /\ (forall rest,
        base64Data (head ++ "," ++ payload ++ "," ++ rest) = Some payload)
  /\ base64Data head = None.
Proof.
  intros Hhead Hpayload. repeat split.
  - now apply base64Data_after_comma.
  - intros rest. unfold base64Data.
    change ("," ++ payload ++ "," ++ rest)%string
      with (String "," (payload ++ String "," rest)).
    now rewrite !split_at_separator.
  - unfold base64Data. now rewrite split_lacks.
Qed.

(** What the app encodes it can decode: from a result page built for
    image bytes and a MIME type that hold no comma, [base64Data] gives
    back the bytes. *)
Theorem base64Data_of_imageUrl (d : InlineData) :
  lacks "," (Js.orElse (mimeType d) "image/png") = true ->
  lacks "," (Js.interpolate (data d)) = true ->
  base64Data (imageUrl d) = Some (Js.interpolate (data d)).
Proof.
  intros Hmime Hdata.
  assert (E : imageUrl d
              = (("data:" ++ Js.orElse (mimeType d) "image/png" ++ ";base64")
                 ++ String "," (Js.interpolate (data d)))%string).
  { unfold imageUrl. simpl. do 5 f_equal. now rewrite append_assoc. }
  rewrite E. apply base64Data_after_comma; [|exact Hdata].
  simpl. now rewrite lacks_app, Hmime.
Qed.

(** ** Downloading, continued *)

(** No box of aspect ratio [r] that lies on a page [W] by [H] is wider or
    taller than the one lines 206-213 compute. *)
Lemma fit_box_largest (W H r w h : Q) :
  (0 < W)%Q -> (0 < H)%Q -> (0 < r)%Q ->
  (0 < h)%Q -> (w / h == r)%Q -> (w <= W)%Q -> (h <= H)%Q ->
  (w <= (if Qgtb r (W / H) then W else H * r))%Q
  /\ (h <= (if Qgtb r (W / H) then W / r else H))%Q.
Proof.
  intros HW HH Hr Hh Hratio Hw Hhh.
  assert (HH0 : ~ (H == 0)%Q) by (intros E; rewrite E in HH; lra).
  assert (Hr0 : ~ (r == 0)%Q) by (intros E; rewrite E in Hr; lra).
  assert (Hh0 : ~ (h == 0)%Q) by (intros E; rewrite E in Hh; lra).
  assert (Hwh : (w == r * h)%Q).
  { rewrite <- Hratio. field. assumption. }
  assert (Hq : (W / r * r == W)%Q) by (field; assumption).
  set (q := (W / r)%Q) in *. clearbody q.
  destruct (Qgtb r (W / H)); split; try assumption; nra.
Qed.

Section DownloadMore.

Variables pdfWidth pdfHeight : Q.

#[local] Abbreviation placeImage := (placeImage pdfWidth pdfHeight).

(** The image is placed as large as the page allows: any box with the
    image's aspect ratio that fits the page is no wider and no taller
    than the box the image gets. *)
Theorem placeImage_is_largest_fit (pageData : string)
    (imgProps : ImageProperties) (w h : Q) :
  (0 < pdfWidth)%Q ->
  (0 < pdfHeight)%Q ->
  (0 < h)%Q ->
  (w / h == inject_Z (Zpos (width imgProps))
            / inject_Z (Zpos (height imgProps)))%Q ->
  (w <= pdfWidth)%Q ->
  (h <= pdfHeight)%Q ->
  (w <= boxWidth (placeImage pageData imgProps))%Q
  /\ (h <= boxHeight (placeImage pageData imgProps))%Q.
Proof.
  intros HW HH Hh Hratio Hw Hhh.
  exact (fit_box_largest pdfWidth pdfHeight _ w h HW HH
           (ratio_positive imgProps) Hh Hratio Hw Hhh).
Qed.

End DownloadMore.

Section RunThenDownload.

Context {World : Type}.
Variable generateContent : World -> Request -> Result Response * World.
Variable trim : string -> string.
Variables pdfWidth pdfHeight : Q.
Variable getImageProperties : string -> Result ImageProperties.

#[local] Abbreviation processImage := (processImage generateContent trim).
#[local] Abbreviation placeImage := (placeImage pdfWidth pdfHeight).
#[local] Abbreviation downloadResult :=
  (downloadResult pdfWidth pdfHeight getImageProperties).

(** What a click does on [n >= 2] result pages that all decode. *)
Lemma downloadResult_decoded (st : AppState) :
  1 < List.length (resultPages st) ->
  (forall page, In page (resultPages st) ->
     exists imgProps, getImageProperties page = Ok imgProps) ->
  exists pdf,
    downloadResult st = pdfSave pdf "cleaned_document.pdf"
    /\ List.length (pdfPages pdf) = List.length (resultPages st)
    /\ forall i url,
         nth_error (resultPages st) i = Some url ->
         exists imgProps,
           getImageProperties url = Ok imgProps
           /\ nth_error (pdfPages pdf) i = Some [placeImage url imgProps].
Proof.
  intros Hmany Hall.
  pose proof (downloadResult_cases pdfWidth pdfHeight getImageProperties st)
    as Hcases.
  destruct (decodes_all getImageProperties _ Hall) as [props Hprops].
  exists (mkJsPdf "p" "mm" "a4"
            (placements pdfWidth pdfHeight (resultPages st) props)).
  split; [|split].
  - destruct (resultPages st) as [|a [|b rest]]; simpl in Hmany; try lia.
    exact (proj1 Hcases props Hprops).
  - simpl. exact (placements_length pdfWidth pdfHeight getImageProperties
                    _ _ Hprops).
  - intros i url Hnth.
    exact (placements_nth pdfWidth pdfHeight getImageProperties _ _ Hprops
             i url Hnth).
Qed.

(** After a run that completed, the result sequence has one page per
    source page; the download is the single result as a PNG link for a
    one-page document, and for a longer one whose results the PDF writer
    can decode, a PDF whose page [i] carries the result of source page
    [i]. *)
Theorem download_after_completed_run (w : World) (st : AppState) :
  outcome (processImage w st) = completed ->
  let final := finalState (processImage w st) in
  List.length (resultPages final) = List.length (sourcePages st)
  /\ (List.length (sourcePages st) = 1 ->
      exists url,
        resultPages final = [url]
        /\ downloadResult final = anchorClick url "cleaned_worksheet.png")
  /\ (1 < List.length (sourcePages st) ->
      (forall page, In page (resultPages final) ->
         exists imgProps, getImageProperties page = Ok imgProps) ->
      exists pdf,
        downloadResult final = pdfSave pdf "cleaned_document.pdf"
        /\ List.length (pdfPages pdf) = List.length (sourcePages st)
        /\ forall i url,
             nth_error (resultPages final) i = Some url ->
             exists imgProps,
               getImageProperties url = Ok imgProps
               /\ nth_error (pdfPages pdf) i
                  = Some [placeImage url imgProps]).
Proof.
  intros Hdone final.
  assert (Hlen : List.length (resultPages final) = List.length (sourcePages st)).
  { destruct (list_eq_dec string_dec (sourcePages st) []) as [Hsrc|Hsrc].
    { rewrite processImage_skipped in Hdone by (now left). discriminate. }
    destruct (sourceMimeType st) as [[|c m]|] eqn:Hm;
      try (rewrite processImage_skipped in Hdone
             by (right; now rewrite Hm); discriminate).
    destruct (processImage_ran generateContent trim w st (String c m) Hsrc Hm
                ltac:(discriminate)) as (Hres & _ & _ & _ & Hout).
    rewrite Hdone in Hout. destruct Hout as (Hall & Hiss & _).
    unfold final. rewrite Hres, (proj1 (pagesOf_withImage _ Hall)).
    exact Hiss. }
  split; [exact Hlen | split].
  - intros Hone. rewrite Hone in Hlen.
    pose proof (downloadResult_cases pdfWidth pdfHeight getImageProperties
                  final) as Hdl.
    destruct (resultPages final) as [|url [|b rest]]; simpl in Hlen;
      try discriminate.
    exists url. now split.
  - intros Hmany Hall. rewrite <- Hlen in Hmany |- *.
    exact (downloadResult_decoded final Hmany Hall).
Qed.

(** After a run that stopped at its exchange number [k] (counted from
    0), the [k] pages done before it can still be downloaded: nothing for
    [k = 0], the one page as a PNG link for [k = 1], and for more pages,
    when the PDF writer can decode them, a PDF of [k] pages. *)
Theorem download_after_failed_run (w : World) (st : AppState) (k : nat)
    (rq : Request) (ans : Result Response) :
  nth_error (issued (processImage w st)) k = Some (rq, ans) ->
  answeredWithImage ans = false ->
  let final := finalState (processImage w st) in
  List.length (resultPages final) = k
  /\ downloadButtonVisible final = (0 <? k)
  /\ match k with
     | 0 => downloadResult final = noDownload
     | 1 => exists url,
              resultPages final = [url]
              /\ downloadResult final = anchorClick url "cleaned_worksheet.png"
     | _ =>
         (forall page, In page (resultPages final) ->
            exists imgProps, getImageProperties page = Ok imgProps) ->
         exists pdf,
           downloadResult final = pdfSave pdf "cleaned_document.pdf"
           /\ List.length (pdfPages pdf) = k
           /\ forall i url,
                nth_error (resultPages final) i = Some url ->
                exists imgProps,
                  getImageProperties url = Ok imgProps
                  /\ nth_error (pdfPages pdf) i
                     = Some [placeImage url imgProps]
     end.
Proof.
  intros Hnth Hno final.
  destruct (processImage_stops_at generateContent trim w st k rq ans Hnth Hno)
    as (done & _ & Hlen & Hdone & Hres & _).
  assert (Hk : List.length (resultPages final) = k).
  { unfold final. now rewrite Hres, (proj1 (pagesOf_withImage _ Hdone)). }
  pose proof (downloadResult_cases pdfWidth pdfHeight getImageProperties
                final) as Hdl.
  unfold downloadButtonVisible. rewrite Hk.
  split; [reflexivity | split; [reflexivity|]].
  destruct k as [|[|k]].
  - destruct (resultPages final); [exact Hdl | discriminate].
  - destruct (resultPages final) as [|url [|b rest]]; try discriminate.
    exists url. now split.
  - intros Hall. rewrite <- Hk.
    apply (downloadResult_decoded final); [lia | exact Hall].
Qed.

(** After [clearImage] nothing can be started or downloaded: the start
    handler returns at its guard, there is nothing to download, the start
    button is disabled, the drop target is back, and clear button, error
    banner and download button are gone; clearing again changes
    nothing. *)
Theorem after_clearImage (w : World) (st : AppState) :
  let cleared := clearImage st in
  processImage w cleared = mkRun skipped cleared w [] []
  /\ downloadResult cleared = noDownload
  /\ startDisabled trim cleared = true
  /\ dropTargetVisible cleared = true
  /\ clearButtonVisible cleared = false
  /\ downloadButtonVisible cleared = false
  /\ errorBanner cleared = None
  /\ clearImage cleared = cleared.
Proof. now repeat split. Qed.

End RunThenDownload.

(** ** From upload to download *)

Section EndToEnd.

Context {World Bytes PdfDocument PdfPage Viewport Canvas : Type}.
Variable generateContent : World -> Request -> Result Response * World.
Variable trim : string -> string.
Variable arrayBuffer : File -> Result Bytes.
Variable getDocument : Bytes -> Result PdfDocument.
Variable numPages : PdfDocument -> nat.
Variable getPage : PdfDocument -> nat -> Result PdfPage.
Variable getViewport : PdfPage -> Q -> Viewport.
Variable getContext2d : nat -> bool.
Variable render : PdfPage -> Viewport -> Result Canvas.
Variable toDataURL : Canvas -> string -> string.
Variable readAsDataURL : File -> string.
Variables pdfWidth pdfHeight : Q.
Variable getImageProperties : string -> Result ImageProperties.

#[local] Abbreviation handleImageUpload :=
  (handleImageUpload arrayBuffer getDocument numPages getPage getViewport
     getContext2d render toDataURL readAsDataURL).
#[local] Abbreviation processImage := (processImage generateContent trim).
#[local] Abbreviation downloadResult :=
  (downloadResult pdfWidth pdfHeight getImageProperties).

(** An image file of a known type, uploaded, given an instruction and
    edited: one request goes out, carrying the file's MIME type, the
    payload of the reader's data URL and the trimmed instruction; when
    the answer holds an image, the download is that image under the name
    [cleaned_worksheet.png]. *)
Theorem image_upload_edit_download (st : AppState) (w : World) (file : File)
    (prompt : string) (response : Response) (url : string) :
  fileType file <> "application/pdf" ->
  fileType file <> "" ->
  (fileSize file <= maxFileSize)%N ->
  fst (generateContent w
         (buildRequest trim (fileType file) prompt (readAsDataURL file)))
  = Ok response ->
  interpretResponse response 0 = Ok url ->
  let loaded :=
    setUserPrompt prompt (uploadState (handleImageUpload st (Some file))) in
  let run := processImage w loaded in
  issued run
  = [(buildRequest trim (fileType file) prompt (readAsDataURL file),
      Ok response)]
  /\ imageData (buildRequest trim (fileType file) prompt (readAsDataURL file))
     = base64Data (readAsDataURL file)
  /\ outcome run = completed
  /\ resultPages (finalState run) = [url]
  /\ error (finalState run) = None
  /\ downloadResult (finalState run) = anchorClick url "cleaned_worksheet.png".
Proof.
  intros Htype Hknown Hsize Hanswer Hurl loaded run.
  assert (Hloaded : sourcePages loaded = [readAsDataURL file]
                    /\ sourceMimeType loaded = Some (fileType file)
                    /\ userPrompt loaded = prompt).
  { unfold loaded, handleImageUpload.
    apply N.ltb_ge in Hsize. apply String.eqb_neq in Htype.
    rewrite Hsize, Htype. now repeat split. }
  destruct Hloaded as (Hsrc & Hmime & Hprompt).
  assert (Hrun : run
                 = mkRun completed
                     (setIsProcessing false
                        (setResultPages [url]
                           (setResultPages []
                              (setError None (setIsProcessing true loaded)))))
                     (snd (generateContent w
                             (buildRequest trim (fileType file) prompt
                                (readAsDataURL file))))
                     [(buildRequest trim (fileType file) prompt
                         (readAsDataURL file), Ok response)]
                     [setResultPages []
                        (setError None (setIsProcessing true loaded))]).
  { unfold run.
    rewrite (processImage_entered generateContent trim w loaded
               (fileType file)
               ltac:(rewrite Hsrc; discriminate) Hmime Hknown).
    rewrite Hsrc, Hprompt. simpl.
    destruct (generateContent w _) as [answer w'].
    simpl in Hanswer. subst answer. simpl. rewrite Hurl. reflexivity. }
  rewrite Hrun. now repeat split.
Qed.

End EndToEnd.

(** ** The properties above on the test doubles *)

Lemma fake_edited_visible :
  visible Fake.alwaysImage Fake.noTrim Fake.arrayBuffer (Fake.getDocument 3)
    Fake.numPages Fake.getPage Fake.getViewport Fake.getContext2d
    (Fake.render 0) Fake.toDataURL Fake.readAsDataURL
    Fake.edited allPagesDone.
Proof.
  exact (visible_idle _ _ _ _ _ _ _ _ _ _ _ _ _ _
           (idle_run _ _ _ _ _ _ _ _ _ _ _ _ _ _
              (idle_prompt _ _ _ _ _ _ _ _ _ _ _ _ _ _ "erase the answers"
                 (idle_upload _ _ _ _ _ _ _ _ _ _ _ _ _ _ (Some Fake.pngFile)
                    (idle_init _ _ _ _ _ _ _ _ _ _ _ tt))))).
Defined.

Lemma fake_untyped_visible :
  visible Fake.alwaysImage Fake.noTrim Fake.arrayBuffer (Fake.getDocument 3)
    Fake.numPages Fake.getPage Fake.getViewport Fake.getContext2d
    (Fake.render 0) Fake.toDataURL Fake.readAsDataURL
    Fake.untyped noRun.
Proof.
  exact (visible_idle _ _ _ _ _ _ _ _ _ _ _ _ _ _
           (idle_upload _ _ _ _ _ _ _ _ _ _ _ _ _ _ (Some Fake.untypedFile)
              (idle_init _ _ _ _ _ _ _ _ _ _ _ tt))).
Defined.

Lemma fake_rejected_visible :
  visible Fake.alwaysImage Fake.noTrim Fake.arrayBuffer (Fake.getDocument 3)
    Fake.numPages Fake.getPage Fake.getViewport Fake.getContext2d
    (Fake.render 0) Fake.toDataURL Fake.readAsDataURL
    Fake.rejected noRun.
Proof.
  exact (visible_idle _ _ _ _ _ _ _ _ _ _ _ _ _ _
           (idle_upload _ _ _ _ _ _ _ _ _ _ _ _ _ _ (Some Fake.hugeFile)
              (idle_init _ _ _ _ _ _ _ _ _ _ _ tt))).
Defined.

Lemma fake_unreadable_visible :
  visible Fake.alwaysImage Fake.noTrim Fake.arrayBuffer (Fake.getDocument 3)
    Fake.numPages Fake.getPage Fake.getViewport Fake.getContext2d
    (Fake.render 2) Fake.toDataURL Fake.readAsDataURL
    Fake.unreadable noRun.
Proof.
  exact (visible_idle _ _ _ _ _ _ _ _ _ _ _ _ _ _
           (idle_upload _ _ _ _ _ _ _ _ _ _ _ _ _ _ (Some Fake.pdfFile)
              (idle_init _ _ _ _ _ _ _ _ _ _ _ tt))).
Defined.

Lemma fake_refused_visible :
  visible Fake.refusing Fake.noTrim Fake.arrayBuffer (Fake.getDocument 3)
    Fake.numPages Fake.getPage Fake.getViewport Fake.getContext2d
    (Fake.render 0) Fake.toDataURL Fake.readAsDataURL
    Fake.refused aborted.
Proof.
  exact (visible_idle _ _ _ _ _ _ _ _ _ _ _ _ _ _
           (idle_run _ _ _ _ _ _ _ _ _ _ _ _ _ _
              (idle_prompt _ _ _ _ _ _ _ _ _ _ _ _ _ _ "erase the answers"
                 (idle_upload _ _ _ _ _ _ _ _ _ _ _ _ _ _ (Some Fake.pngFile)
                    (idle_init _ _ _ _ _ _ _ _ _ _ _ tt))))).
Defined.

Lemma run_progress_view_witness :
  let st := Fake.loaded ["data:image/png;base64,AAAA";
                         "data:image/png;base64,BBBB";
                         "data:image/png;base64,CCCC"] (Some "image/png") in
  exists st',
    nth_error (observed (processImage Fake.alwaysImage Fake.noTrim tt st)) 2
    = Some st'
    /\ startLabel Fake.noTrim st' = "AI 正在处理... (2/3)"
    /\ startDisabled Fake.noTrim st' = true
    /\ clearButtonVisible st' = true.
Proof.
  cbv zeta. eexists. split; [reflexivity|].
  pose proof (run_progress_view Fake.alwaysImage Fake.noTrim tt
    (Fake.loaded ["data:image/png;base64,AAAA";
                  "data:image/png;base64,BBBB";
                  "data:image/png;base64,CCCC"] (Some "image/png"))
    _ 2 eq_refl) as H.
  destruct H as (_ & Hdis & Hlabel & _ & Hclear).
  split; [exact Hlabel | split; assumption].
Defined.

Lemma upload_progress_view_witness :
  exists st',
    In st' (uploadObserved (Fake.upload 3 0 Fake.edited (Some Fake.pdfFile)))
    /\ dropTargetVisible st' = true
    /\ dropTargetOpensPicker st' = false
    /\ startDisabled Fake.noTrim st' = true.
Proof.
  eexists. split; [left; reflexivity|].
  pose proof (upload_progress_view Fake.noTrim
    Fake.arrayBuffer (Fake.getDocument 3) Fake.numPages Fake.getPage
    Fake.getViewport Fake.getContext2d (Fake.render 0) Fake.toDataURL
    Fake.readAsDataURL Fake.edited (Some Fake.pdfFile) _
    (or_introl eq_refl)) as H.
  destruct H as (Hdrop & Hpick & Hstart & _).
  split; [exact Hdrop | split; assumption].
Defined.

Lemma busy_flags_follow_the_handlers_witness :
  isProcessing Fake.edited = false /\ isUploading Fake.edited = false.
Proof.
  pose proof (busy_flags_follow_the_handlers
    Fake.alwaysImage Fake.noTrim Fake.arrayBuffer (Fake.getDocument 3)
    Fake.numPages Fake.getPage Fake.getViewport Fake.getContext2d
    (Fake.render 0) Fake.toDataURL Fake.readAsDataURL
    Fake.edited allPagesDone fake_edited_visible) as H.
  destruct H as (Hiff & _ & _).
  split; [|reflexivity].
  destruct (isProcessing Fake.edited) eqn:E; [|reflexivity].
  discriminate (proj1 Hiff eq_refl).
Defined.

Lemma error_banner_shows_error_witness :
  errorBanner Fake.rejected = Some "文件大小不能超过 100MB"
  /\ errorBanner Fake.unreadable
     = Some "读取 PDF 文件时发生错误: render failed"
  /\ errorBanner Fake.refused
     = Some "第 1 页未能生成图像。AI回复: I cannot edit this."
  /\ errorBanner Fake.edited = None.
Proof.
  split; [|split; [|split]].
  - rewrite (error_banner_shows_error
      Fake.alwaysImage Fake.noTrim Fake.arrayBuffer (Fake.getDocument 3)
      Fake.numPages Fake.getPage Fake.getViewport Fake.getContext2d
      (Fake.render 0) Fake.toDataURL Fake.readAsDataURL
      Fake.rejected noRun fake_rejected_visible).
    reflexivity.
  - rewrite (error_banner_shows_error
      Fake.alwaysImage Fake.noTrim Fake.arrayBuffer (Fake.getDocument 3)
      Fake.numPages Fake.getPage Fake.getViewport Fake.getContext2d
      (Fake.render 2) Fake.toDataURL Fake.readAsDataURL
      Fake.unreadable noRun fake_unreadable_visible).
    reflexivity.
  - rewrite (error_banner_shows_error
      Fake.refusing Fake.noTrim Fake.arrayBuffer (Fake.getDocument 3)
      Fake.numPages Fake.getPage Fake.getViewport Fake.getContext2d
      (Fake.render 0) Fake.toDataURL Fake.readAsDataURL
      Fake.refused aborted fake_refused_visible).
    reflexivity.
  - rewrite (error_banner_shows_error
      Fake.alwaysImage Fake.noTrim Fake.arrayBuffer (Fake.getDocument 3)
      Fake.numPages Fake.getPage Fake.getViewport Fake.getContext2d
      (Fake.render 0) Fake.toDataURL Fake.readAsDataURL
      Fake.edited allPagesDone fake_edited_visible).
    reflexivity.
Defined.

Lemma loaded_document_skips_on_empty_mime_witness :
  sourcePages Fake.untyped = ["data:;base64,bm90ZXM="]
  /\ outcome (processImage Fake.alwaysImage Fake.noTrim tt Fake.untyped)
     = skipped.
Proof.
  split; [reflexivity|].
  pose proof (loaded_document_skips_on_empty_mime
    Fake.alwaysImage Fake.noTrim Fake.arrayBuffer (Fake.getDocument 3)
    Fake.numPages Fake.getPage Fake.getViewport Fake.getContext2d
    (Fake.render 0) Fake.toDataURL Fake.readAsDataURL
    Fake.untyped noRun tt fake_untyped_visible ltac:(discriminate)) as H.
  destruct H as [_ Hiff]. apply Hiff. reflexivity.
Defined.

Lemma result_pages_are_data_urls_witness :
  resultPages Fake.edited = ["data:image/png;base64,QUJD"]
  /\ Forall (fun page => isDataUrl page = true) (resultPages Fake.edited).
Proof.
  split; [reflexivity|].
  exact (result_pages_are_data_urls
    Fake.alwaysImage Fake.noTrim Fake.arrayBuffer (Fake.getDocument 3)
    Fake.numPages Fake.getPage Fake.getViewport Fake.getContext2d
    (Fake.render 0) Fake.toDataURL Fake.readAsDataURL
    Fake.edited allPagesDone fake_edited_visible).
Defined.

Lemma compare_rows_have_originals_witness :
  exists original,
    nth_error (sourcePages Fake.edited) 0 = Some original
    /\ nth_error (resultRowsFrom compare (sourcePages Fake.edited) 0
                    (resultPages Fake.edited)) 0
       = Some (mkResultRow "第 1 页" (Some (Some original))
                 "data:image/png;base64,QUJD").
Proof.
  exact (compare_rows_have_originals
    Fake.alwaysImage Fake.noTrim Fake.arrayBuffer (Fake.getDocument 3)
    Fake.numPages Fake.getPage Fake.getViewport Fake.getContext2d
    (Fake.render 0) Fake.toDataURL Fake.readAsDataURL
    Fake.edited allPagesDone 0 "data:image/png;base64,QUJD"
    fake_edited_visible eq_refl).
Defined.

Lemma pdf_upload_first_failure_witness :
  let up := Fake.upload 3 2 initialState (Some Fake.pdfFile) in
  error (uploadState up) = Some "读取 PDF 文件时发生错误: render failed"
  /\ calls up
     = [callTimeout; callArrayBuffer; callGetDocument;
        callGetPage 1; callRender 1; callGetPage 2; callRender 2]
  /\ ~ In (callGetPage 3) (calls up).
Proof.
  cbv zeta.
  pose proof (pdf_upload_first_failure
    Fake.arrayBuffer (Fake.getDocument 3) Fake.numPages Fake.getPage
    Fake.getViewport Fake.getContext2d (Fake.render 2) Fake.toDataURL
    Fake.readAsDataURL initialState Fake.pdfFile "scan.pdf" 3 2
    [callGetPage 2; callRender 2] (Js.newError "render failed")
    eq_refl ltac:(vm_compute; discriminate) eq_refl eq_refl
    ltac:(unfold Fake.numPages; lia)
    ltac:(intros j Hj; assert (j = 1) as -> by lia;
          exists 1, 1; repeat split)
    eq_refl) as H.
  cbv zeta in H. destruct H as (Herr & Hcalls & Hlater & _).
  split; [exact Herr | split; [exact Hcalls|]].
  exact (proj1 (Hlater 3 ltac:(lia))).
Defined.

Lemma base64Data_is_between_commas_witness :
  base64Data "data:image/png;base64,QUJD" = Some "QUJD"
  /\ base64Data "data:image/png;base64" = None.
Proof.
  pose proof (base64Data_is_between_commas "data:image/png;base64" "QUJD"
                eq_refl eq_refl) as H.
  destruct H as (Hfirst & _ & Hnone). split; assumption.
Defined.

Lemma base64Data_of_imageUrl_witness :
  base64Data (imageUrl (mkInlineData (Some "QUJD") None)) = Some "QUJD".
Proof.
  exact (base64Data_of_imageUrl (mkInlineData (Some "QUJD") None)
           eq_refl eq_refl).
Defined.

Lemma placeImage_is_largest_fit_witness :
  (200 <= boxWidth (placeImage 210 297 Fake.widePng
                      (mkImageProperties 16 9)))%Q
  /\ ((225 # 2) <= boxHeight (placeImage 210 297 Fake.widePng
                                (mkImageProperties 16 9)))%Q.
Proof.
  apply (placeImage_is_largest_fit 210 297 Fake.widePng
           (mkImageProperties 16 9) 200 (225 # 2));
    vm_compute; congruence.
Defined.

Lemma download_after_completed_run_witness :
  let st := Fake.loaded ["data:image/png;base64,AAAA";
                         "data:image/png;base64,BBBB"] (Some "image/png") in
  let final :=
    finalState (processImage Fake.scripted Fake.noTrim Fake.pngAnswers st) in
  resultPages final = [Fake.widePng; Fake.tallPng]
  /\ exists pdf,
       downloadResult 210 297 Fake.getImageProperties final
       = pdfSave pdf "cleaned_document.pdf"
       /\ List.length (pdfPages pdf) = 2
       /\ nth_error (pdfPages pdf) 1
          = Some [placeImage 210 297 Fake.tallPng (mkImageProperties 2 3)].
Proof.
  cbv zeta. split; [reflexivity|].
  pose proof (download_after_completed_run Fake.scripted Fake.noTrim
    210 297 Fake.getImageProperties Fake.pngAnswers
    (Fake.loaded ["data:image/png;base64,AAAA";
                  "data:image/png;base64,BBBB"] (Some "image/png"))
    eq_refl) as H.
  cbv zeta in H. destruct H as (_ & _ & Hmany).
  assert (Hall : forall page,
            In page
              (resultPages
                 (finalState
                    (processImage Fake.scripted Fake.noTrim Fake.pngAnswers
                       (Fake.loaded ["data:image/png;base64,AAAA";
                                     "data:image/png;base64,BBBB"]
                          (Some "image/png"))))) ->
            exists imgProps, Fake.getImageProperties page = Ok imgProps).
  { intros page [Hp|[Hp|[]]]; subst page; eexists; vm_compute; reflexivity. }
  destruct (Hmany ltac:(simpl; lia) Hall) as (pdf & Hsave & Hlen & Hpages).
  exists pdf. split; [exact Hsave | split; [exact Hlen|]].
  destruct (Hpages 1 Fake.tallPng eq_refl) as (imgProps & Hprops & Hpage).
  vm_compute in Hprops. injection Hprops as <-. exact Hpage.
Defined.

Lemma download_after_failed_run_witness :
  let st := Fake.loaded ["data:image/png;base64,AAAA";
                         "data:image/png;base64,BBBB";
                         "data:image/png;base64,CCCC"] (Some "image/png") in
  let w := [Ok (Fake.respond [Fake.imagePart (Some Fake.widePayload)
                                (Some "image/png")]);
            Ok (Fake.respond [Fake.imagePart (Some Fake.tallPayload) None]);
            Ok (Fake.respond [Fake.textPart "no"])] in
  let final := finalState (processImage Fake.scripted Fake.noTrim w st) in
  resultPages final = [Fake.widePng; Fake.tallPng]
  /\ downloadButtonVisible final = true
  /\ exists pdf,
       downloadResult 210 297 Fake.getImageProperties final
       = pdfSave pdf "cleaned_document.pdf"
       /\ List.length (pdfPages pdf) = 2
       /\ nth_error (pdfPages pdf) 0
          = Some [placeImage 210 297 Fake.widePng (mkImageProperties 16 9)].
Proof.
  cbv zeta. split; [reflexivity|].
  pose proof (download_after_failed_run Fake.scripted Fake.noTrim
    210 297 Fake.getImageProperties
    [Ok (Fake.respond [Fake.imagePart (Some Fake.widePayload)
                         (Some "image/png")]);
     Ok (Fake.respond [Fake.imagePart (Some Fake.tallPayload) None]);
     Ok (Fake.respond [Fake.textPart "no"])]
    (Fake.loaded ["data:image/png;base64,AAAA";
                  "data:image/png;base64,BBBB";
                  "data:image/png;base64,CCCC"] (Some "image/png"))
    2
    (buildRequest Fake.noTrim "image/png" "erase the answers"
       "data:image/png;base64,CCCC")
    (Ok (Fake.respond [Fake.textPart "no"]))
    eq_refl eq_refl) as H.
  cbv zeta in H. destruct H as (_ & Hbutton & Hpdf).
  split; [exact Hbutton|].
  assert (Hall : forall page,
            In page [Fake.widePng; Fake.tallPng] ->
            exists imgProps, Fake.getImageProperties page = Ok imgProps).
  { intros page [Hp|[Hp|[]]]; subst page; eexists; vm_compute; reflexivity. }
  destruct (Hpdf Hall) as (pdf & Hsave & Hlen & Hpages).
  exists pdf. split; [exact Hsave | split; [exact Hlen|]].
  destruct (Hpages 0 Fake.widePng eq_refl) as (imgProps & Hprops & Hpage).
  vm_compute in Hprops. injection Hprops as <-. exact Hpage.
Defined.

Lemma image_upload_edit_download_witness :
  downloadResult 210 297 Fake.getImageProperties
    (finalState
       (processImage Fake.alwaysImage Fake.noTrim tt
          (setUserPrompt "erase the answers"
             (uploadState (Fake.upload 3 0 initialState (Some Fake.pngFile))))))
  = anchorClick "data:image/png;base64,QUJD" "cleaned_worksheet.png".
Proof.
  pose proof (image_upload_edit_download
    Fake.alwaysImage Fake.noTrim
    Fake.arrayBuffer (Fake.getDocument 3) Fake.numPages Fake.getPage
    Fake.getViewport Fake.getContext2d (Fake.render 0) Fake.toDataURL
    Fake.readAsDataURL 210 297 Fake.getImageProperties
    initialState tt Fake.pngFile "erase the answers"
    (Fake.respond [Fake.imagePart (Some "QUJD") (Some "image/png")])
    "data:image/png;base64,QUJD"
    ltac:(discriminate) ltac:(discriminate) ltac:(vm_compute; discriminate)
    eq_refl eq_refl) as H.
  cbv zeta in H. exact (proj2 (proj2 (proj2 (proj2 (proj2 H))))).
Defined.
